(* ===== verification/_CoqProject ===== *)
-Q . S2P
Prelude.v
Common.v
Bytes.v
AsciiStr.v
StrBuf.v
Reader.v
Writer.v
Format.v
Read.v
Write.v
Codec.v
Database.v
Merge.v
Compile.v
Driver.v
