(* ===== verification/Prelude.v ===== *)
(** * DivaModCompiler: a verification development

    The program compiles the sprites of game mods into the game's binary
    sprite-set container, registers them in a sprite database and merges
    them with the data of the base game.  This library models the parts of
    it that compute: the binary codec of
    [src/DivaModCompiler/src/comfy/file_format_spr_set.cpp], the merge, the
    registration and the manifest handling of
    [src/DivaModCompiler/src/sprite.cpp], and the string helpers of
    [src/DivaModCompiler/src/comfy/core_string.h].

    ** The program

    [main] calls [Sprite::CompileSpriteData] for every mod.  It reads the
    mod's manifest ([ParseSpriteInfo]), and for every set of sprites whose
    source images all exist ([CheckSetInfoEligibleForPacking]) it packs the
    images into a [SprSet] ([PackSpriteSet], an external packer), adds an
    entry for the set, its sprites and its textures to the sprite database,
    taking identifiers from the global counter [CurrentSpriteId], appends
    the base game's set of the same name ([MergeBaseSpriteData], which
    loads it with [SprSet::Read]), and writes the set with
    [SprSet::Write].  Reading and writing go through [IO::Reader] and
    [IO::Writer], which resolve and produce relative pointers.

    ** Files, in dependency order

    - [Prelude] (this file): tactics, hint databases, lemmas on lists and
      integers.
    - [Common]: [file_format_common.h].  The enum [StreamResult] and the
      monad [M] of the stateful routines: a computation takes a state and
      returns a state with a value ([Val]), an early [return r;] of the
      enclosing C++ function ([Ret]), undefined behaviour ([Undef]) or
      exhausted fuel ([NoFuel]).  Loops ([for_each], [for_each_from],
      [repeat_n]), their invariant rules, and the rule
      [for_each_from_refine] that relates a loop to the list function
      [mapM_from] it implements.
    - [Bytes]: integers at their width ([to_u8], [to_u32], [to_i32]),
      little-endian encoding ([u8], [u16], [u32]), reading and writing a
      buffer at a position ([peek], [poke]), null-terminated strings.
    - [AsciiStr]: [namespace ASCII] of [core_string.h], one definition per
      function, on strings of 8-bit characters.
    - [StrBuf]: the fixed-buffer helpers of [core_string.h] and
      [ForEachLineInMultiLineString], whose pointers are indices.
    - [Reader], [Writer]: [IO::Reader] and [IO::Writer].  Their header is
      not part of the repository; they are modelled from their contract.
      The reader is a buffer, a cursor and a stack of base offsets; the
      writer a buffer, a cursor, a queue of scheduled bodies and a list of
      scheduled strings.
    - [Format]: the records [MipMap], [Tex], [TexSet], [Spr], [SprSet] and
      the signatures [TxpSig]; [Tex::GetSignature] is a type class.
    - [Read]: [Tex::Read], [TexSet::Read], [SprSet::Read], [LoadFile].
    - [Write]: [TexSet::Write], [SprSet::Write]; the lambdas handed to
      [ScheduleWriteOffset] are the constructors of [Body].
    - [Codec]: sets written by [Write] and read back by [Read].
    - [Database]: the records of [sprite.h] and of the sprite database,
      the counter [CurrentSpriteId] ([next_id]) and the ledger [issued] of
      the identifiers taken from it.
    - [Merge]: [GetSpriteIndex], [GetTextureNameWithNewIndex],
      [MergeBaseSpriteData]; the file system and the parser of the base
      database are the class [Environment]; [merge_spec] is the merge as a
      function.
    - [Compile]: [ParseSpriteInfo], [CheckSetInfoEligibleForPacking],
      [PackSpriteSet], [CompileSpriteSetsWithDB], [CompileSpriteData]; the
      JSON parser, the image reader and the packers are the class
      [Toolchain]; [register_spec] is the registration as a function.
    - [Driver]: [main] of [main.cpp]; the directory listing is the class
      [FileSystem], the vector [cumulativeSetsInfo] and the directories
      created are part of the state.

    ** How the code is modelled

    - Machine integers are [Z] kept at their width: a value read from a
      stream is the little-endian combination of its bytes, a value written
      is wrapped to its width; signed 32-bit values go through [to_i32];
      [CurrentSpriteId++] wraps around at 2^32.
    - Bytes are [Byte.byte], buffers are [list byte], positions are [nat].
    - A 32-bit float is modelled by its bit pattern: the codec only copies
      the four bytes of a float and never computes with it.
    - A C++ object mutated in place ([this], a captured reference) is a
      component of the state of [M]; a failing [Read] therefore leaves the
      partially filled object behind, as the code does.
    - A C++ lambda handed to the reader or writer is a computation of [M];
      the lambdas handed to [ScheduleWriteOffset], which the writer stores
      and runs later, are defunctionalised into an inductive type of bodies
      with one constructor per lambda of the source.
    - Undefined behaviour of the C++ program is the outcome [Undef]: a
      division by zero, a null pointer that is dereferenced, an index
      outside a vector, a signed overflow, a string that does not fit its
      buffer.  A theorem that a routine returns states the conditions
      under which none of them occurs.

    ** What the theorems show

    - Merge ([Merge]): [MergeBaseSpriteData] implements [merge_spec]
      (refinement, both directions); merged sprites have their texture
      index shifted by the number of packed textures; base textures are
      appended and renumbered; the database entries carry the positions of
      the merged data and consecutive identifiers; without base files the
      merge changes nothing; a base database without the set, or a texture
      name without underscore, is undefined behaviour; the conditions
      under which the merge returns.
    - Registration ([Compile]): [register_set] implements
      [register_spec]; a set with a missing source image contributes
      nothing; the identifiers of all entries of a database are pairwise
      distinct until the counter wraps; texture entries index the
      textures; [ParseSpriteInfo] as two filters.
    - The run ([Driver]): the ledger of identifiers is kept across the
      calls of the compiler ([run_ledger]), so that the identifiers of all
      the databases of a run are pairwise distinct until the counter
      wraps; the cumulative sets of all mods reach the final call in the
      order of the directory listing; a mod without manifest contributes
      nothing.
    - Strings ([AsciiStr], [StrBuf]): [MatchesInsensitive] is equality
      of the lower-case copies, and an equivalence relation ([matches]);
      [ForEachInCharSeparatedList] computes the structural reference
      [values_of] and never runs out of fuel; [Trim] on a string
      surrounded by whitespace and on a string of whitespace; a string
      copied into a fixed buffer is read back, cut to the buffer; the
      last line of a text keeps its line terminator.
    - Decoding ([Read]): the error paths of [Tex::Read]; the results
      [SprSet::Read] can report, by the outcome rules [returns_in] and
      [values_in] of [Common].
    - Encoding ([Writer], [Write]): a routine of the writer is specified
      by [schedules]: run on a writer whose cursor is at the end of the
      buffer and whose pointer slots lie in the buffer ([steady]), it
      returns, keeps the writer steady and appends to the queue bodies
      that can run ([body_ok]) at a bounded cost ([body_cost]).  From the
      rules for each operation, [FlushScheduledWrites_drains] shows that
      the drain loop returns with an empty queue when it has fuel for the
      cost of the queue; [TexSet_Write_returns] and [SprSet_Write_returns]
      follow, and [SprSet_Write_aligned] gives the 16-byte alignment of
      the file and of the pointer to the texture set.
    - Round trips ([Codec]): a cube map, a sprite set with names and a
      sprite set without textures are read back as written; a
      two-dimensional texture of two array slices is not.

    ** Fuel

    The loops of [ForEachInCharSeparatedList] and
    [ForEachLineInMultiLineString] advance an index in every iteration;
    their models take the size of the string plus one as fuel, which
    [separated_from_values] shows to be enough for the former.
    [FlushScheduledWrites] drains a queue that grows while it is drained;
    its model takes fuel, one unit for every body run.  [SprSet_fuel] and
    [TexSet_fuel] give the number of bodies the two [Write] routines
    schedule: four for a sprite set, and one for every texture and every
    mip map of its texture set.  That this fuel is enough is the content
    of [TexSet_Write_returns] and [SprSet_Write_returns]: [body_cost]
    charges a texture body for itself and for the mip map bodies it
    schedules, and the drain loop consumes one unit per body.

    ** What is not modelled

    The directory listing, JSON parsing, image decoding, the sprite
    packer and the archive packer are external and appear as the classes
    [FileSystem], [Environment] and [Toolchain]; the files the program
    writes are not read back by it: [Environment] does not change during
    a run.  The Windows
    string conversions and the number parsers of [core_string.cpp], which
    forward to [WideCharToMultiByte], [MultiByteToWideChar] and
    [std::from_chars], the [wchar_t] variants of the fixed-buffer helpers
    and the performance counters of [core_type.cpp] are calls into the
    operating system or the standard library.  The size of
    a vector is not bounded: an index of type [int32_t] or [size_t] that
    counts elements of a vector does not overflow in the model. *)

From Stdlib Require Import ZArith Lia List.
From stdpp Require Import base tactics option list numbers.

#[global] Open Scope Z_scope.

(** ** Hint databases

    [stream] holds the resolution hints on stream computations; the
    rewrite database [run] the equations that execute one step of a stream
    computation, and [bytes] those that normalise lengths of byte
    sequences. *)
Create HintDb stream discriminated.
Create Rewrite HintDb bytes.
Create Rewrite HintDb run.

(** ** Tactics *)

(** [lia] also decides goals with division and remainder by constants,
    which the wrap-around of machine integers needs. *)
Ltac Zify.zify_post_hook ::= Z.div_mod_to_equations.

(** Case analysis on the first [if] or [match] scrutinee of the goal. *)
Ltac case_goal :=
  match goal with
  | |- context [if ?b then _ else _] => destruct b eqn:?
  | |- context [match ?x with _ => _ end] => destruct x eqn:?
  end.

(** Turn boolean comparisons on [Z] and [nat] in the context into
    propositions, then call [lia]. *)
Ltac blia :=
  repeat match goal with
  | H : (_ <=? _) = true |- _ => apply Z.leb_le in H
  | H : (_ <=? _) = false |- _ => apply Z.leb_gt in H
  | H : (_ <? _) = true |- _ => apply Z.ltb_lt in H
  | H : (_ <? _) = false |- _ => apply Z.ltb_ge in H
  | H : (_ =? _) = true |- _ => apply Z.eqb_eq in H
  | H : (_ =? _) = false |- _ => apply Z.eqb_neq in H
  | H : (_ <=? _)%nat = true |- _ => apply Nat.leb_le in H
  | H : (_ <=? _)%nat = false |- _ => apply Nat.leb_gt in H
  | H : (_ <? _)%nat = true |- _ => apply Nat.ltb_lt in H
  | H : (_ <? _)%nat = false |- _ => apply Nat.ltb_ge in H
  | H : (_ =? _)%nat = true |- _ => apply Nat.eqb_eq in H
  | H : (_ =? _)%nat = false |- _ => apply Nat.eqb_neq in H
  end; lia.

(** Equality of two states that differ in arithmetic expressions only. *)
Ltac state_eq := repeat first [done | lia | progress f_equal].

(** ** Lists *)

Section Lists.
Context {A : Type}.
Implicit Types l k : list A.

Lemma take_app_length' l k n : n = length l -> take n (l ++ k) = l.
Proof. intros ->. apply take_app_length. Qed.

Lemma drop_app_length' l k n : n = length l -> drop n (l ++ k) = k.
Proof. intros ->. apply drop_app_length. Qed.

(** A list is determined by its length and its lookups. *)
Lemma list_eq_same_length' l k :
  length l = length k ->
  (forall i x y, l !! i = Some x -> k !! i = Some y -> x = y) ->
  l = k.
Proof.
  intros Hlen Hel. apply list_eq. intros i.
  destruct (l !! i) as [x|] eqn:Hx, (k !! i) as [y|] eqn:Hy; try done.
  - f_equal. eauto.
  - apply lookup_lt_Some in Hx. apply lookup_ge_None in Hy. lia.
  - apply lookup_lt_Some in Hy. apply lookup_ge_None in Hx. lia.
Qed.
End Lists.

Lemma sum_list_app (l k : list nat) : sum_list (l ++ k) = (sum_list l + sum_list k)%nat.
Proof. induction l as [|x l IH]; simpl; [done|]. rewrite IH. lia. Qed.

#[export] Hint Rewrite @length_app @length_take @length_drop @length_replicate
  @length_cons @length_nil : bytes.

(** ** Integers *)

Lemma Z_mod_pow2_range z n : 0 <= n -> 0 <= z mod 2 ^ n < 2 ^ n.
Proof. intros. apply Z.mod_pos_bound. by apply Z.pow_pos_nonneg. Qed.

(** Rounding a position up to a multiple of [n]. *)
Lemma Nat_round_up_mod (p n : nat) :
  (n <> 0)%nat -> ((p + (n - p mod n) mod n) mod n = 0)%nat.
Proof.
  intros Hn.
  pose proof (Nat.mod_upper_bound p n Hn) as Hlt.
  destruct (decide (p mod n = 0)%nat) as [H0|Hne].
  - rewrite H0, Nat.sub_0_r, Nat.Div0.mod_same, Nat.add_0_r. done.
  - rewrite (Nat.mod_small (n - p mod n) n) by lia.
    rewrite (Nat.div_mod_eq p n) at 1.
    replace (n * (p / n) + p mod n + (n - p mod n))%nat
      with ((1 + p / n) * n)%nat by lia.
    apply Nat.Div0.mod_mul.
Qed.
