(* ===== verification/Common.v ===== *)
(** * Common: stream results and the monad of stream computations

    [StreamResult] is the enum of [file_format_common.h].  The rest of the
    file is the model's counterpart of C++ control flow: a routine that
    reads or writes a stream is a computation [M S A] over a state [S] (the
    reader or writer together with the objects it mutates), and an early
    [return r;] is the outcome [Ret r], which [function] turns into the
    routine's result at the routine's boundary. *)

From Stdlib Require Import ZArith Lia List.
From stdpp Require Import base tactics option list numbers.
From S2P Require Import Prelude.

(** ** file_format_common.h: [enum class StreamResult : u8] *)

Inductive StreamResult : Set :=
| Success
| BadFormat
| BadCount
| BadPointer
| InsufficientSpace
| UnknownError
| Count.

#[export] Instance StreamResult_eq_dec : EqDecision StreamResult.
Proof. solve_decision. Defined.

(** The enumerators' values, in declaration order from 0. *)
Definition StreamResult_value (r : StreamResult) : Z :=
  match r with
  | Success => 0 | BadFormat => 1 | BadCount => 2 | BadPointer => 3
  | InsufficientSpace => 4 | UnknownError => 5 | Count => 6
  end.

(** ** Outcomes and computations *)

Inductive Res (A : Type) : Type :=
| Val (a : A)             (* the computation went on with value [a] *)
| Ret (r : StreamResult)  (* [return r;] left the enclosing function *)
| Undef                   (* the C++ program has undefined behaviour *)
| NoFuel.                 (* the model's fuel ran out *)
Arguments Val {A} a.
Arguments Ret {A} r.
Arguments Undef {A}.
Arguments NoFuel {A}.

#[export] Instance Res_eq_dec {A} `{EqDecision A} : EqDecision (Res A).
Proof. solve_decision. Defined.

Definition M (S A : Type) : Type := S -> Res A * S.

Section Monad.
Context {S : Type}.

Definition ret {A} (a : A) : M S A := fun s => (Val a, s).

Definition bind {A B} (m : M S A) (k : A -> M S B) : M S B :=
  fun s =>
    match m s with
    | (Val a, s') => k a s'
    | (Ret r, s') => (Ret r, s')
    | (Undef, s') => (Undef, s')
    | (NoFuel, s') => (NoFuel, s')
    end.

(** [return r;] *)
Definition Return {A} (r : StreamResult) : M S A := fun s => (Ret r, s).

Definition undefined {A} : M S A := fun s => (Undef, s).
Definition no_fuel {A} : M S A := fun s => (NoFuel, s).

Definition get : M S S := fun s => (Val s, s).
Definition gets {A} (f : S -> A) : M S A := fun s => (Val (f s), s).
Definition put (s : S) : M S unit := fun _ => (Val tt, s).
Definition modify (f : S -> S) : M S unit := fun s => (Val tt, f s).

(** [if (b) m;] *)
Definition when (b : bool) (m : M S unit) : M S unit :=
  if b then m else ret tt.

(** The boundary of a C++ function whose return type is [StreamResult]:
    a [return r;] executed anywhere in [body] is the function's value. *)
Definition function (body : M S StreamResult) : M S StreamResult :=
  fun s =>
    match body s with
    | (Ret r, s') => (Val r, s')
    | other => other
    end.

(** The boundary of a [void] lambda: [return;] is modelled by [Ret] of the
    value the lambda left in the variable it reports through. *)
Definition lambda (body : M S StreamResult) : M S StreamResult :=
  function body.

(** [for (auto& x : l) f(x);] *)
Fixpoint for_each {A} (l : list A) (f : A -> M S unit) : M S unit :=
  match l with
  | [] => ret tt
  | x :: l' => bind (f x) (fun _ => for_each l' f)
  end.

(** [for (i = 0; i < n; i++) body;] where [body] does not mention [i]. *)
Fixpoint repeat_n (n : nat) (body : M S unit) : M S unit :=
  match n with
  | O => ret tt
  | Datatypes.S n' => bind body (fun _ => repeat_n n' body)
  end.
End Monad.

(** Running a computation on one component of a pair state. *)
Definition on_fst {S O A} (m : M S A) : M (S * O) A :=
  fun so => let '(r, s') := m so.1 in (r, (s', so.2)).
Definition on_snd {S O A} (m : M O A) : M (S * O) A :=
  fun so => let '(r, o') := m so.2 in (r, (so.1, o')).

(** Running a computation of an object of its own (a method call on a
    freshly constructed [init]); [store] puts the object, as the call left
    it, into the caller's state. *)
Definition call_with {S O O' A} (init : O') (m : M (S * O') A)
    (store : O' -> O -> O) : M (S * O) A :=
  fun so => let '(r, (s', o')) := m (so.1, init) in (r, (s', store o' so.2)).

Declare Scope stream_scope.
Delimit Scope stream_scope with stream.
Notation "x <- m ;; k" := (bind m (fun x => k))
  (at level 100, m at next level, right associativity) : stream_scope.
Notation "m ;; k" := (bind m (fun _ => k))
  (at level 100, right associativity) : stream_scope.
#[global] Open Scope stream_scope.

(** ** Laws and execution equations *)

Section Laws.
Context {S : Type}.
Implicit Types s : S.

Lemma bind_ret_l {A B} (a : A) (k : A -> M S B) s : bind (ret a) k s = k a s.
Proof. done. Qed.

Lemma bind_ret_r {A} (m : M S A) s : bind m ret s = m s.
Proof. unfold bind. by destruct (m s) as [[]]. Qed.

Lemma bind_assoc {A B C} (m : M S A) (k : A -> M S B) (h : B -> M S C) s :
  bind (bind m k) h s = bind m (fun a => bind (k a) h) s.
Proof. unfold bind. by destruct (m s) as [[]]. Qed.

Lemma bind_ext {A B} (m : M S A) (k k' : A -> M S B) s :
  (forall a s', k a s' = k' a s') -> bind m k s = bind m k' s.
Proof. intros H. unfold bind. destruct (m s) as [[]]; auto. Qed.

Lemma bind_val {A B} (m : M S A) (k : A -> M S B) s a s' :
  m s = (Val a, s') -> bind m k s = k a s'.
Proof. unfold bind. by intros ->. Qed.

Lemma bind_Ret {A B} (m : M S A) (k : A -> M S B) s r s' :
  m s = (Ret r, s') -> bind m k s = (Ret r, s').
Proof. unfold bind. by intros ->. Qed.

Lemma bind_Undef {A B} (m : M S A) (k : A -> M S B) s s' :
  m s = (Undef, s') -> bind m k s = (Undef, s').
Proof. unfold bind. by intros ->. Qed.

Lemma function_val (body : M S StreamResult) s r s' :
  body s = (Val r, s') \/ body s = (Ret r, s') -> function body s = (Val r, s').
Proof. unfold function. by intros [-> | ->]. Qed.

Lemma function_ext (body body' : M S StreamResult) s :
  body s = body' s -> function body s = function body' s.
Proof. unfold function. by intros ->. Qed.

(** A function never lets an early return escape. *)
Lemma function_no_Ret (body : M S StreamResult) s r s' :
  function body s <> (Ret r, s').
Proof. unfold function. by destruct (body s) as [[]]. Qed.

Lemma for_each_app {A} (l1 l2 : list A) (f : A -> M S unit) s :
  for_each (l1 ++ l2) f s = bind (for_each l1 f) (fun _ => for_each l2 f) s.
Proof.
  revert s. induction l1 as [|x l1 IH]; intros s; simpl; [done|].
  rewrite bind_assoc. apply bind_ext. auto.
Qed.

Lemma repeat_n_add (n m : nat) (body : M S unit) s :
  repeat_n (n + m) body s = bind (repeat_n n body) (fun _ => repeat_n m body) s.
Proof.
  revert s. induction n as [|n IH]; intros s; simpl; [done|].
  rewrite bind_assoc. apply bind_ext. auto.
Qed.
End Laws.

#[export] Hint Rewrite @bind_ret_l : run.

(** ** Object state *)

(** Running a computation on a member of the object ([this->member.f()]). *)
Definition zoom {S O O' A} (proj : O -> O') (store : O' -> O -> O)
    (m : M (S * O') A) : M (S * O) A :=
  fun so => let '(r, (s', o')) := m (so.1, proj so.2) in (r, (s', store o' so.2)).

(** Reading and updating the object of a method ([this], or the variables a
    lambda captured by reference). *)
Definition get_obj {S O} : M (S * O) O := fun so => (Val so.2, so).
Definition modify_obj {S O} (f : O -> O) : M (S * O) unit :=
  fun so => (Val tt, (so.1, f so.2)).

(** [for (auto& x : l) x = f(x);], the elements updated in order. *)
Fixpoint map_M {S A} (f : A -> M S A) (l : list A) : M S (list A) :=
  match l with
  | [] => ret []
  | x :: l' => x' <- f x ;; l'' <- map_M f l' ;; ret (x' :: l'')
  end.

(** [idx = start; for (auto& x : l) { f(idx, x); idx++; }] *)
Fixpoint for_each_from {S A} (start : nat) (l : list A) (f : nat -> A -> M S unit)
    : M S unit :=
  match l with
  | [] => ret tt
  | x :: l' => f start x ;; for_each_from (Datatypes.S start) l' f
  end.

(** A pointer or an index that must be valid: dereferencing it otherwise
    is undefined behaviour. *)
Definition defined {S A} (o : option A) : M S A :=
  match o with
  | Some a => ret a
  | None => undefined
  end.

Lemma for_each_from_app {S A} (start : nat) (l1 l2 : list A) (f : nat -> A -> M S unit) s :
  for_each_from start (l1 ++ l2) f s =
  bind (for_each_from start l1 f) (fun _ => for_each_from (start + length l1) l2 f) s.
Proof.
  revert start s. induction l1 as [|x l1 IH]; intros start s; simpl.
  - by rewrite Nat.add_0_r.
  - rewrite bind_assoc. apply bind_ext. intros _ s'. rewrite IH.
    by replace (Datatypes.S start + length l1)%nat with (start + Datatypes.S (length l1))%nat by lia.
Qed.

(** ** Inversion and loop invariants *)

Section Inversion.
Context {S : Type}.
Implicit Types s : S.

(** A sequence that returns normally was made of two steps that did. *)
Lemma bind_Val_inv {A B} (m : M S A) (k : A -> M S B) s b s' :
  bind m k s = (Val b, s') ->
  exists a s1, m s = (Val a, s1) /\ k a s1 = (Val b, s').
Proof. unfold bind. destruct (m s) as [[a| | |] s1]; try done. eauto. Qed.

Lemma defined_Val_inv {A} (o : option A) s a s' :
  defined o s = (Val a, s') -> o = Some a /\ s' = s.
Proof. destruct o; simpl; [|done]. by intros [= -> ->]. Qed.

Lemma when_Val_inv (b : bool) (m : M S unit) s s' :
  when b m s = (Val tt, s') ->
  (b = true /\ m s = (Val tt, s')) \/ (b = false /\ s' = s).
Proof. destruct b; simpl; [by left|]. intros [= <-]. by right. Qed.

(** An invariant of an indexed loop that returns normally. *)
Lemma for_each_from_inv {A} (P : nat -> S -> Prop) (f : nat -> A -> M S unit)
    (l : list A) (start : nat) s s' :
  (forall i x s1 s2, l !! i = Some x -> P i s1 ->
     f (start + i)%nat x s1 = (Val tt, s2) -> P (Datatypes.S i) s2) ->
  P 0%nat s ->
  for_each_from start l f s = (Val tt, s') ->
  P (length l) s'.
Proof.
  revert P start s. induction l as [|x l IH]; intros P start s Hstep H0 Hrun.
  - simpl in Hrun. by injection Hrun as <-.
  - simpl in Hrun. apply bind_Val_inv in Hrun as ([] & s1 & Hx & Hrest).
    apply (IH (fun i => P (Datatypes.S i)) (Datatypes.S start) s1); [| |done].
    + intros i y s2 s3 Hy HP Hf. apply (Hstep (Datatypes.S i) y s2 s3); [done..|].
      by replace (start + Datatypes.S i)%nat with (Datatypes.S start + i)%nat by lia.
    + apply (Hstep 0%nat x s s1); [done..|]. by rewrite Nat.add_0_r.
Qed.

Lemma for_each_inv {A} (P : nat -> S -> Prop) (f : A -> M S unit) (l : list A) s s' :
  (forall i x s1 s2, l !! i = Some x -> P i s1 ->
     f x s1 = (Val tt, s2) -> P (Datatypes.S i) s2) ->
  P 0%nat s ->
  for_each l f s = (Val tt, s') ->
  P (length l) s'.
Proof.
  revert P s. induction l as [|x l IH]; intros P s Hstep H0 Hrun.
  - simpl in Hrun. by injection Hrun as <-.
  - simpl in Hrun. apply bind_Val_inv in Hrun as ([] & s1 & Hx & Hrest).
    apply (IH (fun i => P (Datatypes.S i)) s1); [| |done].
    + intros i y s2 s3 Hy HP Hf. by apply (Hstep (Datatypes.S i) y s2 s3).
    + by apply (Hstep 0%nat x s s1).
Qed.

(** A loop whose steps all return normally returns normally. *)
Lemma for_each_from_total {A} (P : nat -> S -> Prop) (f : nat -> A -> M S unit)
    (l : list A) (start : nat) s :
  (forall i x s1, l !! i = Some x -> P i s1 ->
     exists s2, f (start + i)%nat x s1 = (Val tt, s2) /\ P (Datatypes.S i) s2) ->
  P 0%nat s ->
  exists s', for_each_from start l f s = (Val tt, s') /\ P (length l) s'.
Proof.
  revert P start s. induction l as [|x l IH]; intros P start s Hstep H0.
  - by exists s.
  - destruct (Hstep 0%nat x s) as (s1 & Hx & H1); [done..|].
    rewrite Nat.add_0_r in Hx.
    destruct (IH (fun i => P (Datatypes.S i)) (Datatypes.S start) s1) as (s' & Hr & HP);
      [|done|].
    + intros i y s2 Hy HP. destruct (Hstep (Datatypes.S i) y s2) as (s3 & Hf & H3); [done..|].
      exists s3. split; [|done].
      by replace (Datatypes.S start + i)%nat with (start + Datatypes.S i)%nat by lia.
    + exists s'. split; [|done]. simpl. by rewrite (bind_val _ _ _ _ _ Hx).
Qed.

Lemma for_each_total {A} (P : nat -> S -> Prop) (f : A -> M S unit) (l : list A) s :
  (forall i x s1, l !! i = Some x -> P i s1 ->
     exists s2, f x s1 = (Val tt, s2) /\ P (Datatypes.S i) s2) ->
  P 0%nat s ->
  exists s', for_each l f s = (Val tt, s') /\ P (length l) s'.
Proof.
  revert P s. induction l as [|x l IH]; intros P s Hstep H0.
  - by exists s.
  - destruct (Hstep 0%nat x s) as (s1 & Hx & H1); [done..|].
    destruct (IH (fun i => P (Datatypes.S i)) s1) as (s' & Hr & HP); [|done|].
    + intros i y s2 Hy HP. by apply (Hstep (Datatypes.S i) y s2).
    + exists s'. split; [|done]. simpl. by rewrite (bind_val _ _ _ _ _ Hx).
Qed.
End Inversion.

(** Invert a hypothesis stating that a sequence returned normally. *)
Ltac inv_bind H :=
  let a := fresh "a" in
  let s := fresh "s" in
  let H1 := fresh H in
  apply bind_Val_inv in H as (a & s & H1 & H).

(** ** Loops that build lists

    An indexed loop whose every step either is undefined or pushes one
    element computes what [mapM_from] specifies. *)

(** [f] on the elements of [l] with their indices from [i]; nothing if
    any is undefined. *)
Fixpoint mapM_from {A B} (i : nat) (f : nat -> A -> option B) (l : list A)
    : option (list B) :=
  match l with
  | [] => Some []
  | x :: l' => b ← f i x; bs ← mapM_from (Datatypes.S i) f l'; Some (b :: bs)
  end.

(** The state after the steps for [bs], taken from index [i]. *)
Fixpoint fold_from {B S} (i : nat) (step : nat -> B -> S -> S) (bs : list B) (s : S) : S :=
  match bs with
  | [] => s
  | b :: bs' => fold_from (Datatypes.S i) step bs' (step i b s)
  end.

Section Refine.
Context {S A B : Type}.
Context (f : nat -> A -> M S unit) (g : nat -> A -> option B).
Context (step : nat -> B -> S -> S) (R : nat -> S -> Prop).
Context (Hstep : forall i x s s', R i s ->
           (f i x s = (Val tt, s') <-> exists b, g i x = Some b /\ s' = step i b s)).
Context (HR : forall i b s, R i s -> R (Datatypes.S i) (step i b s)).

Lemma for_each_from_refine (l : list A) (start : nat) (s s' : S) :
  R start s ->
  for_each_from start l f s = (Val tt, s') <->
  exists bs, mapM_from start g l = Some bs /\ s' = fold_from start step bs s.
Proof.
  revert start s. induction l as [|x l IH]; intros start s HRs; simpl.
  - split; [intros [= <-]; by exists [] | by intros (bs & [= <-] & ->)].
  - split.
    + intros Hrun. apply bind_Val_inv in Hrun as ([] & s1 & Hx & Hrest).
      apply Hstep in Hx as (b & Hb & ->); [|done].
      apply IH in Hrest as (bs & Hbs & ->); [|by apply HR].
      exists (b :: bs). by rewrite Hb, Hbs.
    + intros (bs & Hbs & ->). destruct (g start x) as [b|] eqn:Hb; [|done].
      simpl in Hbs. destruct (mapM_from _ g l) as [bs'|] eqn:Hbs'; [|done].
      simpl in Hbs. injection Hbs as <-. simpl.
      rewrite (bind_val _ _ s tt (step start b s)).
      * apply IH; [by apply HR|]. by exists bs'.
      * apply Hstep; [done|]. by exists b.
Qed.
End Refine.

Lemma length_mapM_from {A B} (i : nat) (f : nat -> A -> option B) l bs :
  mapM_from i f l = Some bs -> length bs = length l.
Proof.
  revert i bs. induction l as [|x l IH]; intros i bs; simpl; [by intros [= <-]|].
  destruct (f i x); [|done]. simpl. destruct (mapM_from _ f l) eqn:E; [|done].
  simpl. intros [= <-]. simpl. f_equal. eauto.
Qed.

(** Each element of the result is [f] of the element of the list, at its
    index. *)
Lemma lookup_mapM_from {A B} (i : nat) (f : nat -> A -> option B) l bs j x :
  mapM_from i f l = Some bs -> l !! j = Some x ->
  exists b, bs !! j = Some b /\ f (i + j)%nat x = Some b.
Proof.
  revert i bs j. induction l as [|y l IH]; intros i bs j; simpl; [done|].
  destruct (f i y) as [b|] eqn:Hb; [|done]. simpl.
  destruct (mapM_from _ f l) as [bs'|] eqn:E; [|done]. simpl. intros [= <-].
  destruct j as [|j]; simpl.
  - intros [= <-]. exists b. by rewrite Nat.add_0_r.
  - intros Hx. destruct (IH _ _ _ E Hx) as (b' & ? & ?). exists b'. split; [done|].
    by replace (i + Datatypes.S j)%nat with (Datatypes.S i + j)%nat by lia.
Qed.

(** [mapM_from] is defined as soon as [f] is on every element. *)
Lemma mapM_from_is_Some {A B} (i : nat) (f : nat -> A -> option B) l :
  (forall j x, l !! j = Some x -> is_Some (f (i + j)%nat x)) ->
  is_Some (mapM_from i f l).
Proof.
  revert i. induction l as [|y l IH]; intros i Hf; simpl; [done|].
  destruct (Hf 0%nat y) as [b Hb]; [done|]. rewrite Nat.add_0_r in Hb. rewrite Hb. simpl.
  destruct (IH (Datatypes.S i)) as [bs ->]; [|done].
  intros j x Hx. specialize (Hf (Datatypes.S j) x Hx).
  by replace (Datatypes.S i + j)%nat with (i + Datatypes.S j)%nat by lia.
Qed.

(** A projection of the results that depends on the element only, and one
    that depends on the index only. *)
Lemma fmap_mapM_from {A B C} (i : nat) (f : nat -> A -> option B) l bs
    (h : B -> C) (k : A -> C) :
  mapM_from i f l = Some bs ->
  (forall j x b, f j x = Some b -> h b = k x) ->
  h <$> bs = k <$> l.
Proof.
  intros Hbs Hh. revert i bs Hbs. induction l as [|x l IH]; intros i bs; simpl.
  - by intros [= <-].
  - destruct (f i x) as [b|] eqn:Hb; [|done]. simpl.
    destruct (mapM_from _ f l) as [bs'|] eqn:E; [|done]. simpl. intros [= <-].
    simpl. f_equal; eauto.
Qed.

Lemma fmap_mapM_from_index {A B C} (i : nat) (f : nat -> A -> option B) l bs
    (h : B -> C) (k : nat -> C) :
  mapM_from i f l = Some bs ->
  (forall j x b, f j x = Some b -> h b = k j) ->
  h <$> bs = k <$> seq i (length l).
Proof.
  intros Hbs Hh. revert i bs Hbs. induction l as [|x l IH]; intros i bs; simpl.
  - by intros [= <-].
  - destruct (f i x) as [b|] eqn:Hb; [|done]. simpl.
    destruct (mapM_from _ f l) as [bs'|] eqn:E; [|done]. simpl. intros [= <-].
    simpl. f_equal; eauto.
Qed.

(** The outcome of a computation that is neither a value nor an early
    return: undefined behaviour. *)
Lemma defined_None {S A} (s : S) : defined (A:=A) None s = (Undef, s).
Proof. done. Qed.

(** ** Loops that skip elements, and calls on objects *)

(** Elements on which the body does nothing can be left out of a loop. *)
Lemma for_each_filter {S A} (P : A -> Prop) `{!forall x, Decision (P x)}
    (l : list A) (f : A -> M S unit) s :
  (forall x s, ~ P x -> f x s = (Val tt, s)) ->
  for_each l f s = for_each (filter P l) f s.
Proof.
  intros Hskip. revert s. induction l as [|x l IH]; intros s; [done|].
  rewrite filter_cons. destruct (decide (P x)) as [HP|HP]; simpl.
  - apply bind_ext. auto.
  - unfold bind. by rewrite Hskip.
Qed.

Lemma call_with_Val_inv {S O O' A} (init : O') (m : M (S * O') A)
    (store : O' -> O -> O) so a so' :
  call_with init m store so = (Val a, so') ->
  exists s' o', m (so.1, init) = (Val a, (s', o')) /\ so' = (s', store o' so.2).
Proof.
  unfold call_with. destruct (m _) as [r [s' o']]. intros [= -> <-]. eauto.
Qed.

Lemma zoom_Val_inv {S O O' A} (proj : O -> O') (store : O' -> O -> O)
    (m : M (S * O') A) so a so' :
  zoom proj store m so = (Val a, so') ->
  exists s' o', m (so.1, proj so.2) = (Val a, (s', o')) /\ so' = (s', store o' so.2).
Proof.
  unfold zoom. destruct (m _) as [r [s' o']]. intros [= -> <-]. eauto.
Qed.

(** ** What a routine can return

    [returns_in P m]: every early [return r;] that leaves [m] has [P r];
    [values_in P m]: every value [m] ends with has [P a].  The rules
    follow the structure of a routine, so that the results a C++ function
    can report are read off its body ([function_outcome]). *)

Definition returns_in {S A} (P : StreamResult -> Prop) (m : M S A) : Prop :=
  forall s r s', m s = (Ret r, s') -> P r.

Definition values_in {S A} (P : A -> Prop) (m : M S A) : Prop :=
  forall s a s', m s = (Val a, s') -> P a.

Section Outcomes.
Context {S : Type}.
Implicit Types P : StreamResult -> Prop.

Lemma returns_in_ret {A} P (a : A) : returns_in (S:=S) P (ret a).
Proof. by intros s r s'. Qed.

Lemma returns_in_Return {A} P r : P r -> returns_in (S:=S) (A:=A) P (Return r).
Proof. by intros HP s r' s' [= <- _]. Qed.

Lemma returns_in_undefined {A} P : returns_in (S:=S) (A:=A) P undefined.
Proof. by intros s r s'. Qed.

Lemma returns_in_bind {A B} P (m : M S A) (k : A -> M S B) :
  returns_in P m -> (forall a, returns_in P (k a)) -> returns_in P (bind m k).
Proof.
  intros Hm Hk s r s'. unfold bind. destruct (m s) as [[a|r1| |] s1] eqn:E; try done.
  - apply Hk.
  - intros [= <- <-]. by eapply Hm.
Qed.

Lemma returns_in_when P (b : bool) (m : M S unit) :
  (b = true -> returns_in P m) -> returns_in P (when b m).
Proof. destruct b; simpl; [auto|]. intros _. apply returns_in_ret. Qed.

Lemma returns_in_function P (body : M S StreamResult) : returns_in P (function body).
Proof. intros s r s'. unfold function. by destruct (body s) as [[] ?]. Qed.

Lemma returns_in_for_each {A} P (l : list A) (f : A -> M S unit) :
  (forall x, returns_in P (f x)) -> returns_in P (for_each l f).
Proof.
  intros Hf. induction l as [|x l IH]; simpl; [apply returns_in_ret|].
  by apply returns_in_bind.
Qed.

Lemma returns_in_for_each_from {A} P (l : list A) (f : nat -> A -> M S unit) start :
  (forall i x, returns_in P (f i x)) -> returns_in P (for_each_from start l f).
Proof.
  intros Hf. revert start. induction l as [|x l IH]; intros start; simpl;
    [apply returns_in_ret|].
  by apply returns_in_bind.
Qed.

Lemma returns_in_repeat_n P (n : nat) (body : M S unit) :
  returns_in P body -> returns_in P (repeat_n n body).
Proof.
  intros Hb. induction n as [|n IH]; simpl; [apply returns_in_ret|].
  by apply returns_in_bind.
Qed.

Lemma returns_in_map_M {A} P (f : A -> M S A) (l : list A) :
  (forall x, returns_in P (f x)) -> returns_in P (map_M f l).
Proof.
  intros Hf. induction l as [|x l IH]; simpl; [apply returns_in_ret|].
  apply returns_in_bind; [done|]. intros x'.
  apply returns_in_bind; [done|]. intros l'. apply returns_in_ret.
Qed.

Lemma values_in_bind {A B} (P : B -> Prop) (m : M S A) (k : A -> M S B) :
  (forall a, values_in P (k a)) -> values_in P (bind m k).
Proof.
  intros Hk s b s' Hrun. apply bind_Val_inv in Hrun as (a & s1 & _ & Hk'). by eapply Hk.
Qed.

Lemma values_in_ret {A} (P : A -> Prop) (a : A) : P a -> values_in (S:=S) P (ret a).
Proof. by intros HP s a' s' [= <- _]. Qed.

(** The results of a function: the values of its body and what it
    returns early. *)
Lemma function_outcome (P Q : StreamResult -> Prop) (body : M S StreamResult) :
  values_in P body -> returns_in Q body ->
  values_in (fun r => P r \/ Q r) (function body).
Proof.
  intros HP HQ s r s'. unfold function.
  destruct (body s) as [[r1|r1| |] s1] eqn:E; intros [= <- <-]; [left|right]; eauto.
Qed.
End Outcomes.

Lemma returns_in_get_obj {S O} P : returns_in P (get_obj (S:=S) (O:=O)).
Proof. by intros s r s'. Qed.

Lemma returns_in_modify_obj {S O} P (f : O -> O) : returns_in P (modify_obj (S:=S) f).
Proof. by intros s r s'. Qed.

Lemma returns_in_zoom {S O O' A} P (proj : O -> O') (store : O' -> O -> O)
    (m : M (S * O') A) :
  returns_in P m -> returns_in P (zoom proj store m).
Proof.
  intros Hm s r s'. unfold zoom. destruct (m _) as [r1 [s1 o1]] eqn:E.
  intros [= -> _]. by eapply Hm.
Qed.

#[export] Hint Resolve returns_in_ret returns_in_undefined returns_in_function
  returns_in_get_obj returns_in_modify_obj : stream.

(** The returns of a routine, by the structure of its body. *)
(** [m ;; (k ;; h)] against [(m ;; k) ;; h], for a chain of steps. *)
Ltac bind_reassoc :=
  repeat (rewrite bind_assoc; apply bind_ext; intros ? ?; cbv beta); reflexivity.

Ltac solve_returns :=
  repeat first
    [ done
    | solve [auto with stream]
    | apply returns_in_function
    | apply returns_in_bind; [|intros ?]
    | apply returns_in_when; intros ?
    | apply returns_in_Return
    | apply returns_in_repeat_n
    | apply returns_in_for_each; intros ?
    | apply returns_in_for_each_from; intros ? ?
    | apply returns_in_map_M; intros ?
    | apply returns_in_zoom ].
