(* ===== verification/Bytes.v ===== *)
(** * Bytes: scalars at their width and byte buffers

    The byte-level facts the reader and the writer share: little-endian
    encodings of the scalar types of the streams (on top of coqutil's
    [le_split] and [le_combine]), the casts between 32-bit unsigned and
    signed values, reading a window of a buffer ([peek], zero beyond the
    end), overwriting or extending a buffer at a position ([poke]) and
    null-terminated strings. *)

From Stdlib Require Import ZArith Lia List Strings.Byte Strings.String.
From stdpp Require Import base tactics option list numbers.
From coqutil Require Import Byte Word.LittleEndianList.
From S2P Require Import Prelude.

Abbreviation byte := Init.Byte.byte.
Abbreviation x00 := Init.Byte.x00.

#[export] Instance byte_eq_dec : EqDecision byte.
Proof.
  intros x y. destruct (Byte.eqb x y) eqn:E.
  - left. by apply Byte.byte_dec_bl.
  - right. by apply Byte.eqb_false.
Defined.

(** ** Scalars *)

Definition to_u8 (z : Z) : Z := z mod 256.
Definition to_u16 (z : Z) : Z := z mod 65536.
Definition to_u32 (z : Z) : Z := z mod 4294967296.
(** [static_cast<int32_t>]: the value congruent to [z] in [-2^31, 2^31). *)
Definition to_i32 (z : Z) : Z := (z + 2147483648) mod 4294967296 - 2147483648.

Definition u8 (z : Z) : list byte := le_split 1 z.
Definition u16 (z : Z) : list byte := le_split 2 z.
Definition u32 (z : Z) : list byte := le_split 4 z.

Definition is_u8 (z : Z) : Prop := 0 <= z < 256.
Definition is_u32 (z : Z) : Prop := 0 <= z < 4294967296.
Definition is_i32 (z : Z) : Prop := -2147483648 <= z < 2147483648.

#[export] Instance is_u8_dec z : Decision (is_u8 z).
Proof. unfold is_u8. apply _. Defined.
#[export] Instance is_u32_dec z : Decision (is_u32 z).
Proof. unfold is_u32. apply _. Defined.
#[export] Instance is_i32_dec z : Decision (is_i32 z).
Proof. unfold is_i32. apply _. Defined.

Section Scalars.
Implicit Types z : Z.

Lemma length_u8 z : length (u8 z) = 1%nat.
Proof. apply length_le_split. Qed.
Lemma length_u16 z : length (u16 z) = 2%nat.
Proof. apply length_le_split. Qed.
Lemma length_u32 z : length (u32 z) = 4%nat.
Proof. apply length_le_split. Qed.

Lemma le_combine_u8 z : le_combine (u8 z) = to_u8 z.
Proof. unfold u8. by rewrite le_combine_split. Qed.
Lemma le_combine_u16 z : le_combine (u16 z) = to_u16 z.
Proof. unfold u16. by rewrite le_combine_split. Qed.
Lemma le_combine_u32 z : le_combine (u32 z) = to_u32 z.
Proof. unfold u32. by rewrite le_combine_split. Qed.

Lemma to_u8_range z : is_u8 (to_u8 z).
Proof. unfold is_u8, to_u8. lia. Qed.
Lemma to_u32_range z : is_u32 (to_u32 z).
Proof. unfold is_u32, to_u32. lia. Qed.
Lemma to_i32_range z : is_i32 (to_i32 z).
Proof. unfold is_i32, to_i32. lia. Qed.

Lemma to_u8_id z : is_u8 z -> to_u8 z = z.
Proof. unfold is_u8, to_u8. intros. by apply Z.mod_small. Qed.
Lemma to_u32_id z : is_u32 z -> to_u32 z = z.
Proof. unfold is_u32, to_u32. intros. by apply Z.mod_small. Qed.
Lemma to_i32_id z : is_i32 z -> to_i32 z = z.
Proof. unfold is_i32, to_i32. intros. rewrite Z.mod_small; lia. Qed.

(** The two casts between [u32] and [i32] lose nothing. *)
Lemma to_i32_to_u32 z : to_i32 (to_u32 z) = to_i32 z.
Proof.
  unfold to_i32, to_u32.
  by rewrite Zplus_mod_idemp_l.
Qed.
Lemma to_u32_to_i32 z : to_u32 (to_i32 z) = to_u32 z.
Proof.
  unfold to_i32, to_u32.
  rewrite Zminus_mod_idemp_l. f_equal. lia.
Qed.

Lemma to_i32_pos z : is_u32 z -> 0 < to_i32 z -> to_i32 z = z.
Proof. unfold is_u32, to_i32. intros. lia. Qed.

Lemma u32_to_u32 z : u32 (to_u32 z) = u32 z.
Proof. unfold u32, to_u32. symmetry. apply (le_split_mod z 4). Qed.
Lemma u32_to_i32 z : u32 (to_i32 z) = u32 z.
Proof. by rewrite <- u32_to_u32, to_u32_to_i32, u32_to_u32. Qed.
Lemma u8_to_u8 z : u8 (to_u8 z) = u8 z.
Proof. unfold u8, to_u8. symmetry. apply (le_split_mod z 1). Qed.

Lemma to_u32_idem z : to_u32 (to_u32 z) = to_u32 z.
Proof. unfold to_u32. apply Zmod_mod. Qed.

Lemma to_u32_add_l a b : to_u32 (to_u32 a + b) = to_u32 (a + b).
Proof. unfold to_u32. by rewrite Zplus_mod_idemp_l. Qed.

(** Counting up with wrap-around. *)
Lemma to_u32_succ z (n : nat) :
  to_u32 (to_u32 (z + Z.of_nat n) + 1) = to_u32 (z + Z.of_nat (S n)).
Proof. unfold to_u32. rewrite Zplus_mod_idemp_l. f_equal. lia. Qed.

Lemma le_combine_range4 (bs : list byte) :
  length bs = 4%nat -> is_u32 (le_combine bs).
Proof. intros H. pose proof (le_combine_bound bs) as Hb. by rewrite H in Hb. Qed.
Lemma le_combine_range1 (bs : list byte) :
  length bs = 1%nat -> is_u8 (le_combine bs).
Proof. intros H. pose proof (le_combine_bound bs) as Hb. by rewrite H in Hb. Qed.
End Scalars.

#[export] Hint Rewrite length_u8 length_u16 length_u32 : bytes.
#[export] Hint Rewrite le_combine_u8 le_combine_u16 le_combine_u32 : run.
#[export] Hint Resolve to_u8_range to_u32_range to_i32_range : stream.

(** ** Buffers *)

Definition zeros (n : nat) : list byte := replicate n x00.

(** The [n] bytes at position [p]; zero where the buffer has ended. *)
Definition peek (p n : nat) (d : list byte) : list byte :=
  take n (drop p d ++ zeros n).

(** The buffer with [bs] written at position [p]: bytes in range are
    overwritten, the buffer grows (zero-filled up to [p]) as needed. *)
Definition poke (p : nat) (bs d : list byte) : list byte :=
  take p (d ++ zeros (p - length d)) ++ bs ++ drop (p + length bs) d.

Section Buffers.
Implicit Types d bs : list byte.
Implicit Types p n : nat.

Lemma length_zeros n : length (zeros n) = n.
Proof. apply length_replicate. Qed.

Lemma length_peek p n d : length (peek p n d) = n.
Proof. unfold peek. rewrite length_take, length_app, length_zeros. lia. Qed.

Lemma length_poke p bs d :
  length (poke p bs d) = (length d `max` (p + length bs))%nat.
Proof.
  unfold poke. rewrite !length_app, length_take, length_app, length_zeros, length_drop.
  lia.
Qed.

(** Inside the buffer [peek] is a plain window. *)
Lemma peek_in_range p n d :
  (p + n <= length d)%nat -> peek p n d = take n (drop p d).
Proof.
  intros H. unfold peek. rewrite take_app_le; [done|]. rewrite length_drop. lia.
Qed.

Lemma peek_app_r p n d1 d2 :
  (length d1 <= p)%nat -> peek p n (d1 ++ d2) = peek (p - length d1) n d2.
Proof. intros H. unfold peek. by rewrite drop_app_ge. Qed.

Lemma peek_app_l p n d1 d2 :
  (p + n <= length d1)%nat -> peek p n (d1 ++ d2) = peek p n d1.
Proof.
  intros H. rewrite !peek_in_range by (rewrite ?length_app; lia).
  rewrite drop_app_le by lia. rewrite take_app_le; [done|]. rewrite length_drop. lia.
Qed.

Lemma peek_here n bs d : n = length bs -> peek 0 n (bs ++ d) = bs.
Proof.
  intros ->. unfold peek. rewrite drop_0, <- app_assoc. by rewrite take_app_length.
Qed.

Lemma peek_at p n bs d1 d2 :
  p = length d1 -> n = length bs -> peek p n (d1 ++ bs ++ d2) = bs.
Proof.
  intros -> ->. rewrite peek_app_r by lia. rewrite Nat.sub_diag. by apply peek_here.
Qed.

(** Writing at the end appends. *)
Lemma poke_end bs d : poke (length d) bs d = d ++ bs.
Proof.
  unfold poke. rewrite Nat.sub_diag. simpl. rewrite app_nil_r, firstn_all.
  rewrite drop_ge by lia. by rewrite app_nil_r.
Qed.

(** Writing inside the buffer keeps what is before and after. *)
Lemma poke_in_range p bs d :
  (p + length bs <= length d)%nat ->
  poke p bs d = take p d ++ bs ++ drop (p + length bs) d.
Proof.
  intros H. unfold poke. replace (p - length d)%nat with 0%nat by lia.
  simpl. by rewrite app_nil_r.
Qed.

Lemma poke_app_l p bs d1 d2 :
  (p + length bs <= length d1)%nat -> poke p bs (d1 ++ d2) = poke p bs d1 ++ d2.
Proof.
  intros H. rewrite !poke_in_range by (rewrite ?length_app; lia).
  rewrite take_app_le by lia. rewrite drop_app_le by lia.
  by rewrite <- !app_assoc.
Qed.

Lemma poke_at bs bs' d1 d2 :
  length bs = length bs' ->
  poke (length d1) bs (d1 ++ bs' ++ d2) = d1 ++ bs ++ d2.
Proof.
  intros Hlen. rewrite poke_in_range by (rewrite !length_app; lia).
  rewrite take_app_length. rewrite drop_app_ge by lia.
  replace (length d1 + length bs - length d1)%nat with (length bs') by lia.
  by rewrite drop_app_length.
Qed.

Lemma peek_poke_same p bs d : peek p (length bs) (poke p bs d) = bs.
Proof.
  unfold poke. apply peek_at; [|done].
  rewrite length_take, length_app, length_zeros. lia.
Qed.

(** A write does not disturb a window that ends before it. *)
Lemma peek_poke_before p n q bs d :
  (p + n <= q)%nat -> (q <= length d)%nat -> peek p n (poke q bs d) = peek p n d.
Proof.
  intros H1 H2. unfold poke. replace (q - length d)%nat with 0%nat by lia.
  simpl. rewrite app_nil_r.
  rewrite peek_app_l by (rewrite length_take; lia).
  rewrite <- (take_drop q d) at 2.
  by rewrite peek_app_l by (rewrite length_take; lia).
Qed.

(** A write does not disturb a window that starts after it. *)
Lemma drop_poke_after p q bs d :
  (q + length bs <= p)%nat -> (q + length bs <= length d)%nat ->
  drop p (poke q bs d) = drop p d.
Proof.
  intros H1 H2. rewrite poke_in_range by done.
  rewrite !drop_app_ge; rewrite ?length_take; try lia.
  rewrite drop_drop. f_equal. lia.
Qed.

Lemma peek_poke_after p n q bs d :
  (q + length bs <= p)%nat -> (q + length bs <= length d)%nat ->
  peek p n (poke q bs d) = peek p n d.
Proof. intros H1 H2. unfold peek. by rewrite drop_poke_after. Qed.
End Buffers.

#[export] Hint Rewrite length_zeros length_peek length_poke : bytes.

(** ** Null-terminated strings *)

(** The bytes of [d] before its first zero byte (all of [d] if none). *)
Fixpoint cstr (d : list byte) : list byte :=
  match d with
  | [] => []
  | b :: d' => if decide (b = x00) then [] else b :: cstr d'
  end.

Definition no_nul (bs : list byte) : Prop := x00 ∉ bs.

#[export] Instance no_nul_dec bs : Decision (no_nul bs).
Proof. unfold no_nul. apply _. Defined.

Lemma cstr_app_nul bs d : no_nul bs -> cstr (bs ++ x00 :: d) = bs.
Proof.
  unfold no_nul. induction bs as [|b bs IH]; intros Hn; simpl.
  - done.
  - apply not_elem_of_cons in Hn as [Hb Hn].
    rewrite decide_False by done. by rewrite IH.
Qed.

Lemma cstr_no_nul d : no_nul (cstr d).
Proof.
  unfold no_nul. induction d as [|b d IH]; simpl; [apply not_elem_of_nil|].
  case_decide; [apply not_elem_of_nil|]. apply not_elem_of_cons. done.
Qed.

Lemma length_cstr d : (length (cstr d) <= length d)%nat.
Proof. induction d as [|b d IH]; simpl; [done|]. case_decide; simpl; lia. Qed.

(** The bytes of a [std::string], and back. *)
Definition bytes_of (s : string) : list byte := list_byte_of_string s.
Definition string_of (bs : list byte) : string := string_of_list_byte bs.

Lemma string_of_bytes_of s : string_of (bytes_of s) = s.
Proof. apply string_of_list_byte_of_string. Qed.
Lemma bytes_of_string_of bs : bytes_of (string_of bs) = bs.
Proof. apply list_byte_of_string_of_list_byte. Qed.
Lemma length_bytes_of s : length (bytes_of s) = String.length s.
Proof. induction s as [|c s IH]; simpl; [done|]. by f_equal. Qed.

#[export] Hint Rewrite string_of_bytes_of bytes_of_string_of : run.
