(* ===== verification/AsciiStr.v ===== *)
(** * AsciiStr: the string helpers of [core_string.h]

    [namespace ASCII]: character classes, case conversion, prefix and
    suffix tests, trimming and splitting, on [std::string_view] modelled as
    [string].  A [char] is signed, as the C++ of the program's platform
    has it: its value is in [-128, 128).  [std::string_view::npos] is
    [None]. *)

From Stdlib Require Import ZArith Lia List Strings.String Strings.Ascii.
From stdpp Require Import base tactics option list numbers strings.
From S2P Require Import Prelude.



(** ** Characters *)

(** The value of a [char]. *)
Definition char_value (c : ascii) : Z :=
  let n := Z.of_N (N_of_ascii c) in if n <? 128 then n else n - 256.

(** The [char] of value [z], as the conversion from [int] truncates it. *)
Definition char_of (z : Z) : ascii := ascii_of_N (Z.to_N (z mod 256)).

(** Line 33. *)
Definition BoolToCStr (value : bool) : string := if value then "true" else "false".

(** Line 84. *)
Definition WhitespaceCharacters : string :=
  String " " (String "009" (String "013" (String "010" EmptyString))).
(** Line 85: ['A' - 'a']. *)
Definition CaseDifference : Z := char_value "A" - char_value "a".
(** Lines 86-87. *)
Definition LowerCaseMin : ascii := "a".
Definition LowerCaseMax : ascii := "z".
Definition UpperCaseMin : ascii := "A".
Definition UpperCaseMax : ascii := "Z".

(** Line 89. *)
Definition IsWhitespace (c : ascii) : bool :=
  bool_decide (c = " "%char) || bool_decide (c = "009"%char)
  || bool_decide (c = "013"%char) || bool_decide (c = "010"%char).

(** Line 90. *)
Fixpoint IsAllWhitespace (v : string) : bool :=
  match v with
  | EmptyString => true
  | String c v' => if negb (IsWhitespace c) then false else IsAllWhitespace v'
  end.

(** Lines 92-95. *)
Definition IsLowerCase (c : ascii) : bool :=
  (char_value c >=? char_value LowerCaseMin) && (char_value c <=? char_value LowerCaseMax).
Definition IsUpperCase (c : ascii) : bool :=
  (char_value c >=? char_value UpperCaseMin) && (char_value c <=? char_value UpperCaseMax).
Definition ToLowerCase (c : ascii) : ascii :=
  if IsUpperCase c then char_of (char_value c - CaseDifference) else c.
Definition ToUpperCase (c : ascii) : ascii :=
  if IsLowerCase c then char_of (char_value c + CaseDifference) else c.

(** ** Strings *)

(** [for (char& c : out) c = f(c);] *)
Fixpoint map_chars (f : ascii -> ascii) (s : string) : string :=
  match s with
  | EmptyString => EmptyString
  | String c s' => String (f c) (map_chars f s')
  end.

(** The loop of [MatchesInsensitive], lines 102-106, on strings of the
    same size. *)
Fixpoint matches_from (a b : string) : bool :=
  match a, b with
  | String ca a', String cb b' =>
      if negb (bool_decide (ToLowerCase ca = ToLowerCase cb)) then false
      else matches_from a' b'
  | _, _ => true
  end.

(** Lines 97-108. *)
Definition MatchesInsensitive (a b : string) : bool :=
  if negb (String.length a =? String.length b)%nat then false
  else matches_from a b.

(** [v.substr(pos)] and [v.substr(pos, count)], for [pos] within [v]. *)
Definition substr_from (pos : nat) (v : string) : string :=
  substring pos (String.length v - pos) v.
Definition substr (pos count : nat) (v : string) : string :=
  substring pos (count `min` (String.length v - pos)) v.

(** Lines 110-116. *)
Definition StartsWith_char (v : string) (prefix : ascii) : bool :=
  match v with
  | EmptyString => false
  | String c _ => bool_decide (c = prefix)
  end.
Definition StartsWith (v prefix : string) : bool :=
  (String.length prefix <=? String.length v)%nat
  && bool_decide (substr 0 (String.length prefix) v = prefix).
Definition StartsWithInsensitive (v prefix : string) : bool :=
  (String.length prefix <=? String.length v)%nat
  && MatchesInsensitive (substr 0 (String.length prefix) v) prefix.
Definition EndsWith_char (v : string) (suffix : ascii) : bool :=
  match String.rev v with
  | EmptyString => false
  | String c _ => bool_decide (c = suffix)
  end.
Definition EndsWith (v suffix : string) : bool :=
  (String.length suffix <=? String.length v)%nat
  && bool_decide (substr_from (String.length v - String.length suffix) v = suffix).
Definition EndsWithInsensitive (v suffix : string) : bool :=
  (String.length suffix <=? String.length v)%nat
  && MatchesInsensitive (substr_from (String.length v - String.length suffix) v) suffix.
Definition Contains (a b : string) : bool :=
  bool_decide (is_Some (index 0 b a)).

(** [set.find(c) != npos] *)
Fixpoint char_in (c : ascii) (set : string) : bool :=
  match set with
  | EmptyString => false
  | String c' set' => bool_decide (c = c') || char_in c set'
  end.

(** [v.find_first_not_of(set)] *)
Fixpoint find_first_not_of (set : string) (v : string) : option nat :=
  match v with
  | EmptyString => None
  | String c v' =>
      if char_in c set then S <$> find_first_not_of set v' else Some 0%nat
  end.

(** [v.find_last_not_of(set)] *)
Fixpoint find_last_not_of (set : string) (v : string) : option nat :=
  match v with
  | EmptyString => None
  | String c v' =>
      match find_last_not_of set v' with
      | Some i => Some (S i)
      | None => if char_in c set then None else Some 0%nat
      end
  end.

(** Lines 118-124. *)
Definition TrimLeft (v : string) : string :=
  match find_first_not_of WhitespaceCharacters v with
  | None => v
  | Some nonWS => substr_from nonWS v
  end.
Definition TrimRight (v : string) : string :=
  match find_last_not_of WhitespaceCharacters v with
  | None => v
  | Some nonWS => substr 0 (nonWS + 1) v
  end.
Definition Trim (v : string) : string := TrimRight (TrimLeft v).
Definition TrimPrefix (v prefix : string) : string :=
  if StartsWith v prefix
  then substr (String.length prefix) (String.length v - String.length prefix) v
  else v.
Definition TrimPrefixInsensitive (v prefix : string) : string :=
  if StartsWithInsensitive v prefix
  then substr (String.length prefix) (String.length v - String.length prefix) v
  else v.
Definition TrimSuffix (v suffix : string) : string :=
  if EndsWith v suffix then substr 0 (String.length v - String.length suffix) v else v.
Definition TrimSuffixInsensitive (v suffix : string) : string :=
  if EndsWithInsensitive v suffix
  then substr 0 (String.length v - String.length suffix) v else v.

(** Lines 126-129. *)
Definition ToLowerCopy (v : string) : string := map_chars ToLowerCase v.
Definition ToUpperCopy (v : string) : string := map_chars ToUpperCase v.
Definition ToSnakeCaseLowerCopy (v : string) : string :=
  map_chars (fun c => if bool_decide (c = " "%char) then "_"%char else c) (ToLowerCopy v).
Definition ToSnakeCaseUpperCopy (v : string) : string :=
  map_chars (fun c => if bool_decide (c = " "%char) then "_"%char else c) (ToUpperCopy v).

(** [v.find_first_of(separator, pos)] *)
Fixpoint find_char_from (separator : ascii) (pos : nat) (v : string) : option nat :=
  match v with
  | EmptyString => None
  | String c v' =>
      match pos with
      | O => if bool_decide (c = separator) then Some 0%nat
             else S <$> find_char_from separator 0 v'
      | S pos' => S <$> find_char_from separator pos' v'
      end
  end.

(** The loop of [ForEachInCharSeparatedList], lines 165-170, from index
    [absoluteIndex]: the values handed to [perValueFunc], in order.  The
    index grows in every iteration, so [fuel] above the size of the list
    minus the index is never used up. *)
Fixpoint separated_from (fuel : nat) (separatedList : string) (separator : ascii)
    (absoluteIndex : nat) : list string :=
  match fuel with
  | O => []
  | S fuel' =>
      if (absoluteIndex <? String.length separatedList)%nat then
        let separatedValue :=
          match find_char_from separator absoluteIndex separatedList with
          | Some found => substr absoluteIndex (found - absoluteIndex) separatedList
          | None => substr_from absoluteIndex separatedList
          end in
        separatedValue ::
          separated_from fuel' separatedList separator
            (absoluteIndex + String.length separatedValue + 1)
      else []
  end.

(** Lines 162-171. *)
Definition ForEachInCharSeparatedList (separatedList : string) (separator : ascii)
    : list string :=
  separated_from (S (String.length separatedList)) separatedList separator 0.

(** Lines 173-177. *)
Definition ForEachInCommaSeparatedList (l : string) : list string :=
  ForEachInCharSeparatedList l ","%char.
Definition ForEachInSpaceSeparatedList (l : string) : list string :=
  ForEachInCharSeparatedList l " "%char.

(** ** Strings: append, length and substrings *)

Lemma string_app_cons (c : ascii) (s1 s2 : string) :
  String c s1 +:+ s2 = String c (s1 +:+ s2).
Proof. done. Qed.

Lemma string_app_nil_l (s : string) : "" +:+ s = s.
Proof. done. Qed.

Lemma length_string_app (s1 s2 : string) :
  String.length (s1 +:+ s2) = (String.length s1 + String.length s2)%nat.
Proof. induction s1 as [|c s1 IH]; [done|]. rewrite string_app_cons. simpl. by f_equal. Qed.

Lemma substring_0_length (s : string) : substring 0 (String.length s) s = s.
Proof. induction s as [|c s IH]; simpl; [done|by f_equal]. Qed.

Lemma substring_0_app (s1 s2 : string) : substring 0 (String.length s1) (s1 +:+ s2) = s1.
Proof.
  induction s1 as [|c s1 IH]; [by destruct s2|]. rewrite string_app_cons. simpl. by f_equal.
Qed.

Lemma substring_app_r (s1 s2 : string) (n : nat) :
  substring (String.length s1) n (s1 +:+ s2) = substring 0 n s2.
Proof. induction s1 as [|c s1 IH]; [done|]. by rewrite string_app_cons. Qed.

Lemma string_app_assoc (s1 s2 s3 : string) : (s1 +:+ s2) +:+ s3 = s1 +:+ (s2 +:+ s3).
Proof. induction s1 as [|c s1 IH]; [done|]. rewrite !string_app_cons. by f_equal. Qed.

Lemma string_app_nil_r (s : string) : s +:+ "" = s.
Proof. induction s as [|c s IH]; [done|]. rewrite string_app_cons. by f_equal. Qed.

(** ** Characters: case conversion *)

(** A property of characters that holds of each of the 256. *)
Ltac each_char c := destruct c as [[] [] [] [] [] [] [] []]; vm_compute; try done.

Lemma IsUpperCase_ToLowerCase (c : ascii) : IsUpperCase (ToLowerCase c) = false.
Proof. each_char c. Qed.

Lemma IsLowerCase_ToUpperCase (c : ascii) : IsLowerCase (ToUpperCase c) = false.
Proof. each_char c. Qed.

Lemma ToLowerCase_idemp (c : ascii) : ToLowerCase (ToLowerCase c) = ToLowerCase c.
Proof. unfold ToLowerCase at 1. by rewrite IsUpperCase_ToLowerCase. Qed.

Lemma ToUpperCase_idemp (c : ascii) : ToUpperCase (ToUpperCase c) = ToUpperCase c.
Proof. unfold ToUpperCase at 1. by rewrite IsLowerCase_ToUpperCase. Qed.

Lemma ToUpperCase_ToLowerCase (c : ascii) :
  IsUpperCase c = true -> ToUpperCase (ToLowerCase c) = c.
Proof. each_char c. Qed.

Lemma ToLowerCase_other (c : ascii) : IsUpperCase c = false -> ToLowerCase c = c.
Proof. unfold ToLowerCase. by intros ->. Qed.

(** ** Strings: copies and comparison without case *)

Lemma length_map_chars f (s : string) : String.length (map_chars f s) = String.length s.
Proof. induction s as [|c s IH]; simpl; [done|by f_equal]. Qed.

Lemma map_chars_idemp f (s : string) :
  (forall c, f (f c) = f c) -> map_chars f (map_chars f s) = map_chars f s.
Proof. intros Hf. induction s as [|c s IH]; simpl; [done|]. by rewrite Hf, IH. Qed.

(** The loop of [MatchesInsensitive] compares the lower-case copies. *)
Lemma matches_from_lower (a b : string) :
  String.length a = String.length b ->
  matches_from a b = bool_decide (ToLowerCopy a = ToLowerCopy b).
Proof.
  revert b. induction a as [|ca a IH]; intros [|cb b] Hlen; simpl in *; try done.
  injection Hlen as Hlen. rewrite (IH b Hlen). unfold ToLowerCopy.
  destruct (decide (ToLowerCase ca = ToLowerCase cb)) as [Hc|Hc].
  - rewrite bool_decide_eq_true_2 by done. simpl. rewrite Hc.
    apply bool_decide_ext. split; [by intros ->|by intros [= ->]].
  - rewrite bool_decide_eq_false_2 by done. simpl. symmetry.
    apply bool_decide_eq_false_2. by intros [= ? _].
Qed.

Lemma MatchesInsensitive_lower (a b : string) :
  MatchesInsensitive a b = bool_decide (ToLowerCopy a = ToLowerCopy b).
Proof.
  unfold MatchesInsensitive. destruct (String.length a =? String.length b)%nat eqn:Hlen; simpl.
  - apply Nat.eqb_eq in Hlen. by apply matches_from_lower.
  - apply Nat.eqb_neq in Hlen. symmetry. apply bool_decide_eq_false_2.
    intros Heq. apply Hlen. unfold ToLowerCopy in Heq.
    by rewrite <- (length_map_chars ToLowerCase a), Heq, length_map_chars.
Qed.

(** Equality without case, as a relation. *)
Definition matches (a b : string) : Prop := MatchesInsensitive a b = true.

#[export] Instance matches_dec a b : Decision (matches a b).
Proof. unfold matches. apply _. Defined.

Lemma matches_lower a b : matches a b <-> ToLowerCopy a = ToLowerCopy b.
Proof. unfold matches. rewrite MatchesInsensitive_lower. apply bool_decide_eq_true. Qed.

#[export] Instance matches_equivalence : Equivalence matches.
Proof.
  split.
  - intros a. by apply matches_lower.
  - intros a b. rewrite !matches_lower. done.
  - intros a b c. rewrite !matches_lower. congruence.
Qed.

#[export] Instance ToLowerCopy_proper : Proper (matches ==> eq) ToLowerCopy.
Proof. intros a b. by rewrite matches_lower. Qed.

(** ** Prefixes *)

Lemma substr_0_app (s1 s2 : string) : substr 0 (String.length s1) (s1 +:+ s2) = s1.
Proof.
  unfold substr. rewrite Nat.sub_0_r, length_string_app.
  rewrite Nat.min_l by lia. apply substring_0_app.
Qed.

Lemma substr_app_r (s1 s2 : string) :
  substr (String.length s1) (String.length (s1 +:+ s2) - String.length s1) (s1 +:+ s2) = s2.
Proof.
  unfold substr. rewrite length_string_app, Nat.min_l by lia.
  rewrite substring_app_r. replace (_ + _ - _)%nat with (String.length s2) by lia.
  apply substring_0_length.
Qed.

(** A string is its first [n] characters followed by the others. *)
Lemma substring_split (n : nat) (v : string) :
  (n <= String.length v)%nat ->
  v = substring 0 n v +:+ substring n (String.length v - n) v.
Proof.
  revert n. induction v as [|c v IH]; intros [|n] Hn; simpl in *; try done; try lia.
  - by rewrite substring_0_length.
  - rewrite string_app_cons. f_equal. apply IH. lia.
Qed.

Lemma StartsWith_app (v prefix : string) :
  StartsWith v prefix = true <-> exists rest, v = prefix +:+ rest.
Proof.
  unfold StartsWith. rewrite andb_true_iff, Nat.leb_le, bool_decide_eq_true. split.
  - intros [Hlen Hpre]. exists (substring (String.length prefix)
                                  (String.length v - String.length prefix) v).
    rewrite <- Hpre at 1. unfold substr. rewrite Nat.sub_0_r, Nat.min_l by done.
    by apply substring_split.
  - intros [rest ->]. rewrite length_string_app. split; [lia|apply substr_0_app].
Qed.

Lemma TrimPrefix_app (prefix rest : string) : TrimPrefix (prefix +:+ rest) prefix = rest.
Proof.
  unfold TrimPrefix. rewrite (proj2 (StartsWith_app _ _)) by by exists rest.
  apply substr_app_r.
Qed.

(** ** Trimming *)

Lemma char_in_WhitespaceCharacters (c : ascii) :
  char_in c WhitespaceCharacters = IsWhitespace c.
Proof. each_char c. Qed.

Lemma find_first_not_of_whitespace (ws : string) (c : ascii) (rest : string) :
  IsAllWhitespace ws = true -> IsWhitespace c = false ->
  find_first_not_of WhitespaceCharacters (ws +:+ String c rest) = Some (String.length ws).
Proof.
  intros Hws Hc. induction ws as [|w ws IH]; cbn [IsAllWhitespace] in Hws.
  - rewrite string_app_nil_l. cbn [find_first_not_of].
    by rewrite char_in_WhitespaceCharacters, Hc.
  - rewrite string_app_cons. cbn [find_first_not_of String.length].
    rewrite char_in_WhitespaceCharacters.
    destruct (IsWhitespace w); [|done]. by rewrite IH.
Qed.

Lemma find_first_not_of_all_whitespace (v : string) :
  IsAllWhitespace v = true -> find_first_not_of WhitespaceCharacters v = None.
Proof.
  induction v as [|c v IH]; cbn [IsAllWhitespace find_first_not_of]; [done|].
  rewrite char_in_WhitespaceCharacters.
  destruct (IsWhitespace c); [|done]. intros Hv. by rewrite IH.
Qed.

Lemma find_last_not_of_all_whitespace (v : string) :
  IsAllWhitespace v = true -> find_last_not_of WhitespaceCharacters v = None.
Proof.
  induction v as [|c v IH]; cbn [IsAllWhitespace find_last_not_of]; [done|].
  rewrite char_in_WhitespaceCharacters.
  destruct (IsWhitespace c); [|done]. intros Hv. by rewrite IH.
Qed.

Lemma find_last_not_of_whitespace (body : string) (c : ascii) (ws : string) :
  IsWhitespace c = false -> IsAllWhitespace ws = true ->
  find_last_not_of WhitespaceCharacters (body +:+ String c ws) = Some (String.length body).
Proof.
  intros Hc Hws. induction body as [|b body IH].
  - rewrite string_app_nil_l. cbn [find_last_not_of].
    rewrite find_last_not_of_all_whitespace by done.
    by rewrite char_in_WhitespaceCharacters, Hc.
  - rewrite string_app_cons. cbn [find_last_not_of String.length]. by rewrite IH.
Qed.

Lemma TrimLeft_app (ws : string) (c : ascii) (rest : string) :
  IsAllWhitespace ws = true -> IsWhitespace c = false ->
  TrimLeft (ws +:+ String c rest) = String c rest.
Proof.
  intros Hws Hc. unfold TrimLeft, substr_from.
  rewrite find_first_not_of_whitespace by done.
  rewrite substring_app_r, length_string_app.
  replace (_ + _ - _)%nat with (String.length (String c rest)) by lia.
  apply substring_0_length.
Qed.

Lemma TrimRight_app (body : string) (c : ascii) (ws : string) :
  IsWhitespace c = false -> IsAllWhitespace ws = true ->
  TrimRight (body +:+ String c ws) = body +:+ String c "".
Proof.
  intros Hc Hws. unfold TrimRight. rewrite find_last_not_of_whitespace by done.
  replace (body +:+ String c ws) with ((body +:+ String c "") +:+ ws)
    by (by rewrite string_app_assoc).
  replace (String.length body + 1)%nat with (String.length (body +:+ String c ""))
    by (rewrite length_string_app; simpl; lia).
  apply substr_0_app.
Qed.

(** ** Separated lists *)

(** The values of a separated list, by recursion on the list: a separator
    ends the current value, and the value after the last separator is one
    only if it is not empty. *)
Fixpoint values_of (separator : ascii) (s : string) : list string :=
  match s with
  | EmptyString => []
  | String c s' =>
      if bool_decide (c = separator) then "" :: values_of separator s'
      else match values_of separator s' with
           | [] => [String c ""]
           | v :: vs => String c v :: vs
           end
  end.

(** The characters of [s] are not the separator. *)
Fixpoint free_of (separator : ascii) (s : string) : bool :=
  match s with
  | EmptyString => true
  | String c s' => negb (bool_decide (c = separator)) && free_of separator s'
  end.

Section Separated.
Context (separator : ascii).
Implicit Types (s v rest : string) (i fuel : nat).

(** A character in front of the list shifts the indices by one. *)
Lemma separated_from_cons fuel c s i :
  separated_from fuel (String c s) separator (S i) = separated_from fuel s separator i.
Proof.
  revert i. induction fuel as [|fuel IH]; intros i; [done|].
  cbn [separated_from String.length find_char_from]. unfold substr, substr_from.
  cbn [String.length substring Nat.sub].
  change (S i <? S (String.length s))%nat with (i <? String.length s)%nat.
  destruct (i <? String.length s)%nat; [|done].
  destruct (find_char_from separator i s) as [found|]; simpl;
    f_equal; rewrite <- IH; f_equal.
Qed.

Lemma separated_from_app fuel pre s i :
  separated_from fuel (pre +:+ s) separator (String.length pre + i) =
  separated_from fuel s separator i.
Proof.
  induction pre as [|c pre IH]; [done|].
  rewrite string_app_cons. cbn [String.length Nat.add]. by rewrite separated_from_cons.
Qed.

(** Past the end of the list nothing is reported. *)
Lemma separated_from_end fuel s i :
  (String.length s <= i)%nat -> separated_from fuel s separator i = [].
Proof.
  intros Hi. destruct fuel; [done|]. simpl.
  by rewrite (proj2 (Nat.ltb_ge _ _)).
Qed.

(** The first value of a list. *)
Lemma find_char_from_free v :
  free_of separator v = true -> find_char_from separator 0 v = None.
Proof.
  induction v as [|c v IH]; simpl; [done|].
  destruct (bool_decide (c = separator)); [done|]. simpl. intros Hv. by rewrite IH.
Qed.

Lemma find_char_from_first v rest :
  free_of separator v = true ->
  find_char_from separator 0 (v +:+ String separator rest) = Some (String.length v).
Proof.
  induction v as [|c v IH].
  - intros _. rewrite string_app_nil_l. simpl. by rewrite bool_decide_eq_true_2.
  - rewrite string_app_cons. simpl.
    destruct (bool_decide (c = separator)); [done|]. simpl. intros Hv. by rewrite IH.
Qed.

(** Every list is a value without separator, alone or followed by a
    separator and a list. *)
Lemma first_value s :
  free_of separator s = true \/
  exists v rest, s = v +:+ String separator rest /\ free_of separator v = true.
Proof.
  induction s as [|c s IH]; [by left|]. simpl.
  destruct (decide (c = separator)) as [->|Hc].
  - right. by exists "", s.
  - rewrite bool_decide_eq_false_2 by done. simpl.
    destruct IH as [Hs|(v & rest & -> & Hv)]; [by left|].
    right. exists (String c v), rest. simpl. by rewrite bool_decide_eq_false_2.
Qed.

Lemma values_of_free v :
  free_of separator v = true -> v <> "" -> values_of separator v = [v].
Proof.
  induction v as [|c v IH]; [done|]. simpl.
  destruct (bool_decide (c = separator)); [done|]. simpl. intros Hv _.
  destruct v as [|c' v]; [done|]. by rewrite IH.
Qed.

Lemma values_of_first v rest :
  free_of separator v = true ->
  values_of separator (v +:+ String separator rest) = v :: values_of separator rest.
Proof.
  induction v as [|c v IH].
  - intros _. rewrite string_app_nil_l. simpl. by rewrite bool_decide_eq_true_2.
  - rewrite string_app_cons. simpl.
    destruct (bool_decide (c = separator)); [done|]. simpl. intros Hv. by rewrite IH.
Qed.

(** The loop reports the values of the list, whenever its fuel exceeds
    the size of the list. *)
Lemma separated_from_values fuel s :
  (String.length s < fuel)%nat ->
  separated_from fuel s separator 0 = values_of separator s.
Proof.
  revert s. induction fuel as [|fuel IH]; intros s Hfuel; [lia|].
  destruct s as [|c0 s0]; [done|]. remember (String c0 s0) as s eqn:Hs.
  assert ((0 <? String.length s)%nat = true) as Hpos by (subst s; done).
  cbn [separated_from]. rewrite Hpos, Nat.add_0_l.
  destruct (first_value s) as [Hfree|(v & rest & -> & Hv)].
  - rewrite find_char_from_free by done. unfold substr_from.
    rewrite Nat.sub_0_r, substring_0_length, separated_from_end by lia.
    rewrite values_of_free; [done..|by subst s].
  - rewrite find_char_from_first, Nat.sub_0_r, substr_0_app by done.
    rewrite values_of_first by done. f_equal.
    replace (v +:+ String separator rest) with ((v +:+ String separator "") +:+ rest)
      by (by rewrite string_app_assoc).
    replace (String.length v + 1)%nat with (String.length (v +:+ String separator "") + 0)%nat
      by (rewrite length_string_app; simpl; lia).
    rewrite separated_from_app. apply IH.
    rewrite length_string_app in Hfuel. simpl in Hfuel. lia.
Qed.
End Separated.

(** ** The theorems *)

(** C29: [MatchesInsensitive] is equality of the lower-case copies: the
    test on the sizes and the loop over the characters accept two strings
    exactly when [ToLowerCopy] maps them to the same string. *)
Theorem MatchesInsensitive_iff_lower_copies (a b : string) :
  MatchesInsensitive a b = true <-> ToLowerCopy a = ToLowerCopy b.
Proof. apply matches_lower. Qed.

(** C27: [ForEachInCharSeparatedList] reports the values of the list.  The
    loop over the indices, with the size of each value added to the index
    in its body, hands to its callback the values between the separators,
    in order, empty values included; what follows the last separator is
    reported only if it is not empty.  The fuel given to the loop, the
    size of the list plus one, is never used up. *)
Theorem ForEachInCharSeparatedList_values (separatedList : string) (separator : ascii) :
  ForEachInCharSeparatedList separatedList separator = values_of separator separatedList.
Proof. unfold ForEachInCharSeparatedList. apply separated_from_values. lia. Qed.

(** C30: [Trim] removes the whitespace around a string.  For a string
    that starts with [c] and ends with [d], neither of them whitespace,
    surrounded by whitespace on both sides, the result is that string. *)
Theorem Trim_removes_surrounding_whitespace (ws1 ws2 body : string) (c d : ascii) (rest : string) :
  IsAllWhitespace ws1 = true -> IsAllWhitespace ws2 = true ->
  IsWhitespace c = false -> IsWhitespace d = false ->
  String c rest = body +:+ String d "" ->
  Trim (ws1 +:+ String c rest +:+ ws2) = String c rest.
Proof.
  intros Hws1 Hws2 Hc Hd Hcore. unfold Trim.
  rewrite string_app_cons, TrimLeft_app by done.
  rewrite <- string_app_cons, Hcore, string_app_assoc, string_app_cons, string_app_nil_l.
  by apply TrimRight_app.
Qed.

(** C31: [Trim] leaves a string of whitespace as it is.
    [find_first_not_of] and [find_last_not_of] return [npos], and both
    [TrimLeft] and [TrimRight] return their argument in that case: the
    result is empty only if the argument is. *)
Theorem Trim_all_whitespace (v : string) : IsAllWhitespace v = true -> Trim v = v.
Proof.
  intros Hv. unfold Trim, TrimLeft, TrimRight.
  rewrite find_first_not_of_all_whitespace by done.
  by rewrite find_last_not_of_all_whitespace.
Qed.

Lemma Trim_removes_surrounding_whitespace_witness :
  Trim (String " " (String "009" "") +:+ String "a" " b" +:+ String "010" "") = "a b".
Proof.
  by apply (Trim_removes_surrounding_whitespace _ _ "a " "a" "b" " b").
Defined.

Lemma Trim_all_whitespace_witness : Trim "   " = "   ".
Proof. by apply Trim_all_whitespace. Defined.
