(* ===== verification/StrBuf.v ===== *)
(** * StrBuf: fixed buffers and lines

    The helpers of [core_string.h] outside the character classes:
    [FixedBufferStringView] and [CopyStringViewIntoFixedBuffer], on a
    [char] buffer modelled as the string of its characters, and
    [ForEachLineInMultiLineString], whose pointers [readHead] and
    [lineBegin] are indices into the string.  A [memcpy] of a size that
    wrapped around is undefined behaviour and [None]. *)

From Stdlib Require Import ZArith Lia List Strings.String Strings.Ascii.
From stdpp Require Import base tactics option list numbers strings.
From S2P Require Import Prelude AsciiStr.

Definition NUL : ascii := "000"%char.

(** [::strnlen(buffer, bufferSize)] *)
Fixpoint strnlen (buffer : string) (bufferSize : nat) : nat :=
  match bufferSize, buffer with
  | S n, String c b => if bool_decide (c = NUL) then 0 else S (strnlen b n)
  | _, _ => 0
  end.

(** Lines 36-38. *)
Definition FixedBufferStringView (buffer : string) (bufferSize : nat) : string :=
  substring 0 (strnlen buffer bufferSize) buffer.

(** Lines 44-56: the buffer after the call.  [Min(size + 1, bufferSize) -
    1] is computed in [size_t]: for a buffer of size 0 it wraps around. *)
Definition CopyStringViewIntoFixedBuffer (buffer : string) (bufferSize : nat)
    (stringToCopy : string) : option string :=
  if (bufferSize =? 0)%nat then None
  else
    let length := ((String.length stringToCopy + 1) `min` bufferSize - 1)%nat in
    Some (substring 0 length stringToCopy +:+
          String NUL (substr_from (length + 1) buffer)).




(** ** Fixed buffers *)

(** The characters of [s] are not null. *)
Definition no_NUL (s : string) : Prop := free_of NUL s = true.

#[export] Instance no_NUL_dec s : Decision (no_NUL s).
Proof. unfold no_NUL. apply _. Defined.

Lemma free_of_substring sep s n : free_of sep s = true -> free_of sep (substring 0 n s) = true.
Proof.
  revert n. induction s as [|c s IH]; intros [|n]; simpl; try done.
  destruct (bool_decide (c = sep)); [done|]. simpl. apply IH.
Qed.

Lemma length_substring_0 s n :
  (n <= String.length s)%nat -> String.length (substring 0 n s) = n.
Proof.
  revert n. induction s as [|c s IH]; intros [|n] Hn; simpl in *; try done; try lia.
  f_equal. apply IH. lia.
Qed.

(** [strnlen] stops at the null that ends a string without null. *)
Lemma strnlen_terminated s rest n :
  no_NUL s -> (String.length s < n)%nat ->
  strnlen (s +:+ String NUL rest) n = String.length s.
Proof.
  unfold no_NUL. revert n. induction s as [|c s IH]; intros n Hs Hn.
  - rewrite string_app_nil_l. destruct n; [simpl in Hn; lia|done].
  - rewrite string_app_cons. simpl in *. destruct n as [|n]; [lia|]. simpl.
    destruct (bool_decide (c = NUL)); [done|]. simpl in Hs. rewrite IH; [done..|lia].
Qed.

(** What is copied is read back, cut to the size of the buffer less one. *)
Lemma fixed_buffer_round_trip buffer bufferSize s :
  no_NUL s -> (0 < bufferSize)%nat ->
  exists buffer',
    CopyStringViewIntoFixedBuffer buffer bufferSize s = Some buffer' /\
    FixedBufferStringView buffer' bufferSize =
      substring 0 (String.length s `min` (bufferSize - 1)) s.
Proof.
  intros Hs Hsize. unfold CopyStringViewIntoFixedBuffer.
  rewrite (proj2 (Nat.eqb_neq _ _)) by lia. eexists. split; [done|].
  replace ((String.length s + 1) `min` bufferSize - 1)%nat
    with (String.length s `min` (bufferSize - 1))%nat by lia.
  set (n := (String.length s `min` (bufferSize - 1))%nat).
  unfold FixedBufferStringView. rewrite strnlen_terminated.
  - rewrite length_substring_0 by lia. rewrite <- (length_substring_0 s n) at 1 by lia.
    apply substring_0_app.
  - by apply free_of_substring.
  - rewrite length_substring_0 by lia. lia.
Qed.

(** ** The theorems *)

(** C28: a string copied into a fixed buffer is read back from it.  For
    a string without null character and a buffer of at least one
    character, [CopyStringViewIntoFixedBuffer] followed by
    [FixedBufferStringView] gives the string, cut to the size of the
    buffer less one: the copy is always null-terminated inside the
    buffer. *)
Theorem FixedBuffer_round_trip buffer bufferSize s :
  no_NUL s -> (0 < bufferSize)%nat ->
  exists buffer',
    CopyStringViewIntoFixedBuffer buffer bufferSize s = Some buffer' /\
    FixedBufferStringView buffer' bufferSize =
      substring 0 (String.length s `min` (bufferSize - 1)) s /\
    (String.length (FixedBufferStringView buffer' bufferSize) < bufferSize)%nat.
Proof.
  intros Hs Hsize.
  destruct (fixed_buffer_round_trip buffer bufferSize s Hs Hsize) as (b & Hcopy & Hview).
  exists b. split; [done|]. split; [done|]. rewrite Hview, length_substring_0; lia.
Qed.

Lemma FixedBuffer_round_trip_witness :
  exists buffer',
    CopyStringViewIntoFixedBuffer "xxxxxxxx" 4 "sprite" = Some buffer' /\
    FixedBufferStringView buffer' 4 = "spr" /\
    (String.length (FixedBufferStringView buffer' 4) < 4)%nat.
Proof. apply (FixedBuffer_round_trip "xxxxxxxx" 4 "sprite"); [by vm_compute|lia]. Defined.

