(* ===== verification/Reader.v ===== *)
(** * Reader: the framed reader ([IO::Reader] of core_io.h)

    The reader is a dependency of the repository whose source is not part
    of it; it is modelled from its contract: a buffer, a cursor and a stack
    of base offsets against which relative pointers are resolved.  Reads
    beyond the end of the buffer yield zero bytes, which the contract
    leaves open.  Every operation acts on the reader component of a state
    [Reader * O], where [O] is the object the calling routine fills in. *)

From Stdlib Require Import ZArith Lia List Strings.String.
From stdpp Require Import base tactics option list numbers.
From coqutil Require Import Byte Word.LittleEndianList.
From S2P Require Import Prelude Common Bytes.

Record Reader : Type := mkReader {
  rdData : list byte;     (* the file's content *)
  rdPos : nat;            (* the cursor *)
  rdBases : list nat      (* the stack of base offsets, top first *)
}.

(** [reader.FromFile(path)] on a file whose content is [d]. *)
Definition FromFile (d : list byte) : Reader :=
  {| rdData := d; rdPos := 0; rdBases := [] |}.

Definition set_pos (p : nat) (rd : Reader) : Reader :=
  {| rdData := rdData rd; rdPos := p; rdBases := rdBases rd |}.
Definition set_bases (bs : list nat) (rd : Reader) : Reader :=
  {| rdData := rdData rd; rdPos := rdPos rd; rdBases := bs |}.

Arguments set_pos p rd /.
Arguments set_bases bs rd /.

(** The base offset in force: the top of the stack, 0 when it is empty. *)
Definition base_offset (rd : Reader) : nat := hd 0%nat (rdBases rd).

Section Reader.
Context {O : Type}.
#[local] Abbreviation St := (Reader * O)%type.

Definition Reader_GetPosition : M St nat := fun s => (Val (rdPos s.1), s).

Definition GetRemaining : M St Z :=
  fun s => (Val (Z.of_nat (length (rdData s.1) - rdPos s.1)), s).

Definition Reader_Seek (p : nat) : M St unit :=
  fun s => (Val tt, (set_pos p s.1, s.2)).

(** [reader.Read(buffer, n)] *)
Definition Read (n : nat) : M St (list byte) :=
  fun s => (Val (peek (rdPos s.1) n (rdData s.1)),
            (set_pos (rdPos s.1 + n) s.1, s.2)).

Definition ReadUInt8 : M St Z := bs <- Read 1 ;; ret (le_combine bs).
Definition ReadUInt16 : M St Z := bs <- Read 2 ;; ret (le_combine bs).
Definition ReadUInt32 : M St Z := bs <- Read 4 ;; ret (le_combine bs).
Definition ReadInt32 : M St Z := bs <- Read 4 ;; ret (to_i32 (le_combine bs)).

(** [PushBaseOffset()]: the cursor becomes the base of relative pointers. *)
Definition PushBaseOffset : M St unit :=
  fun s => (Val tt, (set_bases (rdPos s.1 :: rdBases s.1) s.1, s.2)).

Definition PopBaseOffset : M St unit :=
  fun s => (Val tt, (set_bases (tl (rdBases s.1)) s.1, s.2)).

(** [ReadAtOffset(offset, callback, establishNewBase)]: run [callback]
    with the cursor at [offset] from the base in force, then put the
    cursor back. *)
Definition ReadAtOffset {A} (offset : Z) (callback : M St A)
    (establishNewBase : bool) : M St A :=
  saved <- Reader_GetPosition ;;
  base <- (fun s => (Val (base_offset s.1), s)) ;;
  Reader_Seek (Z.to_nat (Z.of_nat base + offset)) ;;
  when establishNewBase PushBaseOffset ;;
  a <- callback ;;
  when establishNewBase PopBaseOffset ;;
  Reader_Seek saved ;;
  ret a.

(** The null-terminated string at the cursor. *)
Definition ReadString : M St string :=
  fun s => (Val (string_of (cstr (drop (rdPos s.1) (rdData s.1)))), s).

(** [ReadStringOffset()]: a pointer, and the string it points to; a null
    pointer stands for the empty string. *)
Definition ReadStringOffset : M St string :=
  offset <- ReadInt32 ;;
  if offset <=? 0 then ret EmptyString
  else ReadAtOffset offset ReadString false.
End Reader.

(** ** Execution equations *)

Section Run.
Context {O : Type}.
Implicit Types (rd : Reader) (o : O).

Lemma run_Read n rd o :
  Read n (rd, o) = (Val (peek (rdPos rd) n (rdData rd)), (set_pos (rdPos rd + n) rd, o)).
Proof. done. Qed.

Lemma run_ReadUInt8 rd o :
  ReadUInt8 (rd, o) =
  (Val (le_combine (peek (rdPos rd) 1 (rdData rd))), (set_pos (rdPos rd + 1) rd, o)).
Proof. done. Qed.

Lemma run_ReadUInt16 rd o :
  ReadUInt16 (rd, o) =
  (Val (le_combine (peek (rdPos rd) 2 (rdData rd))), (set_pos (rdPos rd + 2) rd, o)).
Proof. done. Qed.

Lemma run_ReadUInt32 rd o :
  ReadUInt32 (rd, o) =
  (Val (le_combine (peek (rdPos rd) 4 (rdData rd))), (set_pos (rdPos rd + 4) rd, o)).
Proof. done. Qed.

Lemma run_ReadInt32 rd o :
  ReadInt32 (rd, o) =
  (Val (to_i32 (le_combine (peek (rdPos rd) 4 (rdData rd)))),
   (set_pos (rdPos rd + 4) rd, o)).
Proof. done. Qed.

(** Every scalar read yields a value of its type. *)
Lemma ReadUInt8_range rd o v s' : ReadUInt8 (rd, o) = (Val v, s') -> is_u8 v.
Proof.
  rewrite run_ReadUInt8. intros [= <- _]. apply le_combine_range1, length_peek.
Qed.
Lemma ReadUInt32_range rd o v s' : ReadUInt32 (rd, o) = (Val v, s') -> is_u32 v.
Proof.
  rewrite run_ReadUInt32. intros [= <- _]. apply le_combine_range4, length_peek.
Qed.
Lemma ReadInt32_range rd o v s' : ReadInt32 (rd, o) = (Val v, s') -> is_i32 v.
Proof. rewrite run_ReadInt32. intros [= <- _]. apply to_i32_range. Qed.

(** [ReadAtOffset] with a callback that returns normally: the callback
    runs at the target, under the new base if one is asked for, and the
    cursor and the base stack are as they were, whatever the callback
    did to the cursor. *)
Lemma run_ReadAtOffset {A} offset (cb : M (Reader * O) A) (nb : bool) rd o a rd' o' :
  let target := Z.to_nat (Z.of_nat (base_offset rd) + offset) in
  cb ({| rdData := rdData rd; rdPos := target;
         rdBases := if nb then target :: rdBases rd else rdBases rd |}, o)
    = (Val a, (rd', o')) ->
  ReadAtOffset offset cb nb (rd, o) =
    (Val a, ({| rdData := rdData rd'; rdPos := rdPos rd;
                rdBases := if nb then tl (rdBases rd') else rdBases rd' |}, o')).
Proof.
  intros target Hcb. unfold ReadAtOffset, bind, Reader_GetPosition, Reader_Seek; simpl.
  destruct nb; simpl; unfold set_pos, set_bases; simpl; fold target;
    rewrite Hcb; done.
Qed.

(** A callback that fails in the model makes [ReadAtOffset] fail alike. *)
Lemma run_ReadAtOffset_Undef {A} offset (cb : M (Reader * O) A) (nb : bool) rd o s' :
  let target := Z.to_nat (Z.of_nat (base_offset rd) + offset) in
  cb ({| rdData := rdData rd; rdPos := target;
         rdBases := if nb then target :: rdBases rd else rdBases rd |}, o)
    = (Undef, s') ->
  ReadAtOffset offset cb nb (rd, o) = (Undef, s').
Proof.
  intros target Hcb. unfold ReadAtOffset, bind, Reader_GetPosition, Reader_Seek; simpl.
  destruct nb; simpl; unfold set_pos, set_bases; simpl; fold target;
    rewrite Hcb; done.
Qed.
End Run.

#[export] Hint Rewrite @run_Read @run_ReadUInt8 @run_ReadUInt16 @run_ReadUInt32
  @run_ReadInt32 : run.

(** ** The reader never returns from the calling function *)

Section Returns.
Context {O : Type}.
Implicit Types P : StreamResult -> Prop.

Lemma returns_in_Read P n : returns_in P (Read (O:=O) n).
Proof. by intros s r s'. Qed.
Lemma returns_in_ReadUInt8 P : returns_in P (ReadUInt8 (O:=O)).
Proof. by intros s r s'. Qed.
Lemma returns_in_ReadUInt16 P : returns_in P (ReadUInt16 (O:=O)).
Proof. by intros s r s'. Qed.
Lemma returns_in_ReadUInt32 P : returns_in P (ReadUInt32 (O:=O)).
Proof. by intros s r s'. Qed.
Lemma returns_in_ReadInt32 P : returns_in P (ReadInt32 (O:=O)).
Proof. by intros s r s'. Qed.
Lemma returns_in_GetRemaining P : returns_in P (GetRemaining (O:=O)).
Proof. by intros s r s'. Qed.
Lemma returns_in_PushBaseOffset P : returns_in P (PushBaseOffset (O:=O)).
Proof. by intros s r s'. Qed.
Lemma returns_in_PopBaseOffset P : returns_in P (PopBaseOffset (O:=O)).
Proof. by intros s r s'. Qed.

(** What leaves [ReadAtOffset] early is what leaves its callback. *)
Lemma returns_in_ReadAtOffset {A} P offset (cb : M (Reader * O) A) nb :
  returns_in P cb -> returns_in P (ReadAtOffset offset cb nb).
Proof.
  intros Hcb. unfold ReadAtOffset.
  repeat first [apply returns_in_bind; [|intros ?] | apply returns_in_ret
               | apply returns_in_when; intros _ | done
               | apply returns_in_PushBaseOffset | apply returns_in_PopBaseOffset];
    by intros s r s'.
Qed.

Lemma returns_in_ReadStringOffset P : returns_in P (ReadStringOffset (O:=O)).
Proof.
  unfold ReadStringOffset. apply returns_in_bind; [apply returns_in_ReadInt32|].
  intros offset. destruct (offset <=? 0); [apply returns_in_ret|].
  apply returns_in_ReadAtOffset. by intros s r s'.
Qed.
End Returns.

#[export] Hint Resolve returns_in_Read returns_in_ReadUInt8 returns_in_ReadUInt16
  returns_in_ReadUInt32 returns_in_ReadInt32 returns_in_GetRemaining
  returns_in_PushBaseOffset returns_in_PopBaseOffset returns_in_ReadAtOffset
  returns_in_ReadStringOffset : stream.
