(* ===== verification/Writer.v ===== *)
(** * Writer: the offset-patching writer ([IO::Writer] of core_io.h)

    Like the reader, the writer is a dependency whose source is not part of
    the repository; it is modelled from its contract.  A scheduled write is
    a triple of a body, the address of the pointer slot reserved for it and
    the base the pointer is relative to; the queue is drained first in,
    first out, and a body that schedules further writes appends them to the
    same queue.  Since the queue can grow while it is drained, the drain
    loop takes fuel, one unit per body; [NoFuel] is returned when it runs
    out.  The bodies are of an arbitrary type [B]: the writer is given the
    function that runs one. *)

From Stdlib Require Import ZArith Lia List Strings.String.
From stdpp Require Import base tactics option list numbers strings.
From coqutil Require Import Byte Word.LittleEndianList.
From S2P Require Import Prelude Common Bytes.

Record Pending (B : Type) : Type := mkPending {
  pdBody : B;       (* what to write *)
  pdSlot : nat;     (* where the pointer to it goes *)
  pdBase : nat      (* what the pointer is relative to *)
}.
Arguments mkPending {B}.
Arguments pdBody {B}.
Arguments pdSlot {B}.
Arguments pdBase {B}.

Record PendingStr : Type := mkPendingStr {
  psValue : string;
  psSlot : nat
}.

Record Writer (B : Type) : Type := mkWriter {
  wrData : list byte;                 (* the buffer *)
  wrPos : nat;                        (* the cursor *)
  wrScheduled : list (Pending B);     (* scheduled writes, oldest first *)
  wrStrings : list PendingStr         (* scheduled strings, oldest first *)
}.
Arguments mkWriter {B}.
Arguments wrData {B}.
Arguments wrPos {B}.
Arguments wrScheduled {B}.
Arguments wrStrings {B}.

(** [IO::Writer writer = { };] *)
Definition new_Writer {B} : Writer B :=
  {| wrData := []; wrPos := 0; wrScheduled := []; wrStrings := [] |}.

Section Writer.
Context {B : Type}.
#[local] Abbreviation W := (Writer B).

Definition Writer_GetPosition : M W nat := fun w => (Val (wrPos w), w).

Definition Writer_Seek (p : nat) : M W unit :=
  fun w => (Val tt, {| wrData := wrData w; wrPos := p;
                       wrScheduled := wrScheduled w; wrStrings := wrStrings w |}).

(** [writer.Write(buffer, size)]: the bytes go to the cursor, over what
    is there, and the cursor moves past them. *)
Definition Write (bs : list byte) : M W unit :=
  fun w => (Val tt, {| wrData := poke (wrPos w) bs (wrData w);
                       wrPos := wrPos w + length bs;
                       wrScheduled := wrScheduled w; wrStrings := wrStrings w |}).

Definition WriteUInt8 (v : Z) : M W unit := Write (u8 v).
Definition WriteUInt32 (v : Z) : M W unit := Write (u32 v).
Definition WriteInt32 (v : Z) : M W unit := Write (u32 v).
(** A float is its bit pattern. *)
Definition WriteFloat32 (v : Z) : M W unit := Write (u32 v).

(** The zero bytes that bring position [p] to a multiple of [n]. *)
Definition padding (n p : nat) : nat := ((n - p mod n) mod n)%nat.

(** [Pad(n)] *)
Definition Pad (n : nat) : M W unit :=
  p <- Writer_GetPosition ;; Write (zeros (padding n p)).

(** [ScheduleWriteOffset(body, baseOffset)]: a pointer slot is reserved
    at the cursor now, the body is written by a later flush. *)
Definition ScheduleWriteOffset (body : B) (baseOffset : nat) : M W unit :=
  fun w => Write (u32 0)
    {| wrData := wrData w; wrPos := wrPos w;
       wrScheduled := wrScheduled w ++ [mkPending body (wrPos w) baseOffset];
       wrStrings := wrStrings w |}.

(** [ScheduleWriteStringOffset(value)] *)
Definition ScheduleWriteStringOffset (value : string) : M W unit :=
  fun w => Write (u32 0)
    {| wrData := wrData w; wrPos := wrPos w;
       wrScheduled := wrScheduled w;
       wrStrings := wrStrings w ++ [mkPendingStr value (wrPos w)] |}.

(** Store pointer value [v] in the slot at [slot]; the cursor returns to
    where it was. *)
Definition patch (slot : nat) (v : Z) : M W unit :=
  here <- Writer_GetPosition ;;
  Writer_Seek slot ;;
  WriteInt32 v ;;
  Writer_Seek here.

Definition pop_scheduled : M W (option (Pending B)) :=
  fun w =>
    match wrScheduled w with
    | [] => (Val None, w)
    | pd :: rest =>
        (Val (Some pd), {| wrData := wrData w; wrPos := wrPos w;
                           wrScheduled := rest; wrStrings := wrStrings w |})
    end.

(** [FlushScheduledWrites()]: until the queue is empty, take its oldest
    entry, patch the entry's slot with the cursor relative to the
    entry's base, and run the body at the cursor. *)
Fixpoint FlushScheduledWrites (run : B -> M W unit) (fuel : nat) : M W unit :=
  next <- pop_scheduled ;;
  match next with
  | None => ret tt
  | Some pd =>
      match fuel with
      | O => no_fuel
      | Datatypes.S fuel' =>
          here <- Writer_GetPosition ;;
          patch (pdSlot pd) (Z.of_nat here - Z.of_nat (pdBase pd)) ;;
          run (pdBody pd) ;;
          FlushScheduledWrites run fuel'
      end
  end.

(** The address at which [value] was written earlier in this flush. *)
Fixpoint pooled (value : string) (pool : list (string * nat)) : option nat :=
  match pool with
  | [] => None
  | (v, a) :: pool' => if decide (v = value) then Some a else pooled value pool'
  end.

Fixpoint flush_strings (pending : list PendingStr) (pool : list (string * nat))
    : M W unit :=
  match pending with
  | [] => ret tt
  | ps :: rest =>
      match pooled (psValue ps) pool with
      | Some a => patch (psSlot ps) (Z.of_nat a) ;; flush_strings rest pool
      | None =>
          here <- Writer_GetPosition ;;
          patch (psSlot ps) (Z.of_nat here) ;;
          Write (bytes_of (psValue ps) ++ [x00]) ;;
          flush_strings rest ((psValue ps, here) :: pool)
      end
  end.

(** [FlushScheduledStrings()]: every scheduled string is written once,
    null-terminated, and each slot that asked for it points to it. *)
Definition FlushScheduledStrings : M W unit :=
  fun w => flush_strings (wrStrings w) []
    {| wrData := wrData w; wrPos := wrPos w;
       wrScheduled := wrScheduled w; wrStrings := [] |}.
End Writer.

(** ** The writer at the end of its buffer

    Outside of [patch], the cursor is at the end of the buffer: every
    write appends. *)

Definition at_end {B} (w : Writer B) : Prop := wrPos w = length (wrData w).

#[export] Instance at_end_dec {B} (w : Writer B) : Decision (at_end w).
Proof. unfold at_end. apply _. Defined.

(** [m] always returns normally, and keeps the cursor at the end. *)
Definition appends {B A} (m : M (Writer B) A) : Prop :=
  forall w, at_end w -> exists a w', m w = (Val a, w') /\ at_end w'.

Section WriterLemmas.
Context {B : Type}.
Implicit Types (w : Writer B) (bs : list byte).

Lemma run_Write bs w :
  at_end w ->
  Write bs w = (Val tt, {| wrData := wrData w ++ bs; wrPos := length (wrData w ++ bs);
                           wrScheduled := wrScheduled w; wrStrings := wrStrings w |}).
Proof.
  unfold at_end, Write. intros ->. by rewrite poke_end, length_app.
Qed.

Lemma Write_appends bs : appends (Write (B:=B) bs).
Proof.
  intros w Hw. rewrite run_Write by done. eexists _, _. split; [done|].
  done.
Qed.

Lemma ret_appends {A} (a : A) : appends (ret (S:=Writer B) a).
Proof. intros w Hw. by eexists _, _. Qed.

Lemma bind_appends {A C} (m : M (Writer B) A) (k : A -> M (Writer B) C) :
  appends m -> (forall a, appends (k a)) -> appends (bind m k).
Proof.
  intros Hm Hk w Hw. destruct (Hm w Hw) as (a & w' & Hr & Hw').
  destruct (Hk a w' Hw') as (c & w'' & Hr' & Hw'').
  exists c, w''. split; [|done]. by rewrite (bind_val _ _ _ _ _ Hr).
Qed.

Lemma GetPosition_appends : appends (Writer_GetPosition (B:=B)).
Proof. intros w Hw. by eexists _, _. Qed.

Lemma when_appends (b : bool) (m : M (Writer B) unit) :
  appends m -> appends (when b m).
Proof. destruct b; [done|]. intros _. apply ret_appends. Qed.

Lemma for_each_appends {A} (l : list A) (f : A -> M (Writer B) unit) :
  (forall x, appends (f x)) -> appends (for_each l f).
Proof.
  intros Hf. induction l as [|x l IH]; simpl; [apply ret_appends|].
  apply bind_appends; auto.
Qed.

Lemma Pad_appends n : appends (Pad (B:=B) n).
Proof.
  apply bind_appends; [apply GetPosition_appends|]. intros p. apply Write_appends.
Qed.

Lemma ScheduleWriteOffset_appends body base :
  appends (ScheduleWriteOffset (B:=B) body base).
Proof.
  intros w Hw. unfold ScheduleWriteOffset. rewrite run_Write by done.
  by eexists _, _.
Qed.

Lemma ScheduleWriteStringOffset_appends value :
  appends (ScheduleWriteStringOffset (B:=B) value).
Proof.
  intros w Hw. unfold ScheduleWriteStringOffset. rewrite run_Write by done.
  by eexists _, _.
Qed.

(** Patching a slot inside the buffer keeps the cursor at the end. *)
Lemma run_patch slot v w :
  (slot + 4 <= length (wrData w))%nat ->
  patch slot v w = (Val tt, {| wrData := poke slot (u32 v) (wrData w); wrPos := wrPos w;
                               wrScheduled := wrScheduled w; wrStrings := wrStrings w |}).
Proof. done. Qed.

Lemma patch_at_end slot v w w' :
  (slot + 4 <= length (wrData w))%nat -> at_end w ->
  patch slot v w = (Val tt, w') -> at_end w'.
Proof.
  unfold at_end. intros Hs Hw [= <-]. simpl.
  rewrite length_poke, length_u32. lia.
Qed.
End WriterLemmas.

#[export] Hint Resolve Write_appends ret_appends bind_appends GetPosition_appends
  when_appends for_each_appends Pad_appends ScheduleWriteOffset_appends
  ScheduleWriteStringOffset_appends : stream.

(** ** Draining the queue

    A body may schedule further bodies; the drain loop returns when it has
    fuel for every body that is run.  [cost b] bounds the number of bodies
    run on behalf of [b], itself included, and [ok b] is what [b] needs to
    run without undefined behaviour. *)

(** The slots of the scheduled writes and strings lie in the buffer. *)
Definition slots_in_range {B} (w : Writer B) : Prop :=
  Forall (fun pd => pdSlot pd + 4 <= length (wrData w))%nat (wrScheduled w) /\
  Forall (fun ps => psSlot ps + 4 <= length (wrData w))%nat (wrStrings w).

(** The state of the writer between two operations of a [Write] routine. *)
Definition steady {B} (w : Writer B) : Prop := at_end w /\ slots_in_range w.

Section Flush.
Context {B : Type} (cost : B -> nat) (ok : B -> Prop).
(** [quiet]: no string is scheduled. *)
Context (quiet : Prop).
Implicit Types (w : Writer B).

Definition queue_cost (q : list (Pending B)) : nat := sum_list (cost ∘ pdBody <$> q).

(** What a step of a [Write] routine leaves: the writer is steady, the
    bodies [new] were scheduled, they are [ok] and cost at most [n]
    together, the buffer has not shrunk, and no string was scheduled if
    the routine is [quiet]. *)
Definition scheduled (n : nat) w w' (new : list (Pending B)) : Prop :=
  steady w' /\ wrScheduled w' = wrScheduled w ++ new /\
  Forall (ok ∘ pdBody) new /\ (queue_cost new <= n)%nat /\
  (length (wrData w) <= length (wrData w'))%nat /\
  (quiet -> wrStrings w' = wrStrings w).

(** [m] returns with such a writer. *)
Definition schedules (n : nat) (m : M (Writer B) unit) : Prop :=
  forall w, steady w -> exists w' new, m w = (Val tt, w') /\ scheduled n w w' new.

Lemma queue_cost_app q1 q2 : queue_cost (q1 ++ q2) = (queue_cost q1 + queue_cost q2)%nat.
Proof. unfold queue_cost. by rewrite fmap_app, sum_list_app. Qed.

Lemma queue_cost_cons pd q : queue_cost (pd :: q) = (cost (pdBody pd) + queue_cost q)%nat.
Proof. done. Qed.

Lemma scheduled_refl w : steady w -> scheduled 0 w w [].
Proof.
  intros Hw. unfold scheduled. rewrite app_nil_r.
  split; [done|]. split; [done|]. split; [constructor|]. split; [done|]. by split.
Qed.

Lemma scheduled_trans n1 n2 w1 w2 w3 new1 new2 :
  scheduled n1 w1 w2 new1 -> scheduled n2 w2 w3 new2 ->
  scheduled (n1 + n2) w1 w3 (new1 ++ new2).
Proof.
  intros (_ & Hq1 & Hok1 & Hc1 & Hl1 & Hs1) (Hw3 & Hq2 & Hok2 & Hc2 & Hl2 & Hs2).
  split; [done|]. split; [by rewrite Hq2, Hq1, app_assoc|].
  split; [by apply Forall_app|]. split; [rewrite queue_cost_app; lia|].
  split; [lia|]. intros Hquiet. by rewrite Hs2, Hs1.
Qed.

Lemma scheduled_mono n n' w w' new :
  (n <= n')%nat -> scheduled n w w' new -> scheduled n' w w' new.
Proof.
  intros Hn (? & ? & ? & ? & ? & ?).
  split; [done|]. split; [done|]. split; [done|]. split; [lia|]. by split.
Qed.

Lemma schedules_mono n n' m : (n <= n')%nat -> schedules n m -> schedules n' m.
Proof.
  intros Hn Hm w Hw. destruct (Hm w Hw) as (w' & new & ? & ?).
  exists w', new. split; [done|]. by eapply scheduled_mono.
Qed.

Lemma schedules_ret : schedules 0 (ret tt).
Proof. intros w Hw. exists w, []. split; [done|]. by apply scheduled_refl. Qed.

Lemma schedules_bind {A} n1 n2 (m : M (Writer B) A) (k : A -> M (Writer B) unit) :
  (forall w, steady w -> exists a w' new, m w = (Val a, w') /\ scheduled n1 w w' new /\
     schedules n2 (k a)) ->
  schedules (n1 + n2) (bind m k).
Proof.
  intros Hm w Hw. destruct (Hm w Hw) as (a & w1 & new1 & Hr & Hs1 & Hk).
  destruct (Hk w1 (proj1 Hs1)) as (w2 & new2 & Hr2 & Hs2).
  exists w2, (new1 ++ new2). rewrite (bind_val _ _ _ _ _ Hr).
  split; [done|]. by eapply scheduled_trans.
Qed.

Lemma schedules_seq n1 n2 (m k : M (Writer B) unit) :
  schedules n1 m -> schedules n2 k -> schedules (n1 + n2) (bind m (fun _ => k)).
Proof.
  intros Hm Hk. apply schedules_bind. intros w Hw.
  destruct (Hm w Hw) as (w' & new & ? & ?). by exists tt, w', new.
Qed.

Lemma steady_Write bs w :
  steady w ->
  steady {| wrData := wrData w ++ bs; wrPos := length (wrData w ++ bs);
            wrScheduled := wrScheduled w; wrStrings := wrStrings w |}.
Proof.
  intros [Hend [Hq Hs]]. split; [done|]. unfold slots_in_range. simpl.
  rewrite length_app. split; (eapply Forall_impl; [done|]); simpl; lia.
Qed.

Lemma Write_steady bs w :
  steady w ->
  exists w', Write bs w = (Val tt, w') /\ steady w' /\ wrScheduled w' = wrScheduled w /\
             wrStrings w' = wrStrings w /\ wrData w' = wrData w ++ bs.
Proof.
  intros Hw. rewrite run_Write by apply Hw. eexists. split; [done|].
  split; [by apply steady_Write|done].
Qed.

Lemma schedules_Write bs : schedules 0 (Write bs).
Proof.
  intros w Hw. rewrite run_Write by apply Hw. eexists _, []. split; [done|].
  split; [by apply steady_Write|]. simpl. rewrite app_nil_r, length_app.
  split; [done|]. split; [constructor|]. split; [done|]. split; [lia|done].
Qed.

Lemma schedules_GetPosition n (k : nat -> M (Writer B) unit) :
  (forall p, schedules n (k p)) -> schedules n (bind Writer_GetPosition k).
Proof. intros Hk w Hw. unfold bind, Writer_GetPosition. by apply Hk. Qed.

Lemma schedules_Pad n : schedules 0 (Pad n).
Proof. apply schedules_GetPosition. intros p. apply schedules_Write. Qed.

Lemma schedules_ScheduleWriteOffset body base :
  ok body -> schedules (cost body) (ScheduleWriteOffset body base).
Proof.
  intros Hok w [Hend [Hq Hs]]. unfold ScheduleWriteOffset. rewrite run_Write by done.
  eexists _, [mkPending body (wrPos w) base]. split; [done|]. unfold scheduled. simpl.
  rewrite length_app, length_u32. unfold at_end in Hend.
  split; [|split; [done|split; [by constructor|split; [unfold queue_cost; simpl; lia|]]]];
    [|split; [lia|done]].
  split; [unfold at_end; simpl; by rewrite length_app, length_u32|].
  split; simpl; rewrite length_app, length_u32.
  - apply Forall_app. split; [eapply Forall_impl; [done|]; simpl; lia|].
    constructor; [simpl; lia|done].
  - eapply Forall_impl; [done|]. simpl. lia.
Qed.

Lemma schedules_ScheduleWriteStringOffset value :
  ~ quiet -> schedules 0 (ScheduleWriteStringOffset value).
Proof.
  intros Hquiet w [Hend [Hq Hs]]. unfold ScheduleWriteStringOffset.
  rewrite run_Write by done.
  eexists _, []. split; [done|]. unfold scheduled. simpl.
  rewrite app_nil_r, length_app, length_u32. unfold at_end in Hend.
  split; [|split; [done|split; [done|split; [done|split; [lia|done]]]]].
  split; [unfold at_end; simpl; by rewrite length_app, length_u32|].
  split; simpl; rewrite length_app, length_u32.
  - eapply Forall_impl; [done|]. simpl. lia.
  - apply Forall_app. split; [eapply Forall_impl; [done|]; simpl; lia|].
    constructor; [simpl; lia|done].
Qed.

Lemma schedules_for_each {A} (c : A -> nat) (l : list A) (f : A -> M (Writer B) unit) :
  (forall x, x ∈ l -> schedules (c x) (f x)) ->
  schedules (sum_list (c <$> l)) (for_each l f).
Proof.
  induction l as [|x l IH]; intros Hf; simpl; [apply schedules_ret|].
  apply schedules_seq; [apply Hf; by left|]. apply IH. intros y Hy. apply Hf. by right.
Qed.

(** Patching a slot of the buffer keeps the writer steady. *)
Lemma steady_patch slot v w :
  steady w -> (slot + 4 <= length (wrData w))%nat ->
  steady {| wrData := poke slot (u32 v) (wrData w); wrPos := wrPos w;
            wrScheduled := wrScheduled w; wrStrings := wrStrings w |}.
Proof.
  intros [Hend [Hq Hs]] Hslot.
  assert (length (poke slot (u32 v) (wrData w)) = length (wrData w)) as Hlen
    by (rewrite length_poke, length_u32; lia).
  split; [unfold at_end in *; simpl; lia|].
  unfold slots_in_range. simpl. by rewrite Hlen.
Qed.

Lemma steady_tail pd rest w :
  steady w -> wrScheduled w = pd :: rest ->
  steady {| wrData := wrData w; wrPos := wrPos w;
            wrScheduled := rest; wrStrings := wrStrings w |}.
Proof.
  intros [Hend [Hq Hs]] Hw. split; [done|]. split; [|done]. simpl.
  rewrite Hw in Hq. by apply Forall_cons in Hq as [_ ?].
Qed.

Lemma FlushScheduledWrites_empty (run : B -> M (Writer B) unit) fuel w :
  wrScheduled w = [] -> FlushScheduledWrites run fuel w = (Val tt, w).
Proof. intros Hq. destruct fuel; simpl; unfold bind, pop_scheduled; by rewrite Hq. Qed.

(** The drain loop returns when every body of the queue is [ok] and the
    fuel covers the cost of the queue. *)
Lemma FlushScheduledWrites_drains (run : B -> M (Writer B) unit) fuel w :
  (forall b, ok b -> (1 <= cost b)%nat /\ schedules (cost b - 1) (run b)) ->
  steady w -> Forall (ok ∘ pdBody) (wrScheduled w) ->
  (queue_cost (wrScheduled w) <= fuel)%nat ->
  exists w', FlushScheduledWrites run fuel w = (Val tt, w') /\ steady w' /\
             wrScheduled w' = [] /\ (length (wrData w) <= length (wrData w'))%nat /\
             (quiet -> wrStrings w' = wrStrings w).
Proof.
  intros Hrun. revert w. induction fuel as [|fuel IH]; intros w Hw Hok Hfuel;
    (destruct (wrScheduled w) as [|pd rest] eqn:Hq;
     [exists w; by rewrite FlushScheduledWrites_empty|]);
    apply Forall_cons in Hok as [Hpd Hrest]; destruct (Hrun _ Hpd) as [Hcost Hbody];
    rewrite queue_cost_cons in Hfuel; [lia|].
  pose proof (steady_tail _ _ _ Hw Hq) as Hw1.
  assert (pdSlot pd + 4 <= length (wrData w))%nat as Hslot.
  { destruct Hw as [_ [Hs _]]. rewrite Hq in Hs. by apply Forall_cons in Hs as [? _]. }
  pose proof (steady_patch (pdSlot pd) (Z.of_nat (wrPos w) - Z.of_nat (pdBase pd)) _
                Hw1 Hslot) as Hw2.
  destruct (Hbody _ Hw2) as (w3 & new & Hr3 & Hw3 & Hq3 & Hok3 & Hc3 & Hl3 & Hs3).
  destruct (IH w3 Hw3) as (w' & Hr & Hw' & Hq' & Hl' & Hs').
  { rewrite Hq3. simpl. by apply Forall_app. }
  { rewrite Hq3. simpl. rewrite queue_cost_app. lia. }
  exists w'. split; [|split; [done|split; [done|split]]].
  - simpl. unfold bind at 1, pop_scheduled at 1. rewrite Hq.
    unfold bind at 1, Writer_GetPosition at 1. simpl.
    unfold bind at 1. rewrite run_patch by done. simpl in Hr3 |- *.
    unfold bind at 1. by rewrite Hr3.
  - simpl in Hl3. rewrite length_poke, length_u32 in Hl3. lia.
  - intros Hquiet. by rewrite Hs', Hs3.
Qed.

(** A routine that schedules on an empty queue and then drains it. *)
Lemma flush_after {A} (run : B -> M (Writer B) unit) n fuel
    (m : M (Writer B) unit) (k : M (Writer B) A) w :
  (forall b, ok b -> (1 <= cost b)%nat /\ schedules (cost b - 1) (run b)) ->
  schedules n m -> (n <= fuel)%nat -> steady w -> wrScheduled w = [] ->
  exists w', (m ;; FlushScheduledWrites run fuel ;; k) w = k w' /\ steady w' /\
             wrScheduled w' = [] /\ (length (wrData w) <= length (wrData w'))%nat /\
             (quiet -> wrStrings w' = wrStrings w).
Proof.
  intros Hrun Hm Hfuel Hw Hq.
  destruct (Hm w Hw) as (w1 & new & Hr1 & Hw1 & Hq1 & Hok1 & Hc1 & Hl1 & Hs1).
  rewrite Hq in Hq1. simpl in Hq1.
  destruct (FlushScheduledWrites_drains run fuel w1 Hrun Hw1)
    as (w' & Hr & Hw' & Hq' & Hl' & Hs'); [by rewrite Hq1|rewrite Hq1; lia|].
  exists w'. rewrite (bind_val _ _ _ _ _ Hr1), (bind_val _ _ _ _ _ Hr).
  split; [done|]. split; [done|]. split; [done|]. split; [lia|].
  intros Hquiet. by rewrite Hs', Hs1.
Qed.
End Flush.

(** [FlushScheduledStrings] returns and leaves no string scheduled. *)
Lemma flush_strings_drains {B} (pending : list PendingStr) pool (w : Writer B) :
  at_end w ->
  Forall (fun ps => psSlot ps + 4 <= length (wrData w))%nat pending ->
  exists w', flush_strings pending pool w = (Val tt, w') /\ at_end w' /\
             wrScheduled w' = wrScheduled w /\ wrStrings w' = wrStrings w /\
             (length (wrData w) <= length (wrData w'))%nat.
Proof.
  revert pool w. induction pending as [|ps rest IH]; intros pool w Hend Hslots.
  - by exists w.
  - apply Forall_cons in Hslots as [Hps Hrest]. simpl.
    destruct (pooled (psValue ps) pool) as [a|].
    + unfold bind at 1. rewrite run_patch by done.
      edestruct (IH pool) as (w' & Hr & ? & ? & ? & Hl); [| |rewrite Hr].
      * unfold at_end in *. simpl. rewrite length_poke, length_u32. lia.
      * simpl. rewrite length_poke, length_u32.
        eapply Forall_impl; [done|]. simpl. lia.
      * exists w'. repeat split; try done. simpl in Hl.
        rewrite length_poke, length_u32 in Hl. lia.
    + unfold bind at 1, Writer_GetPosition at 1. unfold bind at 1.
      rewrite run_patch by done. unfold bind at 1.
      rewrite run_Write by (unfold at_end in *; simpl; rewrite length_poke, length_u32; lia).
      edestruct (IH ((psValue ps, wrPos w) :: pool)) as (w' & Hr & ? & ? & ? & Hl);
        [| |rewrite Hr].
      * done.
      * simpl. rewrite length_app, length_poke, length_u32.
        eapply Forall_impl; [done|]. simpl. lia.
      * exists w'. repeat split; try done. simpl in Hl.
        rewrite length_app, length_poke, length_u32 in Hl. lia.
Qed.

Lemma FlushScheduledStrings_drains {B} (w : Writer B) :
  steady w ->
  exists w', FlushScheduledStrings w = (Val tt, w') /\ steady w' /\
             wrScheduled w' = wrScheduled w /\ wrStrings w' = [] /\
             (length (wrData w) <= length (wrData w'))%nat.
Proof.
  intros [Hend [Hq Hs]]. unfold FlushScheduledStrings.
  destruct (flush_strings_drains (wrStrings w) []
              {| wrData := wrData w; wrPos := wrPos w;
                 wrScheduled := wrScheduled w; wrStrings := [] |})
    as (w' & -> & Hend' & Hq' & Hs' & Hl); [done..|].
  exists w'. simpl in *. split; [done|]. split; [|done].
  split; [done|]. unfold slots_in_range. rewrite Hq', Hs'. split; [|done].
  eapply Forall_impl; [done|]. simpl. lia.
Qed.

(** [Pad] brings the cursor to a multiple of its argument. *)
Lemma Pad_aligns {B} (n : nat) (w : Writer B) :
  (n <> 0)%nat -> at_end w ->
  exists w', Pad n w = (Val tt, w') /\ at_end w' /\ (wrPos w' mod n = 0)%nat /\
             wrData w' = wrData w ++ zeros (padding n (wrPos w)) /\
             wrScheduled w' = wrScheduled w /\ wrStrings w' = wrStrings w.
Proof.
  intros Hn Hend. unfold Pad, bind, Writer_GetPosition. rewrite run_Write by done.
  eexists. split; [done|]. simpl. split; [done|]. split; [|done].
  rewrite length_app, length_zeros. unfold at_end in Hend. rewrite <- Hend.
  by apply Nat_round_up_mod.
Qed.

(** [Pad] between two operations of a [Write] routine. *)
Lemma Pad_steady {B} (n : nat) (w : Writer B) :
  (n <> 0)%nat -> steady w ->
  exists w', Pad n w = (Val tt, w') /\ steady w' /\ (wrPos w' mod n = 0)%nat /\
             wrScheduled w' = wrScheduled w /\ wrStrings w' = wrStrings w /\
             (length (wrData w) <= length (wrData w'))%nat.
Proof.
  intros Hn Hw. destruct (Pad_aligns n w Hn (proj1 Hw)) as (w' & Hr & _ & Hp & Hd & Hq & Hs).
  destruct (schedules_Pad (fun _ => 0%nat) (fun _ => True) True n w Hw)
    as (w2 & new & Hr2 & Hw2 & _).
  rewrite Hr in Hr2. injection Hr2 as <-. exists w'.
  split; [done|]. split; [done|]. split; [done|]. split; [done|]. split; [done|].
  rewrite Hd, length_app. lia.
Qed.
