(* ===== verification/Format.v ===== *)
(** * Format: the data model of the sprite-set container

    The in-memory structures the codec of [file_format_spr_set.cpp] fills
    in and serialises.  Their declarations are in a header that is not part
    of the repository; fields, types and the signature values are those
    the routines of [file_format_spr_set.cpp] use and the format defines.
    Enums that the codec copies as raw 32-bit values ([TextureFormat],
    [ScreenMode]) are kept as integers, floats as their bit patterns. *)

From Stdlib Require Import ZArith Lia List Strings.String.
From stdpp Require Import base tactics option list numbers strings.
From S2P Require Import Prelude Common Bytes.

(** ** [enum class TxpSig : u32] *)

Module TxpSig.
Inductive t : Set := MipMap | TexSet | Texture2D | CubeMap | Rectangle.

(** The four bytes ["TXP"], then the tag 2 to 6, read as a little-endian
    32-bit value. *)
Definition value (s : t) : Z :=
  match s with
  | MipMap => 0x02505854
  | TexSet => 0x03505854
  | Texture2D => 0x04505854
  | CubeMap => 0x05505854
  | Rectangle => 0x06505854
  end.

#[export] Instance eq_dec : EqDecision t.
Proof. solve_decision. Defined.

Lemma value_inj s1 s2 : value s1 = value s2 -> s1 = s2.
Proof. by destruct s1, s2. Qed.

Lemma value_range s : is_u32 (value s).
Proof. unfold is_u32. destruct s; simpl; lia. Qed.
End TxpSig.

(** ** Textures *)

Record ivec2 : Set := mkivec2 { ivec2_x : Z; ivec2_y : Z }.

Record MipMap : Set := mkMipMap {
  MipMap_Size : ivec2;          (* ivec2 Size *)
  MipMap_Format : Z;            (* TextureFormat Format, as its u32 value *)
  MipMap_DataSize : Z;          (* u32 DataSize *)
  MipMap_Data : list byte       (* std::unique_ptr<u8[]> Data *)
}.

Record Tex : Set := mkTex {
  Tex_Name : string;
  Tex_MipMapsArray : list (list MipMap)
}.

Record TexSet : Set := mkTexSet {
  TexSet_Textures : list Tex
}.

(** [std::make_shared<Tex>()] and a default-constructed [TexSet]. *)
Definition new_Tex : Tex := {| Tex_Name := ""; Tex_MipMapsArray := [] |}.
Definition new_TexSet : TexSet := {| TexSet_Textures := [] |}.

(** [Tex::GetSignature()], which the header defines: the codec only relies
    on it being a function of the texture. *)
Class TexSignature : Type := GetSignature : Tex -> TxpSig.t.

(** The definition of the format's reference implementation: a texture of
    six array slices is a cube map. *)
Definition signature_by_array_size : TexSignature :=
  fun tex => if decide (length (Tex_MipMapsArray tex) = 6%nat)
             then TxpSig.CubeMap else TxpSig.Texture2D.

(** ** Sprites *)

Record vec4 : Set := mkvec4 { vec4_x : Z; vec4_y : Z; vec4_z : Z; vec4_w : Z }.

Record SprExtra : Set := mkSprExtra {
  SprExtra_Flags : Z;           (* u32 Flags *)
  SprExtra_ScreenMode : Z       (* ScreenMode, as its u32 value *)
}.

Record Spr : Set := mkSpr {
  Spr_TextureIndex : Z;      (* i32 TextureIndex *)
  Spr_Rotate : Z;            (* i32 Rotate *)
  Spr_TexelRegion : vec4;
  Spr_PixelRegion : vec4;
  Spr_Name : string;
  Spr_Extra : SprExtra
}.

Record SprSet : Set := mkSprSet {
  SprSet_Flags : Z;             (* u32 Flags *)
  SprSet_TexSet : TexSet;
  SprSet_Sprites : list Spr
}.

Definition new_Spr : Spr :=
  {| Spr_TextureIndex := 0; Spr_Rotate := 0;
     Spr_TexelRegion := mkvec4 0 0 0 0; Spr_PixelRegion := mkvec4 0 0 0 0;
     Spr_Name := ""; Spr_Extra := mkSprExtra 0 0 |}.
Definition new_SprSet : SprSet :=
  {| SprSet_Flags := 0; SprSet_TexSet := new_TexSet; SprSet_Sprites := [] |}.

#[export] Instance ivec2_eq_dec : EqDecision ivec2.
Proof. solve_decision. Defined.
#[export] Instance MipMap_eq_dec : EqDecision MipMap.
Proof. solve_decision. Defined.
#[export] Instance Tex_eq_dec : EqDecision Tex.
Proof. solve_decision. Defined.
#[export] Instance TexSet_eq_dec : EqDecision TexSet.
Proof. solve_decision. Defined.
#[export] Instance vec4_eq_dec : EqDecision vec4.
Proof. solve_decision. Defined.
#[export] Instance SprExtra_eq_dec : EqDecision SprExtra.
Proof. solve_decision. Defined.
#[export] Instance Spr_eq_dec : EqDecision Spr.
Proof. solve_decision. Defined.
#[export] Instance SprSet_eq_dec : EqDecision SprSet.
Proof. solve_decision. Defined.

(** ** Field updates *)

Definition set_Tex_Name (n : string) (t : Tex) : Tex :=
  {| Tex_Name := n; Tex_MipMapsArray := Tex_MipMapsArray t |}.
Definition set_Tex_MipMapsArray (a : list (list MipMap)) (t : Tex) : Tex :=
  {| Tex_Name := Tex_Name t; Tex_MipMapsArray := a |}.
Definition set_Spr_Name (n : string) (s : Spr) : Spr :=
  {| Spr_TextureIndex := Spr_TextureIndex s; Spr_Rotate := Spr_Rotate s;
     Spr_TexelRegion := Spr_TexelRegion s; Spr_PixelRegion := Spr_PixelRegion s;
     Spr_Name := n; Spr_Extra := Spr_Extra s |}.
Definition set_Spr_Extra (e : SprExtra) (s : Spr) : Spr :=
  {| Spr_TextureIndex := Spr_TextureIndex s; Spr_Rotate := Spr_Rotate s;
     Spr_TexelRegion := Spr_TexelRegion s; Spr_PixelRegion := Spr_PixelRegion s;
     Spr_Name := Spr_Name s; Spr_Extra := e |}.
Definition set_Spr_TextureIndex (i : Z) (s : Spr) : Spr :=
  {| Spr_TextureIndex := i; Spr_Rotate := Spr_Rotate s;
     Spr_TexelRegion := Spr_TexelRegion s; Spr_PixelRegion := Spr_PixelRegion s;
     Spr_Name := Spr_Name s; Spr_Extra := Spr_Extra s |}.
Definition set_SprSet_Flags (f : Z) (s : SprSet) : SprSet :=
  {| SprSet_Flags := f; SprSet_TexSet := SprSet_TexSet s; SprSet_Sprites := SprSet_Sprites s |}.
Definition set_SprSet_TexSet (t : TexSet) (s : SprSet) : SprSet :=
  {| SprSet_Flags := SprSet_Flags s; SprSet_TexSet := t; SprSet_Sprites := SprSet_Sprites s |}.
Definition set_SprSet_Sprites (l : list Spr) (s : SprSet) : SprSet :=
  {| SprSet_Flags := SprSet_Flags s; SprSet_TexSet := SprSet_TexSet s; SprSet_Sprites := l |}.

(** [MipMapsArray.emplace_back()]: a new, empty array slice. *)
Definition emplace_slice (t : Tex) : Tex :=
  set_Tex_MipMapsArray (Tex_MipMapsArray t ++ [[]]) t.

(** [mipMaps.emplace_back()] on the slice added last, filled with [m]. *)
Definition emplace_mip (m : MipMap) (t : Tex) : Tex :=
  set_Tex_MipMapsArray
    (alter (fun slice => slice ++ [m]) (pred (length (Tex_MipMapsArray t)))
           (Tex_MipMapsArray t)) t.

(** [Textures.emplace_back(...)] *)
Definition emplace_texture (t : Tex) (ts : TexSet) : TexSet :=
  {| TexSet_Textures := TexSet_Textures ts ++ [t] |}.

(** [Sprites.emplace_back()], filled with [s]. *)
Definition emplace_sprite (s : Spr) (set : SprSet) : SprSet :=
  set_SprSet_Sprites (SprSet_Sprites set ++ [s]) set.

Lemma emplace_mip_last m n slices slice :
  emplace_mip m (mkTex n (slices ++ [slice])) = mkTex n (slices ++ [slice ++ [m]]).
Proof.
  unfold emplace_mip, set_Tex_MipMapsArray. simpl. f_equal.
  rewrite length_app. simpl.
  replace (pred (length slices + 1)) with (length slices + 0)%nat by lia.
  by rewrite alter_app_r.
Qed.

(** ** Well-formed values

    The ranges the C++ types impose on the fields, and the shape the
    writer relies on: every byte array has its declared size and all array
    slices of a texture have as many mip levels as the first. *)

Definition wf_MipMap (m : MipMap) : Prop :=
  is_i32 (ivec2_x (MipMap_Size m)) /\ is_i32 (ivec2_y (MipMap_Size m)) /\
  is_u32 (MipMap_Format m) /\ is_u32 (MipMap_DataSize m) /\
  MipMap_DataSize m = Z.of_nat (length (MipMap_Data m)).

(** The number of mip levels the writer records for a texture. *)
Definition mip_levels (t : Tex) : nat :=
  match Tex_MipMapsArray t with
  | [] => 0
  | slice :: _ => length slice
  end.

Definition wf_Tex (t : Tex) : Prop :=
  (length (Tex_MipMapsArray t) < 256)%nat /\
  (mip_levels t < 256)%nat /\
  Forall (fun slice => length slice = mip_levels t /\ Forall wf_MipMap slice)
         (Tex_MipMapsArray t).

Definition wf_TexSet (ts : TexSet) : Prop :=
  Z.of_nat (length (TexSet_Textures ts)) < 4294967296 /\
  Forall wf_Tex (TexSet_Textures ts).

Definition wf_vec4 (v : vec4) : Prop :=
  is_u32 (vec4_x v) /\ is_u32 (vec4_y v) /\ is_u32 (vec4_z v) /\ is_u32 (vec4_w v).

Definition wf_Spr (s : Spr) : Prop :=
  is_i32 (Spr_TextureIndex s) /\ is_i32 (Spr_Rotate s) /\
  wf_vec4 (Spr_TexelRegion s) /\ wf_vec4 (Spr_PixelRegion s) /\
  is_u32 (SprExtra_Flags (Spr_Extra s)) /\
  is_u32 (SprExtra_ScreenMode (Spr_Extra s)).

Definition wf_SprSet (s : SprSet) : Prop :=
  is_u32 (SprSet_Flags s) /\ wf_TexSet (SprSet_TexSet s) /\
  Z.of_nat (length (SprSet_Sprites s)) < 4294967296 /\
  Forall wf_Spr (SprSet_Sprites s).

#[export] Instance wf_MipMap_dec m : Decision (wf_MipMap m).
Proof. unfold wf_MipMap. apply _. Defined.
#[export] Instance wf_Tex_dec t : Decision (wf_Tex t).
Proof. unfold wf_Tex. apply _. Defined.
#[export] Instance wf_TexSet_dec ts : Decision (wf_TexSet ts).
Proof. unfold wf_TexSet. apply _. Defined.
#[export] Instance wf_vec4_dec v : Decision (wf_vec4 v).
Proof. unfold wf_vec4. apply _. Defined.
#[export] Instance wf_Spr_dec s : Decision (wf_Spr s).
Proof. unfold wf_Spr. apply _. Defined.
#[export] Instance wf_SprSet_dec s : Decision (wf_SprSet s).
Proof. unfold wf_SprSet. apply _. Defined.
