(* ===== verification/Read.v ===== *)
(** * Read: decoding textures and sprite sets

    [Tex::Read], [TexSet::Read] and [SprSet::Read] of
    [file_format_spr_set.cpp], and [LoadFile] of [file_format_common.h].
    Each routine is a computation over the reader and the object it fills
    in ([this]); a [return] before the end leaves the object as far as it
    was filled.  A record the code constructs in place and then assigns
    field by field is built in local variables and stored where the code
    leaves the block. *)

From Stdlib Require Import ZArith Lia List Strings.String.
From stdpp Require Import base tactics option list numbers strings.
From coqutil Require Import Byte Word.LittleEndianList.
From S2P Require Import Prelude Common Bytes Reader Format.

(** The comparison of a value read from the stream with a signature. *)
Definition is_sig (v : Z) (s : TxpSig.t) : bool := v =? TxpSig.value s.

(** [static_cast<StreamResult>(a) != b] *)
Definition result_neq (a b : StreamResult) : bool := bool_decide (a <> b).

(** ** [Tex::Read] *)

(** The callback of [Tex::Read], lines 57-84: one mip map at the cursor. *)
Definition Tex_Read_MipMap : M (Reader * Tex) StreamResult :=
  lambda (
    mipSignature <- ReadUInt32 ;;
    when (negb (is_sig mipSignature TxpSig.MipMap)) (Return BadFormat) ;;
    size_x <- ReadUInt32 ;;
    size_y <- ReadUInt32 ;;
    format <- ReadUInt32 ;;
    mipIndex <- ReadUInt8 ;;
    arrayIndex <- ReadUInt8 ;;
    padding <- ReadUInt16 ;;
    dataSize <- ReadUInt32 ;;
    let size := mkivec2 (to_i32 size_x) (to_i32 size_y) in
    remaining <- GetRemaining ;;
    when (dataSize >? remaining) (
      modify_obj (emplace_mip (mkMipMap size format dataSize [])) ;;
      Return BadCount) ;;
    data <- Read (Z.to_nat dataSize) ;;
    modify_obj (emplace_mip (mkMipMap size format dataSize data)) ;;
    ret Success).

(** The mip levels per array slice, line 42.  The division is by a byte
    read from the stream: by zero it is undefined. *)
Definition adjustedMipLevels (texSignature mipMapCount arraySize : Z)
    : M (Reader * Tex) Z :=
  if is_sig texSignature TxpSig.CubeMap then
    if arraySize =? 0 then undefined else ret (mipMapCount / arraySize)
  else ret mipMapCount.

(** The body of the inner loop, lines 52-86. *)
Definition Tex_Read_level : M (Reader * Tex) unit :=
  mipMapOffset <- ReadInt32 ;;
  when (mipMapOffset <=? 0) (Return BadPointer) ;;
  streamResult <- ReadAtOffset mipMapOffset Tex_Read_MipMap true ;;
  when (result_neq streamResult Success) (Return streamResult).

Definition Tex_Read : M (Reader * Tex) StreamResult :=
  function (
    PushBaseOffset ;;
    texSignature <- ReadUInt32 ;;
    mipMapCount <- ReadUInt32 ;;
    mipLevels <- ReadUInt8 ;;
    arraySize <- ReadUInt8 ;;
    depth <- ReadUInt8 ;;
    dimensions <- ReadUInt8 ;;
    when (negb (is_sig texSignature TxpSig.Texture2D)
          && negb (is_sig texSignature TxpSig.CubeMap)) (Return BadFormat) ;;
    levels <- adjustedMipLevels texSignature mipMapCount arraySize ;;
    repeat_n (Z.to_nat arraySize) (
      modify_obj emplace_slice ;;
      repeat_n (Z.to_nat levels) Tex_Read_level) ;;
    PopBaseOffset ;;
    ret Success).

(** ** [TexSet::Read] *)

(** The body of the loop, lines 108-119: the texture is appended to
    [Textures] before it is read, and stays there if reading it fails. *)
Definition TexSet_Read_texture : M (Reader * TexSet) unit :=
  textureOffset <- ReadInt32 ;;
  when (textureOffset <=? 0) (Return BadPointer) ;;
  streamResult <- ReadAtOffset textureOffset
                    (call_with new_Tex Tex_Read emplace_texture) true ;;
  when (result_neq streamResult Success) (Return streamResult).

Definition TexSet_Read : M (Reader * TexSet) StreamResult :=
  function (
    PushBaseOffset ;;
    setSignature <- ReadUInt32 ;;
    textureCount <- ReadUInt32 ;;
    packedInfo <- ReadUInt32 ;;
    when (negb (is_sig setSignature TxpSig.TexSet)) (Return BadFormat) ;;
    repeat_n (Z.to_nat textureCount) TexSet_Read_texture ;;
    PopBaseOffset ;;
    ret Success).

(** ** [SprSet::Read] *)

(** [reader.Read(&v, sizeof(vec4))]: four floats, as their bit patterns. *)
Definition vec4_of_bytes (bs : list byte) : vec4 :=
  mkvec4 (le_combine (take 4 bs)) (le_combine (take 4 (drop 4 bs)))
         (le_combine (take 4 (drop 8 bs))) (le_combine (take 4 (drop 12 bs))).

Definition Read_vec4 {O} : M (Reader * O) vec4 :=
  bs <- Read 16 ;; ret (vec4_of_bytes bs).

(** The callback at lines 197-200: the result of [TexSet.Read] is dropped. *)
Definition SprSet_Read_TexSet : M (Reader * SprSet) unit :=
  _ <- zoom SprSet_TexSet set_SprSet_TexSet TexSet_Read ;; ret tt.

(** The callback at lines 207-211. *)
Definition SprSet_Read_textureNames : M (Reader * SprSet) unit :=
  this <- get_obj ;;
  textures <- map_M (fun texture =>
                       name <- ReadStringOffset ;; ret (set_Tex_Name name texture))
                    (TexSet_Textures (SprSet_TexSet this)) ;;
  modify_obj (set_SprSet_TexSet (mkTexSet textures)).

(** The body of the loop at lines 224-231. *)
Definition SprSet_Read_sprite : M (Reader * SprSet) unit :=
  textureIndex <- ReadUInt32 ;;
  rotate <- ReadUInt32 ;;
  texelRegion <- Read_vec4 ;;
  pixelRegion <- Read_vec4 ;;
  modify_obj (emplace_sprite
    {| Spr_TextureIndex := to_i32 textureIndex; Spr_Rotate := to_i32 rotate;
       Spr_TexelRegion := texelRegion; Spr_PixelRegion := pixelRegion;
       Spr_Name := ""; Spr_Extra := mkSprExtra 0 0 |}).

(** The callback at lines 238-242. *)
Definition SprSet_Read_spriteNames : M (Reader * SprSet) unit :=
  this <- get_obj ;;
  sprites <- map_M (fun sprite =>
                      name <- ReadStringOffset ;; ret (set_Spr_Name name sprite))
                   (SprSet_Sprites this) ;;
  modify_obj (set_SprSet_Sprites sprites).

(** The callback at lines 245-252. *)
Definition SprSet_Read_extraData : M (Reader * SprSet) unit :=
  this <- get_obj ;;
  sprites <- map_M (fun sprite =>
                      flags <- ReadUInt32 ;;
                      screenMode <- ReadUInt32 ;;
                      ret (set_Spr_Extra (mkSprExtra flags screenMode) sprite))
                   (SprSet_Sprites this) ;;
  modify_obj (set_SprSet_Sprites sprites).

(** Lines 191-213.  [streamResult] is initialised and tested, and nothing
    assigns it in between. *)
Definition SprSet_Read_textures (texSetOffset textureCount textureNamesOffset : Z)
    : M (Reader * SprSet) unit :=
  let streamResult := Success in
  when (texSetOffset <=? 0) (Return BadPointer) ;;
  ReadAtOffset texSetOffset SprSet_Read_TexSet false ;;
  when (result_neq streamResult Success) (Return streamResult) ;;
  this <- get_obj ;;
  when ((textureNamesOffset >? 0)
        && (Z.of_nat (length (TexSet_Textures (SprSet_TexSet this))) =? textureCount))
    (ReadAtOffset textureNamesOffset SprSet_Read_textureNames false).

(** Lines 215-253. *)
Definition SprSet_Read_sprites (spriteCount spritesOffset spriteNamesOffset
    spriteExtraDataOffset : Z) : M (Reader * SprSet) unit :=
  when ((spritesOffset <=? 0) || (spriteExtraDataOffset <=? 0)) (Return BadPointer) ;;
  let streamResult := Success in
  ReadAtOffset spritesOffset (repeat_n (Z.to_nat spriteCount) SprSet_Read_sprite) false ;;
  when (result_neq streamResult Success) (Return streamResult) ;;
  this <- get_obj ;;
  when ((spriteNamesOffset >? 0)
        && (Z.of_nat (length (SprSet_Sprites this)) =? spriteCount))
    (ReadAtOffset spriteNamesOffset SprSet_Read_spriteNames false) ;;
  ReadAtOffset spriteExtraDataOffset SprSet_Read_extraData false.

Definition SprSet_Read : M (Reader * SprSet) StreamResult :=
  function (
    flags <- ReadUInt32 ;;
    modify_obj (set_SprSet_Flags flags) ;;
    texSetOffset <- ReadInt32 ;;
    textureCount <- ReadUInt32 ;;
    spriteCount <- ReadUInt32 ;;
    spritesOffset <- ReadInt32 ;;
    textureNamesOffset <- ReadInt32 ;;
    spriteNamesOffset <- ReadInt32 ;;
    spriteExtraDataOffset <- ReadInt32 ;;
    when (textureCount >? 0)
      (SprSet_Read_textures texSetOffset textureCount textureNamesOffset) ;;
    when (spriteCount >? 0)
      (SprSet_Read_sprites spriteCount spritesOffset spriteNamesOffset
                           spriteExtraDataOffset) ;;
    ret Success).

(** ** [IStreamReadable] and [LoadFile] *)

(** A type with a [Read] method and a default constructor. *)
Class IStreamReadable (T : Type) : Type := {
  stream_new : T;
  stream_Read : M (Reader * T) StreamResult
}.

#[export] Instance Tex_readable : IStreamReadable Tex :=
  {| stream_new := new_Tex; stream_Read := Tex_Read |}.
#[export] Instance TexSet_readable : IStreamReadable TexSet :=
  {| stream_new := new_TexSet; stream_Read := TexSet_Read |}.
#[export] Instance SprSet_readable : IStreamReadable SprSet :=
  {| stream_new := new_SprSet; stream_Read := SprSet_Read |}.

(** [LoadFile<Readable>(path)] on a file of content [file]: the object is
    returned whatever [Read] returned; [None] stands for undefined
    behaviour. *)
Definition LoadFile {T} `{IStreamReadable T} (file : list byte) : option T :=
  match stream_Read (FromFile file, stream_new) with
  | (Val _, (_, data)) => Some data
  | _ => None
  end.

(** The result [Read] reports and the object it leaves, for a file. *)
Definition decode {T} `{IStreamReadable T} (file : list byte) : Res StreamResult * T :=
  let '(r, (_, data)) := stream_Read (FromFile file, stream_new) in (r, data).

(** ** The error paths of [Tex::Read] *)

(** C37: a texture whose first four bytes are neither the Texture2D nor the
    CubeMap signature is refused with [BadFormat] after its twelve-byte
    header was read; the object is untouched, and the base offset pushed on
    entry stays on the reader's stack. *)
Theorem Tex_Read_bad_signature (rd : Reader) (t : Tex) :
  let sig := le_combine (peek (rdPos rd) 4 (rdData rd)) in
  sig <> TxpSig.value TxpSig.Texture2D ->
  sig <> TxpSig.value TxpSig.CubeMap ->
  Tex_Read (rd, t) =
    (Val BadFormat,
     ({| rdData := rdData rd; rdPos := rdPos rd + 12;
         rdBases := rdPos rd :: rdBases rd |}, t)).
Proof.
  intros sig H1 H2. unfold Tex_Read, function.
  cbn -[peek le_combine Z.eqb]. unfold is_sig. fold sig.
  rewrite (proj2 (Z.eqb_neq _ _) H1), (proj2 (Z.eqb_neq _ _) H2). cbn.
  state_eq.
Qed.

Lemma Tex_Read_bad_signature_witness :
  Tex_Read (FromFile [], new_Tex) =
    (Val BadFormat, ({| rdData := []; rdPos := 12; rdBases := [0%nat] |}, new_Tex)).
Proof.
  apply (Tex_Read_bad_signature (FromFile []) new_Tex); vm_compute; discriminate.
Defined.

(** C38: a texture with the CubeMap signature and an array size of zero
    makes [Tex::Read] divide by zero: its behaviour is undefined. *)
Theorem Tex_Read_zero_array_size (rd : Reader) (t : Tex) :
  le_combine (peek (rdPos rd) 4 (rdData rd)) = TxpSig.value TxpSig.CubeMap ->
  le_combine (peek (rdPos rd + 4 + 4 + 1) 1 (rdData rd)) = 0 ->
  (Tex_Read (rd, t)).1 = Undef.
Proof.
  intros Hsig Hsize. unfold Tex_Read, function.
  cbn -[peek le_combine Z.eqb]. unfold adjustedMipLevels, is_sig.
  rewrite Hsig, Hsize. done.
Qed.

Lemma Tex_Read_zero_array_size_witness :
  (Tex_Read (FromFile (u32 (TxpSig.value TxpSig.CubeMap)), new_Tex)).1 = Undef.
Proof. apply Tex_Read_zero_array_size; vm_compute; reflexivity. Defined.

(** ** The results [SprSet::Read] can report *)

Lemma returns_in_Read_vec4 {O} P : returns_in P (Read_vec4 (O:=O)).
Proof. unfold Read_vec4. solve_returns. Qed.

#[export] Hint Resolve returns_in_Read_vec4 : stream.

(** C24: the results of [SprSet::Read].  Whatever the file holds, a call
    that returns reports [Success] or [BadPointer]: the result of
    [TexSet::Read] is dropped and the variable [streamResult] that is
    tested after it is never assigned, so that [BadFormat] and [BadCount]
    of the texture set, and a bad pointer inside it, are reported as
    [Success]. *)
Theorem SprSet_Read_reports_Success_or_BadPointer s r s' :
  SprSet_Read s = (Val r, s') -> r = Success \/ r = BadPointer.
Proof.
  apply (function_outcome (fun r => r = Success) (fun r => r = BadPointer)).
  - repeat (apply values_in_bind; intros ?). by apply values_in_ret.
  - solve_returns.
Qed.

(** A sprite set whose header announces one texture at offset 32 and no
    sprite, and ends there: the texture set that is read at offset 32 has
    no valid signature. *)
Definition truncated_file : list byte :=
  u32 0 ++ u32 32 ++ u32 1 ++ u32 0 ++ u32 0 ++ u32 0 ++ u32 0 ++ u32 0.

Lemma SprSet_Read_reports_Success_or_BadPointer_witness :
  (TexSet_Read (FromFile (drop 32 truncated_file), new_TexSet)).1 = Val BadFormat /\
  (SprSet_Read (FromFile truncated_file, new_SprSet)).1 = Val Success /\
  (Success = Success \/ Success = BadPointer).
Proof.
  split; [by vm_compute|]. split; [by vm_compute|].
  apply (SprSet_Read_reports_Success_or_BadPointer (FromFile truncated_file, new_SprSet)
           Success (SprSet_Read (FromFile truncated_file, new_SprSet)).2).
  by vm_compute.
Defined.
