(* ===== verification/Write.v ===== *)
(** * Write: encoding textures and sprite sets

    [TexSet::Write] and [SprSet::Write] of [file_format_spr_set.cpp].  The
    lambdas the two routines hand to [ScheduleWriteOffset] are the
    constructors of [Body]; [run_body] is what each does when the writer
    runs it.  An access to a vector or a byte array outside its bounds is
    undefined behaviour of the C++ program and [Undef] in the model. *)

From Stdlib Require Import ZArith Lia List Strings.String.
From stdpp Require Import base tactics option list numbers strings.
From coqutil Require Import Byte Word.LittleEndianList.
From S2P Require Import Prelude Common Bytes Writer Format.

(** The lambdas of the file, with what each captures. *)
Inductive Body : Set :=
| Body_Tex (texture : Tex)                                 (* lines 138-171 *)
| Body_MipMap (arrayIndex mipIndex : nat) (texture : Tex)  (* lines 155-168 *)
| Body_Sprites (this : SprSet)                             (* lines 267-282 *)
| Body_TextureNames (this : SprSet)                        (* lines 285-294 *)
| Body_SpriteNames (this : SprSet)                         (* lines 297-301 *)
| Body_ExtraData (this : SprSet).                          (* lines 303-310 *)

#[export] Instance Body_eq_dec : EqDecision Body.
Proof. solve_decision. Defined.

Abbreviation W := (Writer Body).

Section Write.
Context `{TexSignature}.

(** ** The bodies of [TexSet::Write] *)

(** [static_cast<u8>(texture->MipMapsArray.size())] *)
Definition Tex_arraySize (texture : Tex) : Z :=
  to_u8 (Z.of_nat (length (Tex_MipMapsArray texture))).

(** [(arraySize > 0) ? static_cast<u8>(MipMapsArray.front().size()) : 0] *)
Definition Tex_mipLevels (texture : Tex) : Z :=
  if Tex_arraySize texture >? 0
  then to_u8 (Z.of_nat (length (hd [] (Tex_MipMapsArray texture))))
  else 0.

(** Lines 157-167.  [Data] is written from its first byte for [DataSize]
    bytes, which must not be more than it holds. *)
Definition write_MipMap (arrayIndex mipIndex : nat) (texture : Tex) : M W unit :=
  match Tex_MipMapsArray texture !! arrayIndex ≫= (.!! mipIndex) with
  | None => undefined
  | Some mipMap =>
      WriteUInt32 (TxpSig.value TxpSig.MipMap) ;;
      WriteInt32 (ivec2_x (MipMap_Size mipMap)) ;;
      WriteInt32 (ivec2_y (MipMap_Size mipMap)) ;;
      WriteUInt32 (MipMap_Format mipMap) ;;
      WriteUInt8 (Z.of_nat mipIndex) ;;
      WriteUInt8 (Z.of_nat arrayIndex) ;;
      WriteUInt8 0x00 ;;
      WriteUInt8 0x00 ;;
      WriteUInt32 (MipMap_DataSize mipMap) ;;
      if (0 <=? MipMap_DataSize mipMap)
         && (MipMap_DataSize mipMap <=? Z.of_nat (length (MipMap_Data mipMap)))
      then Write (take (Z.to_nat (MipMap_DataSize mipMap)) (MipMap_Data mipMap))
      else undefined
  end.

(** Lines 140-170. *)
Definition write_Tex (texture : Tex) : M W unit :=
  texOffset <- Writer_GetPosition ;;
  let arraySize := Tex_arraySize texture in
  let mipLevels := Tex_mipLevels texture in
  WriteUInt32 (TxpSig.value (GetSignature texture)) ;;
  WriteUInt32 (arraySize * mipLevels) ;;
  WriteUInt8 mipLevels ;;
  WriteUInt8 arraySize ;;
  WriteUInt8 0x01 ;;
  WriteUInt8 0x01 ;;
  for_each (seq 0 (Z.to_nat arraySize)) (fun arrayIndex =>
    for_each (seq 0 (Z.to_nat mipLevels)) (fun mipIndex =>
      ScheduleWriteOffset (Body_MipMap arrayIndex mipIndex texture) texOffset)).

(** ** The bodies of [SprSet::Write] *)

Definition write_vec4 (v : vec4) : M W unit :=
  WriteFloat32 (vec4_x v) ;;
  WriteFloat32 (vec4_y v) ;;
  WriteFloat32 (vec4_z v) ;;
  WriteFloat32 (vec4_w v).

(** Lines 269-281. *)
Definition write_Sprites (this : SprSet) : M W unit :=
  for_each (SprSet_Sprites this) (fun sprite =>
    WriteInt32 (Spr_TextureIndex sprite) ;;
    WriteInt32 (Spr_Rotate sprite) ;;
    write_vec4 (Spr_TexelRegion sprite) ;;
    write_vec4 (Spr_PixelRegion sprite)).

(** Lines 287-293. *)
Definition write_TextureNames (this : SprSet) : M W unit :=
  for_each (TexSet_Textures (SprSet_TexSet this)) (fun texture =>
    if (0 <? String.length (Tex_Name texture))%nat
    then ScheduleWriteStringOffset (Tex_Name texture)
    else WriteInt32 0).

(** Lines 299-300. *)
Definition write_SpriteNames (this : SprSet) : M W unit :=
  for_each (SprSet_Sprites this) (fun sprite =>
    ScheduleWriteStringOffset (Spr_Name sprite)).

(** Lines 305-309. *)
Definition write_ExtraData (this : SprSet) : M W unit :=
  for_each (SprSet_Sprites this) (fun sprite =>
    WriteUInt32 (SprExtra_Flags (Spr_Extra sprite)) ;;
    WriteUInt32 (SprExtra_ScreenMode (Spr_Extra sprite))).

(** What the writer does when it runs a scheduled body. *)
Definition run_body (b : Body) : M W unit :=
  match b with
  | Body_Tex texture => write_Tex texture
  | Body_MipMap arrayIndex mipIndex texture => write_MipMap arrayIndex mipIndex texture
  | Body_Sprites this => write_Sprites this
  | Body_TextureNames this => write_TextureNames this
  | Body_SpriteNames this => write_SpriteNames this
  | Body_ExtraData this => write_ExtraData this
  end.

(** ** [TexSet::Write] *)

Definition packedMask : Z := 0x01010100.

Definition TexSet_Write (fuel : nat) (this : TexSet) : M W StreamResult :=
  function (
    texSetOffset <- Writer_GetPosition ;;
    let textureCount := to_u32 (Z.of_nat (length (TexSet_Textures this))) in
    WriteUInt32 (TxpSig.value TxpSig.TexSet) ;;
    WriteUInt32 textureCount ;;
    WriteUInt32 (Z.lor textureCount packedMask) ;;
    for_each (TexSet_Textures this) (fun texture =>
      ScheduleWriteOffset (Body_Tex texture) texSetOffset) ;;
    FlushScheduledWrites run_body fuel ;;
    Pad 0x10 ;;
    ret Success).

(** ** [SprSet::Write] *)

Definition SprSet_Write (fuel : nat) (this : SprSet) : M W StreamResult :=
  function (
    WriteUInt32 (SprSet_Flags this) ;;
    texSetPtrAddress <- Writer_GetPosition ;;
    WriteUInt32 0x00000000 ;;
    WriteUInt32 (to_u32 (Z.of_nat (length (TexSet_Textures (SprSet_TexSet this))))) ;;
    WriteUInt32 (to_u32 (Z.of_nat (length (SprSet_Sprites this)))) ;;
    ScheduleWriteOffset (Body_Sprites this) 0 ;;
    ScheduleWriteOffset (Body_TextureNames this) 0 ;;
    ScheduleWriteOffset (Body_SpriteNames this) 0 ;;
    ScheduleWriteOffset (Body_ExtraData this) 0 ;;
    FlushScheduledWrites run_body fuel ;;
    Pad 0x10 ;;
    FlushScheduledStrings ;;
    Pad 0x10 ;;
    texSetPtr <- Writer_GetPosition ;;
    _ <- TexSet_Write fuel (SprSet_TexSet this) ;;
    Writer_Seek texSetPtrAddress ;;
    WriteInt32 (to_i32 (Z.of_nat texSetPtr)) ;;
    ret Success).

(** ** [IStreamWritable] *)

Class IStreamWritable (T : Type) : Type :=
  stream_Write : nat -> T -> M W StreamResult.

#[export] Instance TexSet_writable : IStreamWritable TexSet := TexSet_Write.
#[export] Instance SprSet_writable : IStreamWritable SprSet := SprSet_Write.

(** The buffer [Write] produces on a new writer, where it returns. *)
Definition encode {T} `{IStreamWritable T} (fuel : nat) (x : T) : option (list byte) :=
  match stream_Write fuel x new_Writer with
  | (Val _, w) => Some (wrData w)
  | _ => None
  end.

(** Fuel that drains every queue the two routines build: one unit for
    each texture and each of its mip maps, and four for the bodies of a
    sprite set. *)
Definition Tex_fuel (texture : Tex) : nat :=
  S (Z.to_nat (Tex_arraySize texture) * Z.to_nat (Tex_mipLevels texture)).
Definition TexSet_fuel (this : TexSet) : nat :=
  sum_list (Tex_fuel <$> TexSet_Textures this).
Definition SprSet_fuel (this : SprSet) : nat :=
  (4 + TexSet_fuel (SprSet_TexSet this))%nat.
End Write.

(** ** The routines return

    What the bodies need to run without undefined behaviour, what each
    costs the drain loop, and that the two [Write] routines return on
    every set whose mip maps hold the bytes they declare. *)

Section Returns.
Context `{TexSignature}.

(** The mip map a body writes exists and holds [DataSize] bytes. *)
Definition ok_MipMap (arrayIndex mipIndex : nat) (texture : Tex) : Prop :=
  match Tex_MipMapsArray texture !! arrayIndex ≫= (.!! mipIndex) with
  | Some mipMap => 0 <= MipMap_DataSize mipMap <= Z.of_nat (length (MipMap_Data mipMap))
  | None => False
  end.

#[export] Instance ok_MipMap_dec a m t : Decision (ok_MipMap a m t).
Proof. unfold ok_MipMap. destruct (_ ≫= _); apply _. Defined.

(** Every mip map the texture's body schedules can be written. *)
Definition writable_Tex (texture : Tex) : Prop :=
  Forall (fun arrayIndex =>
            Forall (fun mipIndex => ok_MipMap arrayIndex mipIndex texture)
                   (seq 0 (Z.to_nat (Tex_mipLevels texture))))
         (seq 0 (Z.to_nat (Tex_arraySize texture))).

#[export] Instance writable_Tex_dec t : Decision (writable_Tex t).
Proof. unfold writable_Tex. apply _. Defined.

Definition writable_TexSet (this : TexSet) : Prop :=
  Forall writable_Tex (TexSet_Textures this).

Definition body_ok (b : Body) : Prop :=
  match b with
  | Body_Tex texture => writable_Tex texture
  | Body_MipMap arrayIndex mipIndex texture => ok_MipMap arrayIndex mipIndex texture
  | _ => True
  end.

(** The bodies of a texture set schedule no string. *)
Definition tex_body (b : Body) : Prop :=
  match b with
  | Body_Tex _ | Body_MipMap _ _ _ => body_ok b
  | _ => False
  end.

Definition body_cost (b : Body) : nat :=
  match b with
  | Body_Tex texture => Tex_fuel texture
  | _ => 1
  end.
End Returns.

(** A sequence of steps that schedule nothing beyond what the last does. *)
Ltac schedules_step :=
  lazymatch goal with
  | |- schedules _ _ _ ?n (bind (Write _) _) =>
      apply (schedules_seq _ _ _ 0 n); [apply schedules_Write|]
  | |- schedules _ _ _ _ (bind Writer_GetPosition _) =>
      apply schedules_GetPosition; intros ?
  | |- schedules _ _ _ _ (Write _) => apply schedules_Write
  | |- schedules _ _ _ _ (Pad _) => apply schedules_Pad
  | |- schedules _ _ _ _ (ret tt) => apply schedules_ret
  end.

Section ReturnsLemmas.
Context `{TexSignature}.

Lemma write_MipMap_schedules ok quiet a m t :
  ok_MipMap a m t -> schedules body_cost ok quiet 0 (write_MipMap a m t).
Proof.
  unfold ok_MipMap, write_MipMap. destruct (_ ≫= _) as [mipMap|]; [|done].
  intros [H0 Hlen]. unfold WriteUInt32, WriteInt32, WriteUInt8.
  repeat schedules_step.
  apply Z.leb_le in H0, Hlen. rewrite H0, Hlen. simpl. apply schedules_Write.
Qed.

Lemma sum_list_const {A} (l : list A) (n : nat) :
  sum_list ((fun _ => n) <$> l) = (length l * n)%nat.
Proof. apply sum_list_fmap_const. Qed.

Lemma write_Tex_schedules ok quiet t :
  (forall a m, ok_MipMap a m t -> ok (Body_MipMap a m t)) ->
  writable_Tex t ->
  schedules body_cost ok quiet (Tex_fuel t - 1) (write_Tex t).
Proof.
  intros Hok Ht. unfold write_Tex, WriteUInt32, WriteUInt8. cbv zeta.
  apply schedules_GetPosition. intros texOffset. repeat schedules_step.
  eapply schedules_mono;
    [|apply (schedules_for_each _ _ _ (fun _ => Z.to_nat (Tex_mipLevels t)))].
  - rewrite sum_list_const, length_seq. unfold Tex_fuel. lia.
  - intros a Ha. unfold writable_Tex in Ht. rewrite Forall_forall in Ht.
    specialize (Ht a Ha).
    eapply schedules_mono; [|apply (schedules_for_each _ _ _ (fun _ => 1%nat))].
    + rewrite sum_list_const, length_seq. lia.
    + intros m Hm. rewrite Forall_forall in Ht.
      apply (schedules_ScheduleWriteOffset body_cost ok quiet
               (Body_MipMap a m t) texOffset). auto.
Qed.

Lemma schedules_for_each_0 ok quiet {A} (l : list A) (f : A -> M W unit) :
  (forall x, schedules body_cost ok quiet 0 (f x)) ->
  schedules body_cost ok quiet 0 (for_each l f).
Proof.
  intros Hf. eapply schedules_mono; [|apply (schedules_for_each _ _ _ (fun _ => 0%nat))].
  - by rewrite sum_list_const, Nat.mul_0_r.
  - intros x _. apply Hf.
Qed.

Lemma write_vec4_schedules ok quiet v : schedules body_cost ok quiet 0 (write_vec4 v).
Proof. unfold write_vec4, WriteFloat32. repeat schedules_step. Qed.

Lemma write_Sprites_schedules ok quiet this :
  schedules body_cost ok quiet 0 (write_Sprites this).
Proof.
  apply schedules_for_each_0. intros sprite. unfold WriteInt32. repeat schedules_step.
  apply (schedules_seq _ _ _ 0 0); apply write_vec4_schedules.
Qed.

Lemma write_ExtraData_schedules ok quiet this :
  schedules body_cost ok quiet 0 (write_ExtraData this).
Proof.
  apply schedules_for_each_0. intros sprite. unfold WriteUInt32. repeat schedules_step.
Qed.

Lemma write_TextureNames_schedules ok this :
  schedules body_cost ok False 0 (write_TextureNames this).
Proof.
  apply schedules_for_each_0. intros texture. case_match.
  - apply schedules_ScheduleWriteStringOffset. tauto.
  - apply schedules_Write.
Qed.

Lemma write_SpriteNames_schedules ok this :
  schedules body_cost ok False 0 (write_SpriteNames this).
Proof.
  apply schedules_for_each_0. intros sprite.
  apply schedules_ScheduleWriteStringOffset. tauto.
Qed.

(** Every body is run at its cost. *)
Lemma run_body_tex b :
  tex_body b ->
  (1 <= body_cost b)%nat /\ schedules body_cost tex_body True (body_cost b - 1) (run_body b).
Proof.
  destruct b; simpl; try done; intros Hb.
  - split; [unfold Tex_fuel; lia|]. by apply write_Tex_schedules.
  - split; [done|]. by apply write_MipMap_schedules.
Qed.

Lemma run_body_any b :
  body_ok b ->
  (1 <= body_cost b)%nat /\ schedules body_cost body_ok False (body_cost b - 1) (run_body b).
Proof.
  destruct b; simpl; intros Hb.
  - split; [unfold Tex_fuel; lia|]. by apply write_Tex_schedules.
  - split; [done|]. by apply write_MipMap_schedules.
  - split; [done|]. apply write_Sprites_schedules.
  - split; [done|]. apply write_TextureNames_schedules.
  - split; [done|]. apply write_SpriteNames_schedules.
  - split; [done|]. apply write_ExtraData_schedules.
Qed.

(** What [TexSet::Write] does before it drains the queue. *)
Definition TexSet_header (this : TexSet) (texSetOffset : nat) : M W unit :=
  WriteUInt32 (TxpSig.value TxpSig.TexSet) ;;
  WriteUInt32 (to_u32 (Z.of_nat (length (TexSet_Textures this)))) ;;
  WriteUInt32 (Z.lor (to_u32 (Z.of_nat (length (TexSet_Textures this)))) packedMask) ;;
  for_each (TexSet_Textures this) (fun texture =>
    ScheduleWriteOffset (Body_Tex texture) texSetOffset).

Lemma TexSet_Write_header fuel this w :
  TexSet_Write fuel this w =
  function (TexSet_header this (wrPos w) ;;
            FlushScheduledWrites run_body fuel ;; Pad 0x10 ;; ret Success) w.
Proof. reflexivity. Qed.

Lemma TexSet_header_schedules this off :
  writable_TexSet this ->
  schedules body_cost tex_body True (TexSet_fuel this) (TexSet_header this off).
Proof.
  intros Hthis. unfold TexSet_header, WriteUInt32. repeat schedules_step.
  apply (schedules_for_each _ _ _ Tex_fuel). intros t Ht.
  apply (schedules_ScheduleWriteOffset body_cost tex_body True (Body_Tex t) off).
  unfold writable_TexSet in Hthis. rewrite Forall_forall in Hthis. by apply Hthis.
Qed.

(** [TexSet::Write] on a writer with nothing scheduled. *)
Lemma TexSet_Write_run fuel this w :
  writable_TexSet this -> (TexSet_fuel this <= fuel)%nat ->
  steady w -> wrScheduled w = [] ->
  exists w', TexSet_Write fuel this w = (Val Success, w') /\ steady w' /\
             wrScheduled w' = [] /\ wrStrings w' = wrStrings w /\
             (wrPos w' mod 16 = 0)%nat /\
             (length (wrData w) <= length (wrData w'))%nat.
Proof.
  intros Hthis Hfuel Hw Hq. rewrite TexSet_Write_header.
  destruct (flush_after body_cost tex_body True run_body (TexSet_fuel this) fuel
              (TexSet_header this (wrPos w)) (Pad 0x10 ;; ret Success) w)
    as (w1 & Hr1 & Hw1 & Hq1 & Hl1 & Hs1);
    [apply run_body_tex|by apply TexSet_header_schedules|done..|].
  destruct (Pad_steady 16 w1) as (w2 & Hr2 & Hw2 & Hp2 & Hq2 & Hs2 & Hl2); [done..|].
  exists w2. split.
  - apply function_val. left. rewrite Hr1. by rewrite (bind_val _ _ _ _ _ Hr2).
  - rewrite Hq2, Hs2, Hs1 by done.
    split; [done|]. split; [done|]. split; [done|]. split; [done|]. lia.
Qed.

(** What [SprSet::Write] does between the pointer slot of the texture set
    and the drain of the queue, and after the drain. *)
Definition SprSet_header (this : SprSet) : M W unit :=
  WriteUInt32 (to_u32 (Z.of_nat (length (TexSet_Textures (SprSet_TexSet this))))) ;;
  WriteUInt32 (to_u32 (Z.of_nat (length (SprSet_Sprites this)))) ;;
  ScheduleWriteOffset (Body_Sprites this) 0 ;;
  ScheduleWriteOffset (Body_TextureNames this) 0 ;;
  ScheduleWriteOffset (Body_SpriteNames this) 0 ;;
  ScheduleWriteOffset (Body_ExtraData this) 0.

Definition SprSet_trailer (fuel : nat) (this : SprSet) (texSetPtrAddress : nat)
    : M W StreamResult :=
  Pad 0x10 ;;
  FlushScheduledStrings ;;
  Pad 0x10 ;;
  texSetPtr <- Writer_GetPosition ;;
  _ <- TexSet_Write fuel (SprSet_TexSet this) ;;
  Writer_Seek texSetPtrAddress ;;
  WriteInt32 (to_i32 (Z.of_nat texSetPtr)) ;;
  ret Success.

Lemma SprSet_Write_header fuel this w :
  SprSet_Write fuel this w =
  function (WriteUInt32 (SprSet_Flags this) ;;
            texSetPtrAddress <- Writer_GetPosition ;;
            WriteUInt32 0 ;;
            (SprSet_header this ;; FlushScheduledWrites run_body fuel ;;
             SprSet_trailer fuel this texSetPtrAddress)) w.
Proof.
  unfold SprSet_Write. apply function_ext.
  do 3 (apply bind_ext; intros ? ?). symmetry. unfold SprSet_header. bind_reassoc.
Qed.

Lemma SprSet_header_schedules this :
  schedules body_cost body_ok False 4 (SprSet_header this).
Proof.
  unfold SprSet_header, WriteUInt32. repeat schedules_step.
  apply (schedules_seq _ _ _ 1 3);
    [by apply (schedules_ScheduleWriteOffset body_cost body_ok False (Body_Sprites this))|].
  apply (schedules_seq _ _ _ 1 2);
    [by apply (schedules_ScheduleWriteOffset body_cost body_ok False (Body_TextureNames this))|].
  apply (schedules_seq _ _ _ 1 1);
    [by apply (schedules_ScheduleWriteOffset body_cost body_ok False (Body_SpriteNames this))|].
  by apply (schedules_ScheduleWriteOffset body_cost body_ok False (Body_ExtraData this)).
Qed.

Lemma SprSet_trailer_run fuel this slot w :
  writable_TexSet (SprSet_TexSet this) ->
  (TexSet_fuel (SprSet_TexSet this) <= fuel)%nat ->
  steady w -> wrScheduled w = [] -> (slot + 4 <= length (wrData w))%nat ->
  exists w' texSetPtr,
    SprSet_trailer fuel this slot w = (Val Success, w') /\
    wrScheduled w' = [] /\ wrStrings w' = [] /\ wrPos w' = (slot + 4)%nat /\
    (length (wrData w') mod 16 = 0)%nat /\
    (texSetPtr mod 16 = 0)%nat /\ (texSetPtr <= length (wrData w'))%nat /\
    peek slot 4 (wrData w') = u32 (Z.of_nat texSetPtr).
Proof.
  intros Hthis Hfuel Hw Hq Hslot. unfold SprSet_trailer.
  destruct (Pad_steady 16 w) as (w2 & Hr2 & Hw2 & _ & Hq2 & _ & Hl2); [done..|].
  destruct (FlushScheduledStrings_drains w2 Hw2) as (w3 & Hr3 & Hw3 & Hq3 & Hs3 & Hl3).
  destruct (Pad_steady 16 w3) as (w4 & Hr4 & Hw4 & Hp4 & Hq4 & Hs4 & Hl4); [done..|].
  destruct (TexSet_Write_run fuel (SprSet_TexSet this) w4)
    as (w5 & Hr5 & Hw5 & Hq5 & Hs5 & Hp5 & Hl5); [done|done|done|congruence|].
  rewrite (bind_val _ _ _ _ _ Hr2), (bind_val _ _ _ _ _ Hr3), (bind_val _ _ _ _ _ Hr4).
  unfold bind at 1, Writer_GetPosition at 1. rewrite (bind_val _ _ _ _ _ Hr5).
  destruct Hw4 as [Hend4 _], Hw5 as [Hend5 _]. unfold at_end in *.
  eexists _, (wrPos w4). split; [reflexivity|]. simpl.
  rewrite length_poke, length_u32, u32_to_i32.
  split; [done|]. split; [congruence|]. split; [done|].
  split; [by rewrite Nat.max_l, <- Hend5 by lia|]. split; [done|]. split; [lia|].
  apply (peek_poke_same slot (u32 (Z.of_nat (wrPos w4)))).
Qed.

(** [SprSet::Write] on a writer with nothing scheduled. *)
Lemma SprSet_Write_run fuel this w :
  writable_TexSet (SprSet_TexSet this) -> (SprSet_fuel this <= fuel)%nat ->
  steady w -> wrScheduled w = [] ->
  exists w' texSetPtr,
    SprSet_Write fuel this w = (Val Success, w') /\
    wrScheduled w' = [] /\ wrStrings w' = [] /\ wrPos w' = (wrPos w + 4 + 4)%nat /\
    (length (wrData w') mod 16 = 0)%nat /\
    (texSetPtr mod 16 = 0)%nat /\ (texSetPtr <= length (wrData w'))%nat /\
    peek (wrPos w + 4) 4 (wrData w') = u32 (Z.of_nat texSetPtr).
Proof.
  intros Hthis Hfuel Hw Hq. rewrite SprSet_Write_header. unfold SprSet_fuel in Hfuel.
  destruct (Write_steady (u32 (SprSet_Flags this)) w Hw) as (wa & Hra & Hwa & Hqa & _ & Hda).
  destruct (Write_steady (u32 0) wa Hwa) as (wb & Hrb & Hwb & Hqb & _ & Hdb).
  assert (wrPos wa = wrPos w + 4)%nat as Hpos.
  { destruct Hw as [-> _], Hwa as [-> _]. by rewrite Hda, length_app, length_u32. }
  destruct (flush_after body_cost body_ok False run_body 4 fuel (SprSet_header this)
              (SprSet_trailer fuel this (wrPos w + 4)) wb)
    as (w1 & Hr1 & Hw1 & Hq1 & Hl1 & _);
    [apply run_body_any|apply SprSet_header_schedules|lia|done|congruence|].
  destruct (SprSet_trailer_run fuel this (wrPos w + 4) w1) as (w' & p & Hr & Hres);
    [done|lia|done|done| |].
  { rewrite Hdb, Hda, !length_app, !length_u32 in Hl1. destruct Hw as [Hend _].
    unfold at_end in Hend. lia. }
  exists w', p. split; [|done]. apply function_val. left. unfold WriteUInt32 at 1 2.
  rewrite (bind_val _ _ _ _ _ Hra). unfold bind at 1, Writer_GetPosition at 1.
  by rewrite (bind_val _ _ _ _ _ Hrb), Hpos, Hr1.
Qed.
End ReturnsLemmas.

#[export] Instance writable_TexSet_dec `{TexSignature} this : Decision (writable_TexSet this).
Proof. unfold writable_TexSet. apply _. Defined.

(** ** The theorems *)

Section ReturnsTheorems.
Context `{TexSignature}.

(** C23: [TexSet::Write] returns.  On a writer whose cursor is at the end
    of the buffer and that has nothing scheduled, for a set each of whose
    mip maps holds the [DataSize] bytes it declares, and with fuel for one
    body per texture and per mip map, the routine returns [Success], has
    run every body it scheduled, schedules no string, and leaves the
    cursor at the end of the buffer on a multiple of 16. *)
Theorem TexSet_Write_returns fuel this w :
  writable_TexSet this -> (TexSet_fuel this <= fuel)%nat ->
  steady w -> wrScheduled w = [] ->
  exists w', TexSet_Write fuel this w = (Val Success, w') /\
             wrScheduled w' = [] /\ wrStrings w' = wrStrings w /\
             at_end w' /\ (wrPos w' mod 16 = 0)%nat.
Proof.
  intros Hthis Hfuel Hw Hq.
  destruct (TexSet_Write_run fuel this w Hthis Hfuel Hw Hq)
    as (w' & Hr & [Hend _] & Hq' & Hs' & Hp & _).
  exists w'. auto.
Qed.

(** C21: [SprSet::Write] returns.  On a new writer, for a sprite set whose
    mip maps hold the bytes they declare, and with fuel for its four
    bodies and those of its texture set, the routine returns [Success]
    and leaves no write and no string scheduled: every pointer slot it
    reserved has been patched. *)
Theorem SprSet_Write_returns fuel this :
  writable_TexSet (SprSet_TexSet this) -> (SprSet_fuel this <= fuel)%nat ->
  exists w', SprSet_Write fuel this new_Writer = (Val Success, w') /\
             wrScheduled w' = [] /\ wrStrings w' = [].
Proof.
  intros Hthis Hfuel.
  destruct (SprSet_Write_run fuel this new_Writer Hthis Hfuel)
    as (w' & p & Hr & Hq & Hs & _); [by repeat split|done|].
  exists w'. auto.
Qed.

(** C22: the layout [SprSet::Write] produces.  The file is a whole number
    of 16-byte blocks, and the pointer to the texture set, stored in bytes
    4 to 7, is a multiple of 16 that lies in the file. *)
Theorem SprSet_Write_aligned fuel this d :
  writable_TexSet (SprSet_TexSet this) -> (SprSet_fuel this <= fuel)%nat ->
  encode fuel this = Some d ->
  (length d mod 16 = 0)%nat /\
  exists texSetPtr, peek 4 4 d = u32 (Z.of_nat texSetPtr) /\
                    (texSetPtr mod 16 = 0)%nat /\ (texSetPtr <= length d)%nat.
Proof.
  intros Hthis Hfuel. unfold encode, stream_Write, SprSet_writable.
  destruct (SprSet_Write_run fuel this new_Writer Hthis Hfuel)
    as (w' & p & -> & _ & _ & _ & Hlen & Hp & Hin & Hptr); [by repeat split|done|].
  intros [= <-]. split; [exact Hlen|]. exists p. auto.
Qed.
End ReturnsTheorems.

(** A set of one texture of two mip levels and one sprite. *)
Module WriteExample.
#[local] Existing Instance signature_by_array_size.

Definition level (size : Z) (data : list byte) : MipMap :=
  {| MipMap_Size := mkivec2 size size; MipMap_Format := 6;
     MipMap_DataSize := Z.of_nat (length data); MipMap_Data := data |}.

Definition textures : TexSet :=
  mkTexSet [mkTex "T" [[level 2 (replicate 4 Byte.x07); level 1 [Byte.x07]]]].

Definition set : SprSet :=
  {| SprSet_Flags := 0; SprSet_TexSet := textures;
     SprSet_Sprites :=
       [{| Spr_TextureIndex := 0; Spr_Rotate := 0;
           Spr_TexelRegion := mkvec4 0 0 0x3f800000 0x3f800000;
           Spr_PixelRegion := mkvec4 0 0 0x40000000 0x40000000;
           Spr_Name := "S"; Spr_Extra := mkSprExtra 0 0 |}] |}.

Definition file : list byte :=
  Eval vm_compute in default [] (encode (SprSet_fuel set) set).

Lemma textures_writable : writable_TexSet textures.
Proof. apply (bool_decide_unpack _). by vm_compute. Qed.

Lemma TexSet_Write_returns_witness :
  exists w', TexSet_Write 3 textures new_Writer = (Val Success, w') /\
             wrScheduled w' = [] /\ wrStrings w' = wrStrings (new_Writer (B:=Body)) /\
             at_end w' /\ (wrPos w' mod 16 = 0)%nat.
Proof.
  apply TexSet_Write_returns;
    [apply textures_writable|vm_compute; lia|by repeat split|done].
Defined.

Lemma SprSet_Write_returns_witness :
  exists w', SprSet_Write 7 set new_Writer = (Val Success, w') /\
             wrScheduled w' = [] /\ wrStrings w' = [].
Proof.
  apply SprSet_Write_returns; [apply textures_writable|vm_compute; lia].
Defined.

Lemma SprSet_Write_aligned_witness :
  (length file mod 16 = 0)%nat /\
  exists texSetPtr, peek 4 4 file = u32 (Z.of_nat texSetPtr) /\
                    (texSetPtr mod 16 = 0)%nat /\ (texSetPtr <= length file)%nat.
Proof.
  apply (SprSet_Write_aligned 7 set file);
    [apply textures_writable|vm_compute; lia|by vm_compute].
Defined.
End WriteExample.
