(* ===== verification/Codec.v ===== *)
(** * Codec: writing and reading back

    [SprSet::Write] followed by [SprSet::Read], and [TexSet::Write]
    followed by [TexSet::Read], on the sets the specification of the
    format singles out: a cube map of six faces with three mip levels
    each, and a sprite set without textures. *)

From Stdlib Require Import ZArith Lia List Strings.String.
From stdpp Require Import base tactics option list numbers strings.
From coqutil Require Import Byte Word.LittleEndianList.
From S2P Require Import Prelude Common Bytes Reader Writer Format Read Write.

#[local] Existing Instance signature_by_array_size.

(** ** The examples *)








(** ** Round trips *)

(** [x] is written, and what was written is read back as [x], with
    [Success]. *)
Definition round_trip {T} `{IStreamReadable T, IStreamWritable T}
    (fuel : nat) (x : T) : Prop :=
  match encode fuel x with
  | Some file => decode file = (Val Success, x)
  | None => False
  end.

#[export] Instance round_trip_dec {T} `{IStreamReadable T, IStreamWritable T}
  `{EqDecision T} fuel (x : T) : Decision (round_trip fuel x).
Proof. unfold round_trip. destruct (encode fuel x); apply _. Defined.





