(* ===== verification/Database.v ===== *)
(** * Database: sprite manifests and the sprite database

    The records of [sprite.h] ([namespace Sprite]: what a mod's manifest
    lists) and those of the sprite database the compiler fills in
    ([namespace Database], declared in a header that is not part of the
    repository; fields are those [sprite.cpp] uses). *)

From Stdlib Require Import ZArith Lia List Strings.String.
From stdpp Require Import base tactics option list numbers strings.
From S2P Require Import Prelude Common Bytes.

(** ** sprite.h *)

Module Sprite.
Record SpriteInfo : Set := mkSpriteInfo {
  SpriteInfo_Name : string;
  SpriteInfo_File : string;
  SpriteInfo_InternalId : Z       (* int32_t InternalId = -1 *)
}.

Record SpriteSetInfo : Set := mkSpriteSetInfo {
  SpriteSetInfo_Name : string;
  SpriteSetInfo_Sprites : list SpriteInfo
}.

(** [using SpriteSetList = std::vector<Sprite::SpriteSetInfo>] *)
Definition SpriteSetList : Set := list SpriteSetInfo.

#[export] Instance SpriteInfo_eq_dec : EqDecision SpriteInfo.
Proof. solve_decision. Defined.
#[export] Instance SpriteSetInfo_eq_dec : EqDecision SpriteSetInfo.
Proof. solve_decision. Defined.
End Sprite.

(** ** The sprite database *)

Module Database.
Record SpriteDataInfo : Set := mkSpriteDataInfo {
  SpriteDataInfo_Name : string;
  SpriteDataInfo_DataIndex : Z;   (* int32_t *)
  SpriteDataInfo_Id : Z           (* uint32_t *)
}.

Record SpriteSetInfo : Set := mkSpriteSetInfo {
  SpriteSetInfo_Name : string;
  SpriteSetInfo_Filename : string;
  SpriteSetInfo_Id : Z;           (* uint32_t *)
  SpriteSetInfo_Sprites : list SpriteDataInfo;
  SpriteSetInfo_Textures : list SpriteDataInfo
}.

Record SpriteDatabase : Set := mkSpriteDatabase {
  SpriteSets : list SpriteSetInfo
}.

#[export] Instance SpriteDataInfo_eq_dec : EqDecision SpriteDataInfo.
Proof. solve_decision. Defined.
#[export] Instance SpriteSetInfo_eq_dec : EqDecision SpriteSetInfo.
Proof. solve_decision. Defined.
#[export] Instance SpriteDatabase_eq_dec : EqDecision SpriteDatabase.
Proof. solve_decision. Defined.

Definition new_SpriteSetInfo : SpriteSetInfo :=
  {| SpriteSetInfo_Name := ""; SpriteSetInfo_Filename := ""; SpriteSetInfo_Id := 0;
     SpriteSetInfo_Sprites := []; SpriteSetInfo_Textures := [] |}.

Definition set_Id (id : Z) (s : SpriteSetInfo) : SpriteSetInfo :=
  {| SpriteSetInfo_Name := SpriteSetInfo_Name s;
     SpriteSetInfo_Filename := SpriteSetInfo_Filename s; SpriteSetInfo_Id := id;
     SpriteSetInfo_Sprites := SpriteSetInfo_Sprites s;
     SpriteSetInfo_Textures := SpriteSetInfo_Textures s |}.

(** [setInfo.Sprites.emplace_back()], filled with [e]. *)
Definition emplace_Sprite (e : SpriteDataInfo) (s : SpriteSetInfo) : SpriteSetInfo :=
  {| SpriteSetInfo_Name := SpriteSetInfo_Name s;
     SpriteSetInfo_Filename := SpriteSetInfo_Filename s;
     SpriteSetInfo_Id := SpriteSetInfo_Id s;
     SpriteSetInfo_Sprites := SpriteSetInfo_Sprites s ++ [e];
     SpriteSetInfo_Textures := SpriteSetInfo_Textures s |}.

(** [setInfo.Textures.emplace_back()], filled with [e]. *)
Definition emplace_Texture (e : SpriteDataInfo) (s : SpriteSetInfo) : SpriteSetInfo :=
  {| SpriteSetInfo_Name := SpriteSetInfo_Name s;
     SpriteSetInfo_Filename := SpriteSetInfo_Filename s;
     SpriteSetInfo_Id := SpriteSetInfo_Id s;
     SpriteSetInfo_Sprites := SpriteSetInfo_Sprites s;
     SpriteSetInfo_Textures := SpriteSetInfo_Textures s ++ [e] |}.

(** [SpriteDatabase::FindSpriteSetByName]: the first set of that name, or
    a null pointer. *)
Definition FindSpriteSetByName (name : string) (db : SpriteDatabase)
    : option SpriteSetInfo :=
  find (fun s => bool_decide (SpriteSetInfo_Name s = name)) (SpriteSets db).

(** The identifiers of the entries of a set, and of a database. *)
Definition entry_ids (s : SpriteSetInfo) : list Z :=
  (SpriteDataInfo_Id <$> SpriteSetInfo_Sprites s)
  ++ (SpriteDataInfo_Id <$> SpriteSetInfo_Textures s).
Definition database_entry_ids (db : SpriteDatabase) : list Z :=
  concat (entry_ids <$> SpriteSets db).
End Database.

Lemma entry_ids_emplace_Sprite e s :
  Database.entry_ids (Database.emplace_Sprite e s) ≡ₚ
    Database.entry_ids s ++ [Database.SpriteDataInfo_Id e].
Proof.
  unfold Database.entry_ids. simpl. rewrite fmap_app, <- !app_assoc.
  apply Permutation_app_head, Permutation_app_comm.
Qed.

Lemma entry_ids_emplace_Texture e s :
  Database.entry_ids (Database.emplace_Texture e s) =
    Database.entry_ids s ++ [Database.SpriteDataInfo_Id e].
Proof. unfold Database.entry_ids. simpl. by rewrite fmap_app, app_assoc. Qed.

Lemma database_entry_ids_snoc db e :
  Database.database_entry_ids (Database.mkSpriteDatabase (Database.SpriteSets db ++ [e])) =
    Database.database_entry_ids db ++ Database.entry_ids e.
Proof.
  unfold Database.database_entry_ids. simpl.
  rewrite fmap_app, concat_app. simpl. by rewrite app_nil_r.
Qed.

(** ** The identifier counter *)

(** [uint32_t CurrentSpriteId = 85000;], sprite.cpp line 14. *)
Definition CurrentSpriteId_initial : Z := 85000.

(** [CurrentSpriteId++]: the counter is the first component of the state. *)
Definition next_id {O} : M (Z * O) Z :=
  fun s => (Val s.1, (to_u32 (s.1 + 1), s.2)).

(** ** The ledger of issued identifiers

    [issued c0 lo n ids]: the identifiers [ids] are, in some order, the
    values the counter had at pairwise distinct allocations numbered from
    [lo] up to, and not including, [n], counted from the start [c0] of the
    run.  The predicate is what every routine that issues identifiers
    preserves; it gives uniqueness as long as the counter has not wrapped
    around. *)
Definition nth_id (c0 : Z) (j : nat) : Z := to_u32 (c0 + Z.of_nat j).

Definition issued (c0 : Z) (lo n : nat) (ids : list Z) : Prop :=
  exists js, ids ≡ₚ nth_id c0 <$> js /\ NoDup js /\ Forall (fun j => lo <= j < n)%nat js.

Lemma nth_id_range c0 j : is_u32 (nth_id c0 j).
Proof. apply to_u32_range. Qed.

Lemma nth_id_add c0 n j : to_u32 (nth_id c0 n + Z.of_nat j) = nth_id c0 (n + j).
Proof. unfold nth_id. rewrite to_u32_add_l. f_equal. lia. Qed.

Lemma nth_id_succ c0 n : to_u32 (nth_id c0 n + 1) = nth_id c0 (S n).
Proof. unfold nth_id. rewrite to_u32_add_l. f_equal. lia. Qed.

(** The identifiers issued from [nth_id c0 n] on are those numbered from
    [n] on. *)
Lemma nth_id_seq c0 n m :
  (fun j => to_u32 (nth_id c0 n + Z.of_nat j)) <$> seq 0 m = nth_id c0 <$> seq n m.
Proof.
  replace (seq n m) with (Nat.add n <$> seq 0 m) by (by rewrite fmap_add_seq, Nat.add_0_r).
  rewrite <- list_fmap_compose.
  apply list_fmap_ext. intros _ j _. simpl. by rewrite nth_id_add.
Qed.

#[export] Instance issued_proper c0 lo n : Proper ((≡ₚ) ==> iff) (issued c0 lo n).
Proof.
  intros ids ids' Hp. unfold issued.
  split; intros (js & Hjs & ?); exists js; (split; [|done]); by rewrite <- Hjs, Hp.
Qed.

Lemma issued_nil c0 lo n : issued c0 lo n [].
Proof. exists []. split; [done|]. split; [constructor|constructor]. Qed.

Lemma issued_weaken c0 lo n lo' n' ids :
  (lo' <= lo)%nat -> (n <= n')%nat -> issued c0 lo n ids -> issued c0 lo' n' ids.
Proof.
  intros ? ? (js & ? & ? & Hjs). exists js. repeat split; [done..|].
  eapply Forall_impl; [done|]. simpl. lia.
Qed.

(** Identifiers issued over two consecutive ranges of allocations. *)
Lemma issued_app c0 lo n m ids ids' :
  (lo <= n <= m)%nat ->
  issued c0 lo n ids -> issued c0 n m ids' -> issued c0 lo m (ids ++ ids').
Proof.
  intros Hle (js & Hjs & Hnd & Hr) (js' & Hjs' & Hnd' & Hr').
  exists (js ++ js'). rewrite fmap_app. split; [by apply Permutation_app|].
  rewrite Forall_forall in Hr, Hr'. split.
  - apply NoDup_app. repeat split; [done| |done].
    intros j Hj Hj'. specialize (Hr j Hj). specialize (Hr' j Hj'). lia.
  - apply Forall_app. split; apply Forall_forall; intros j Hj.
    + specialize (Hr j Hj). lia.
    + specialize (Hr' j Hj). lia.
Qed.

(** The identifiers of [m] consecutive allocations. *)
Lemma issued_seq c0 n m : issued c0 n (n + m) (nth_id c0 <$> seq n m).
Proof.
  exists (seq n m). split; [done|]. split; [apply NoDup_seq|].
  apply Forall_forall. intros j Hj%elem_of_seq. lia.
Qed.

(** One more identifier. *)
Lemma issued_snoc c0 lo n ids :
  (lo <= n)%nat -> issued c0 lo n ids -> issued c0 lo (S n) (ids ++ [nth_id c0 n]).
Proof.
  intros Hlo Hids. eapply issued_app; [|done|]; [lia|].
  replace (S n) with (n + 1)%nat by lia. apply (issued_seq c0 n 1).
Qed.

(** Before the counter wraps around, issued identifiers are pairwise
    distinct and lie between the start of the run and the counter. *)
Lemma issued_NoDup c0 lo n ids :
  0 <= c0 -> c0 + Z.of_nat n <= 4294967296 ->
  issued c0 lo n ids ->
  NoDup ids /\ Forall (fun id => c0 + Z.of_nat lo <= id < c0 + Z.of_nat n) ids.
Proof.
  intros H0 Hn (js & Hjs & Hnd & Hr). rewrite Hjs. clear Hjs. split.
  - apply NoDup_fmap_2_strong; [|done].
    intros j j' Hj Hj' Heq. rewrite Forall_forall in Hr.
    pose proof (Hr j Hj). pose proof (Hr j' Hj').
    unfold nth_id in Heq. rewrite !to_u32_id in Heq by (unfold is_u32; lia). lia.
  - apply Forall_fmap. eapply Forall_impl; [done|]. simpl. intros j Hj.
    unfold nth_id. rewrite to_u32_id by (unfold is_u32; lia). lia.
Qed.
