(* ===== verification/Merge.v ===== *)
(** * Merge: the cross-source merge engine

    [GetSpriteIndex], [GetTextureNameWithNewIndex] and
    [MergeBaseSpriteData] of [sprite.cpp].  The file system and the parser
    of the base database are the environment ([Environment]); the global
    counter [CurrentSpriteId] is the first component of the state, the
    objects passed by reference the second.  A null pointer dereference,
    an index outside a vector, a signed overflow and a string that does
    not fit its buffer are undefined behaviour ([Undef]). *)

From Stdlib Require Import ZArith Lia List Strings.String Strings.Ascii.
From stdpp Require Import base tactics option list numbers strings pretty.
From S2P Require Import Prelude Common Bytes AsciiStr Reader Writer Format Read Write Database.

(** ** What the engine calls *)

Class Environment : Type := {
  (** [IO::File::Exists] *)
  Exists : string -> bool;
  (** The content of a file. *)
  Content : string -> list byte;
  (** [Database::SpriteDatabase::Parse], on the content of a file. *)
  Parse : list byte -> Database.SpriteDatabase
}.

(** [Util::String::ToLower] *)
Definition ToLower (s : string) : string := ToLowerCopy s.

(** [Util::String::GetLastIndex(s, c)]: the index of the last [c] in [s],
    -1 if there is none. *)
Fixpoint GetLastIndex (s : string) (c : ascii) : Z :=
  match s with
  | EmptyString => -1
  | String c' s' =>
      let i := GetLastIndex s' c in
      if i >=? 0 then i + 1 else if bool_decide (c' = c) then 0 else -1
  end.

(** [strncmp(a, b, n) == 0], on the null-terminated strings [a.c_str()]
    and [b.c_str()]. *)
Fixpoint strncmp_eq (a b : string) (n : nat) : bool :=
  match n with
  | O => true
  | S n' =>
      match a, b with
      | EmptyString, EmptyString => true
      | EmptyString, String cb _ => bool_decide (cb = zero)
      | String ca _, EmptyString => bool_decide (ca = zero)
      | String ca a', String cb b' =>
          if bool_decide (ca = cb)
          then if bool_decide (ca = zero) then true else strncmp_eq a' b' n'
          else false
      end
  end.

(** [s.c_str()] as [printf]'s [%s] reads it: up to the first null. *)
Fixpoint c_str (s : string) : string :=
  match s with
  | EmptyString => EmptyString
  | String c s' => if bool_decide (c = zero) then EmptyString else String c (c_str s')
  end.

(** [printf]'s [%03zu]. *)
Definition fmt_03zu (n : nat) : string :=
  let digits := pretty n in
  string_of_list_ascii (replicate (3 - String.length digits) "0"%char) +:+ digits.

(** ** [GetSpriteIndex], lines 93-104 *)

Fixpoint GetSpriteIndex_from (idx : Z) (sprites : list Spr) (name : string) : Z :=
  match sprites with
  | [] => -1
  | spr :: rest =>
      if strncmp_eq name (Spr_Name spr) (String.length name) then idx
      else GetSpriteIndex_from (idx + 1) rest name
  end.

Definition GetSpriteIndex (sprSet : SprSet) (name : string) : Z :=
  GetSpriteIndex_from 0 (SprSet_Sprites sprSet) name.

(** ** [GetTextureNameWithNewIndex], lines 106-113

    [None] where the program does not return: no underscore in the name
    (a string of length [(size_t)-1] is asked for) or a result that does
    not fit the buffer of 256 characters. *)
Definition GetTextureNameWithNewIndex (orgName : string) (newIndex : nat)
    : option string :=
  let lastUndIndex := GetLastIndex orgName "_" in
  if lastUndIndex <? 0 then None
  else
    let strippedName := substr 0 (Z.to_nat lastUndIndex) orgName in
    let newBuffer := c_str strippedName +:+ "_" +:+ fmt_03zu newIndex in
    if (String.length newBuffer <? 0x100)%nat then Some newBuffer else None.

(** ** [MergeBaseSpriteData], lines 115-175 *)

Section Merge.
Context `{Environment}.

(** Line 12. *)
Definition BaseDataPath : string := ".".

(** The objects [MergeBaseSpriteData] is given by reference. *)
Definition MergeObj : Set := (SprSet * Database.SpriteSetInfo)%type.

Definition push_texture (t : Tex) (o : MergeObj) : MergeObj :=
  (set_SprSet_TexSet (emplace_texture t (SprSet_TexSet o.1)) o.1, o.2).
Definition push_sprite (s : Spr) (o : MergeObj) : MergeObj :=
  (emplace_sprite s o.1, o.2).
Definition push_texInfo (e : Database.SpriteDataInfo) (o : MergeObj) : MergeObj :=
  (o.1, Database.emplace_Texture e o.2).
Definition push_sprInfo (e : Database.SpriteDataInfo) (o : MergeObj) : MergeObj :=
  (o.1, Database.emplace_Sprite e o.2).

(** The body of the first loop, lines 136-150. *)
Definition Merge_texture (baseSetInfo : Database.SpriteSetInfo) (texNum idx : nat)
    (tex : Tex) : M (Z * MergeObj) unit :=
  name <- defined (GetTextureNameWithNewIndex (Tex_Name tex) (texNum + idx)) ;;
  modify_obj (push_texture (mkTex name (Tex_MipMapsArray tex))) ;;
  baseTexInfo <- defined (Database.SpriteSetInfo_Textures baseSetInfo !! idx) ;;
  infoName <- defined (GetTextureNameWithNewIndex
                         (Database.SpriteDataInfo_Name baseTexInfo) (texNum + idx)) ;;
  id <- next_id ;;
  modify_obj (push_texInfo
    {| Database.SpriteDataInfo_Name := infoName;
       Database.SpriteDataInfo_DataIndex := to_i32 (Z.of_nat (texNum + idx));
       Database.SpriteDataInfo_Id := id |}).

(** The body of the second loop, lines 158-171. *)
Definition Merge_sprite (baseSetInfo : Database.SpriteSetInfo) (texNum sprNum idx : nat)
    (spr : Spr) : M (Z * MergeObj) unit :=
  let textureIndex := Spr_TextureIndex spr + to_i32 (Z.of_nat texNum) in
  (if decide (is_i32 textureIndex) then ret tt else undefined) ;;
  modify_obj (push_sprite (set_Spr_TextureIndex textureIndex spr)) ;;
  baseSprInfo <- defined (Database.SpriteSetInfo_Sprites baseSetInfo !! idx) ;;
  id <- next_id ;;
  modify_obj (push_sprInfo
    {| Database.SpriteDataInfo_Name := Database.SpriteDataInfo_Name baseSprInfo;
       Database.SpriteDataInfo_DataIndex := to_i32 (Z.of_nat (sprNum + idx));
       Database.SpriteDataInfo_Id := id |}).

(** Lines 117 and 118. *)
Definition baseSprSetPath (setName : string) : string :=
  BaseDataPath +:+ "/base_" +:+ ToLower setName +:+ ".bin".
Definition baseSprDbPath : string := BaseDataPath +:+ "/base_spr_db.bin".

Definition MergeBaseSpriteData : M (Z * MergeObj) bool :=
  o <- get_obj ;;
  let setName := Database.SpriteSetInfo_Name o.2 in
  if negb (Exists (baseSprSetPath setName)) || negb (Exists baseSprDbPath) then ret false
  else
    baseSprSet <- defined (LoadFile (T:=SprSet) (Content (baseSprSetPath setName))) ;;
    let baseSprDb := Parse (Content baseSprDbPath) in
    baseSetInfo <- defined (Database.FindSpriteSetByName setName baseSprDb) ;;
    modify_obj (fun o => (o.1, Database.set_Id (Database.SpriteSetInfo_Id baseSetInfo) o.2)) ;;
    o <- get_obj ;;
    let texNum := length (TexSet_Textures (SprSet_TexSet o.1)) in
    for_each_from 0 (TexSet_Textures (SprSet_TexSet baseSprSet))
      (Merge_texture baseSetInfo texNum) ;;
    o <- get_obj ;;
    let sprNum := length (SprSet_Sprites o.1) in
    for_each_from 0 (SprSet_Sprites baseSprSet)
      (Merge_sprite baseSetInfo texNum sprNum) ;;
    ret true.

(** The two files of base data are there. *)
Definition base_present (setName : string) : bool :=
  Exists (baseSprSetPath setName) && Exists baseSprDbPath.

(** What the two files hold for the set: the decoded base set and its
    entry of the base database. *)
Definition base_data (setName : string) : option (SprSet * Database.SpriteSetInfo) :=
  baseSprSet ← LoadFile (T:=SprSet) (Content (baseSprSetPath setName));
  baseSetInfo ← Database.FindSpriteSetByName setName (Parse (Content baseSprDbPath));
  Some (baseSprSet, baseSetInfo).
End Merge.

(** ** The merge as a function

    What [MergeBaseSpriteData] computes from the packed set, the database
    entry, the base set and the base entry, when identifiers are issued
    from [c]: the specification the loops are proved against below. *)

(** A base sprite as it is merged: its texture index moves up by the
    number of packed textures. *)
Definition shift_texture_index (texNum : nat) (spr : Spr) : Spr :=
  set_Spr_TextureIndex (Spr_TextureIndex spr + to_i32 (Z.of_nat texNum)) spr.

Definition merged_texture (baseSetInfo : Database.SpriteSetInfo) (texNum : nat) (c : Z)
    (idx : nat) (tex : Tex) : option (Tex * Database.SpriteDataInfo) :=
  name ← GetTextureNameWithNewIndex (Tex_Name tex) (texNum + idx);
  baseTexInfo ← Database.SpriteSetInfo_Textures baseSetInfo !! idx;
  infoName ← GetTextureNameWithNewIndex
               (Database.SpriteDataInfo_Name baseTexInfo) (texNum + idx);
  Some (mkTex name (Tex_MipMapsArray tex),
        {| Database.SpriteDataInfo_Name := infoName;
           Database.SpriteDataInfo_DataIndex := to_i32 (Z.of_nat (texNum + idx));
           Database.SpriteDataInfo_Id := to_u32 (c + Z.of_nat idx) |}).

Definition merged_sprite (baseSetInfo : Database.SpriteSetInfo) (texNum sprNum : nat)
    (c : Z) (idx : nat) (spr : Spr) : option (Spr * Database.SpriteDataInfo) :=
  if decide (is_i32 (Spr_TextureIndex spr + to_i32 (Z.of_nat texNum))) then
    baseSprInfo ← Database.SpriteSetInfo_Sprites baseSetInfo !! idx;
    Some (shift_texture_index texNum spr,
          {| Database.SpriteDataInfo_Name := Database.SpriteDataInfo_Name baseSprInfo;
             Database.SpriteDataInfo_DataIndex := to_i32 (Z.of_nat (sprNum + idx));
             Database.SpriteDataInfo_Id := to_u32 (c + Z.of_nat idx) |})
  else None.

Definition append_textures (l : list (Tex * Database.SpriteDataInfo)) (o : MergeObj)
    : MergeObj :=
  (set_SprSet_TexSet (mkTexSet (TexSet_Textures (SprSet_TexSet o.1) ++ l.*1)) o.1,
   {| Database.SpriteSetInfo_Name := Database.SpriteSetInfo_Name o.2;
      Database.SpriteSetInfo_Filename := Database.SpriteSetInfo_Filename o.2;
      Database.SpriteSetInfo_Id := Database.SpriteSetInfo_Id o.2;
      Database.SpriteSetInfo_Sprites := Database.SpriteSetInfo_Sprites o.2;
      Database.SpriteSetInfo_Textures := Database.SpriteSetInfo_Textures o.2 ++ l.*2 |}).

Definition append_sprites (l : list (Spr * Database.SpriteDataInfo)) (o : MergeObj)
    : MergeObj :=
  (set_SprSet_Sprites (SprSet_Sprites o.1 ++ l.*1) o.1,
   {| Database.SpriteSetInfo_Name := Database.SpriteSetInfo_Name o.2;
      Database.SpriteSetInfo_Filename := Database.SpriteSetInfo_Filename o.2;
      Database.SpriteSetInfo_Id := Database.SpriteSetInfo_Id o.2;
      Database.SpriteSetInfo_Sprites := Database.SpriteSetInfo_Sprites o.2 ++ l.*2;
      Database.SpriteSetInfo_Textures := Database.SpriteSetInfo_Textures o.2 |}).

Definition merge_spec (c : Z) (o : MergeObj) (baseSprSet : SprSet)
    (baseSetInfo : Database.SpriteSetInfo) : option (Z * MergeObj) :=
  let texNum := length (TexSet_Textures (SprSet_TexSet o.1)) in
  let sprNum := length (SprSet_Sprites o.1) in
  let baseTextures := TexSet_Textures (SprSet_TexSet baseSprSet) in
  let baseSprites := SprSet_Sprites baseSprSet in
  texs ← mapM_from 0 (merged_texture baseSetInfo texNum c) baseTextures;
  sprs ← mapM_from 0 (merged_sprite baseSetInfo texNum sprNum
                        (c + Z.of_nat (length baseTextures))) baseSprites;
  Some (to_u32 (c + Z.of_nat (length baseTextures) + Z.of_nat (length baseSprites)),
        append_sprites sprs
          (append_textures texs
             (o.1, Database.set_Id (Database.SpriteSetInfo_Id baseSetInfo) o.2))).

(** ** The loops implement the specification *)

Lemma append_textures_nil o : append_textures [] o = o.
Proof.
  destruct o as [[f [ts] ss] [n fn i sp tx]].
  unfold append_textures, set_SprSet_TexSet. simpl. by rewrite !app_nil_r.
Qed.

Lemma append_textures_cons x l o :
  append_textures (x :: l) o = append_textures l (push_texInfo x.2 (push_texture x.1 o)).
Proof.
  destruct o as [[f [ts] ss] [n fn i sp tx]].
  unfold append_textures, push_texInfo, push_texture, set_SprSet_TexSet,
    emplace_texture, Database.emplace_Texture. simpl.
  by rewrite <- !app_assoc.
Qed.

Lemma append_sprites_nil o : append_sprites [] o = o.
Proof.
  destruct o as [[f ts ss] [n fn i sp tx]].
  unfold append_sprites, set_SprSet_Sprites. simpl. by rewrite !app_nil_r.
Qed.

Lemma append_sprites_cons x l o :
  append_sprites (x :: l) o = append_sprites l (push_sprInfo x.2 (push_sprite x.1 o)).
Proof.
  destruct o as [[f ts ss] [n fn i sp tx]].
  unfold append_sprites, push_sprInfo, push_sprite, set_SprSet_Sprites,
    emplace_sprite, Database.emplace_Sprite. simpl.
  by rewrite <- !app_assoc.
Qed.

(** The state after one iteration of each loop. *)
Definition texture_step (c0 : Z) (i : nat) (x : Tex * Database.SpriteDataInfo)
    (s : Z * MergeObj) : Z * MergeObj :=
  (to_u32 (c0 + Z.of_nat (S i)), push_texInfo x.2 (push_texture x.1 s.2)).
Definition sprite_step (c0 : Z) (i : nat) (x : Spr * Database.SpriteDataInfo)
    (s : Z * MergeObj) : Z * MergeObj :=
  (to_u32 (c0 + Z.of_nat (S i)), push_sprInfo x.2 (push_sprite x.1 s.2)).

Lemma Merge_texture_step bsi texNum c0 idx tex s s' :
  s.1 = to_u32 (c0 + Z.of_nat idx) ->
  Merge_texture bsi texNum idx tex s = (Val tt, s') <->
  exists x, merged_texture bsi texNum c0 idx tex = Some x /\ s' = texture_step c0 idx x s.
Proof.
  destruct s as [c o]. simpl. intros ->.
  unfold Merge_texture, merged_texture, texture_step, bind, defined, next_id, modify_obj.
  simpl.
  destruct (GetTextureNameWithNewIndex (Tex_Name tex) _) as [name|]; simpl;
    [|split; [done|by intros (? & ? & ?)]].
  destruct (Database.SpriteSetInfo_Textures bsi !! idx) as [info|]; simpl;
    [|split; [done|by intros (? & ? & ?)]].
  destruct (GetTextureNameWithNewIndex (Database.SpriteDataInfo_Name info) _) as [infoName|];
    simpl; [|split; [done|by intros (? & ? & ?)]].
  rewrite to_u32_succ.
  split; [intros [= <-]; eauto | by intros (x & [= <-] & ->)].
Qed.

Lemma Merge_sprite_step bsi texNum sprNum c0 idx spr s s' :
  s.1 = to_u32 (c0 + Z.of_nat idx) ->
  Merge_sprite bsi texNum sprNum idx spr s = (Val tt, s') <->
  exists x, merged_sprite bsi texNum sprNum c0 idx spr = Some x /\ s' = sprite_step c0 idx x s.
Proof.
  destruct s as [c o]. simpl. intros ->.
  unfold Merge_sprite, merged_sprite, sprite_step, bind, defined, next_id, modify_obj.
  simpl.
  destruct (decide (is_i32 _)); simpl; [|split; [done|by intros (? & ? & ?)]].
  destruct (Database.SpriteSetInfo_Sprites bsi !! idx) as [info|]; simpl;
    [|split; [done|by intros (? & ? & ?)]].
  rewrite to_u32_succ.
  split; [intros [= <-]; eauto | by intros (x & [= <-] & ->)].
Qed.

Lemma fold_texture_step c0 start l s :
  s.1 = to_u32 (c0 + Z.of_nat start) ->
  fold_from start (texture_step c0) l s =
    (to_u32 (c0 + Z.of_nat (start + length l)), append_textures l s.2).
Proof.
  revert start s. induction l as [|x l IH]; intros start [c o] Hc; simpl in *.
  - by rewrite Nat.add_0_r, append_textures_nil, Hc.
  - rewrite IH by done. simpl. rewrite append_textures_cons. do 3 f_equal. lia.
Qed.

Lemma fold_sprite_step c0 start l s :
  s.1 = to_u32 (c0 + Z.of_nat start) ->
  fold_from start (sprite_step c0) l s =
    (to_u32 (c0 + Z.of_nat (start + length l)), append_sprites l s.2).
Proof.
  revert start s. induction l as [|x l IH]; intros start [c o] Hc; simpl in *.
  - by rewrite Nat.add_0_r, append_sprites_nil, Hc.
  - rewrite IH by done. simpl. rewrite append_sprites_cons. do 3 f_equal. lia.
Qed.

Lemma Merge_textures_refine bsi texNum c0 l c o s' :
  c = to_u32 c0 ->
  for_each_from 0 l (Merge_texture bsi texNum) (c, o) = (Val tt, s') <->
  exists texs, mapM_from 0 (merged_texture bsi texNum c0) l = Some texs /\
               s' = (to_u32 (c0 + Z.of_nat (length l)), append_textures texs o).
Proof.
  intros Hc.
  rewrite (for_each_from_refine _ (merged_texture bsi texNum c0) (texture_step c0)
             (fun i s => s.1 = to_u32 (c0 + Z.of_nat i))).
  - split; intros (texs & Htexs & ->); exists texs; (split; [done|]);
      rewrite fold_texture_step by (simpl; rewrite Hc; f_equal; lia);
      by rewrite (length_mapM_from _ _ _ _ Htexs).
  - intros. by apply Merge_texture_step.
  - done.
  - simpl. rewrite Hc. f_equal. lia.
Qed.

Lemma Merge_sprites_refine bsi texNum sprNum c0 l c o s' :
  c = to_u32 c0 ->
  for_each_from 0 l (Merge_sprite bsi texNum sprNum) (c, o) = (Val tt, s') <->
  exists sprs, mapM_from 0 (merged_sprite bsi texNum sprNum c0) l = Some sprs /\
               s' = (to_u32 (c0 + Z.of_nat (length l)), append_sprites sprs o).
Proof.
  intros Hc.
  rewrite (for_each_from_refine _ (merged_sprite bsi texNum sprNum c0) (sprite_step c0)
             (fun i s => s.1 = to_u32 (c0 + Z.of_nat i))).
  - split; intros (sprs & Hsprs & ->); exists sprs; (split; [done|]);
      rewrite fold_sprite_step by (simpl; rewrite Hc; f_equal; lia);
      by rewrite (length_mapM_from _ _ _ _ Hsprs).
  - intros. by apply Merge_sprite_step.
  - done.
  - simpl. rewrite Hc. f_equal. lia.
Qed.

(** ** [MergeBaseSpriteData] implements [merge_spec] *)

Section MergeCorrect.
Context `{Environment}.
Implicit Types (c : Z) (o : MergeObj).

Lemma MergeBaseSpriteData_absent c o :
  base_present (Database.SpriteSetInfo_Name o.2) = false ->
  MergeBaseSpriteData (c, o) = (Val false, (c, o)).
Proof.
  unfold base_present, MergeBaseSpriteData, bind, get_obj. simpl. intros Hp.
  by destruct (Exists (baseSprSetPath _)), (Exists baseSprDbPath).
Qed.

(** With both files present the routine is the two loops on the loaded
    data. *)
Lemma MergeBaseSpriteData_present c o :
  base_present (Database.SpriteSetInfo_Name o.2) = true ->
  MergeBaseSpriteData (c, o) =
    (x <- defined (base_data (Database.SpriteSetInfo_Name o.2)) ;;
     modify_obj (fun o => (o.1, Database.set_Id (Database.SpriteSetInfo_Id x.2) o.2)) ;;
     let texNum := length (TexSet_Textures (SprSet_TexSet o.1)) in
     for_each_from 0 (TexSet_Textures (SprSet_TexSet x.1)) (Merge_texture x.2 texNum) ;;
     o' <- get_obj ;;
     for_each_from 0 (SprSet_Sprites x.1)
       (Merge_sprite x.2 texNum (length (SprSet_Sprites o'.1))) ;;
     ret true) (c, o).
Proof.
  unfold base_present, MergeBaseSpriteData, base_data, bind, get_obj, defined. simpl.
  intros [-> ->]%andb_prop. simpl.
  destruct (LoadFile _) as [baseSprSet|]; simpl; [|done].
  by destruct (Database.FindSpriteSetByName _ _) as [baseSetInfo|].
Qed.

Lemma append_textures_sprites l o :
  SprSet_Sprites (append_textures l o).1 = SprSet_Sprites o.1.
Proof. done. Qed.

Lemma merge_loops_refine c o base bsi s' :
  is_u32 c ->
  (let texNum := length (TexSet_Textures (SprSet_TexSet o.1)) in
   for_each_from 0 (TexSet_Textures (SprSet_TexSet base)) (Merge_texture bsi texNum) ;;
   o' <- get_obj ;;
   for_each_from 0 (SprSet_Sprites base)
     (Merge_sprite bsi texNum (length (SprSet_Sprites o'.1))) ;;
   ret true) (c, (o.1, Database.set_Id (Database.SpriteSetInfo_Id bsi) o.2)) = (Val true, s') <->
  merge_spec c o base bsi = Some s'.
Proof.
  intros Hc. unfold merge_spec. cbv zeta. split.
  - intros Hrun.
    apply bind_Val_inv in Hrun as ([] & s1 & Htex & Hrun).
    apply bind_Val_inv in Hrun as (o' & s2 & [= <- <-] & Hrun).
    apply bind_Val_inv in Hrun as ([] & s3 & Hspr & [= <-]).
    apply (Merge_textures_refine _ _ c) in Htex as (texs & -> & ->); [|by rewrite to_u32_id].
    apply (Merge_sprites_refine _ _ _ (c + Z.of_nat (length (TexSet_Textures (SprSet_TexSet base))))) in Hspr as (sprs & Hsprs & ->); [|done].
    simpl in Hsprs |- *. by rewrite Hsprs.
  - destruct (mapM_from 0 (merged_texture _ _ _) _) as [texs|] eqn:Htexs; [|done]. simpl.
    destruct (mapM_from 0 (merged_sprite _ _ _ _) _) as [sprs|] eqn:Hsprs; [|done]. simpl.
    intros [= <-].
    erewrite bind_val; [|apply (Merge_textures_refine _ _ c); [by rewrite to_u32_id|eauto]].
    erewrite bind_val; [|reflexivity].
    erewrite bind_val; [|apply (Merge_sprites_refine _ _ _ (c + Z.of_nat (length (TexSet_Textures (SprSet_TexSet base))))); [done|eauto]].
    done.
Qed.
End MergeCorrect.

(** ** Consequences of the refinement *)

Section MergeProps.
Context `{Environment}.
Implicit Types (c : Z) (o : MergeObj).

Lemma MergeBaseSpriteData_true_inv c o s' :
  is_u32 c ->
  MergeBaseSpriteData (c, o) = (Val true, s') ->
  exists base bsi, base_data (Database.SpriteSetInfo_Name o.2) = Some (base, bsi) /\
                   merge_spec c o base bsi = Some s'.
Proof.
  intros Hc Hrun.
  destruct (base_present (Database.SpriteSetInfo_Name o.2)) eqn:Hp.
  - rewrite MergeBaseSpriteData_present in Hrun by done.
    apply bind_Val_inv in Hrun as ([base bsi] & s1 & [-> ->]%defined_Val_inv & Hrun).
    apply bind_Val_inv in Hrun as ([] & s2 & [= <-] & Hrun).
    exists base, bsi. split; [done|]. by apply merge_loops_refine.
  - by rewrite MergeBaseSpriteData_absent in Hrun.
Qed.

Lemma MergeBaseSpriteData_true_intro c o base bsi s' :
  is_u32 c ->
  base_present (Database.SpriteSetInfo_Name o.2) = true ->
  base_data (Database.SpriteSetInfo_Name o.2) = Some (base, bsi) ->
  merge_spec c o base bsi = Some s' ->
  MergeBaseSpriteData (c, o) = (Val true, s').
Proof.
  intros Hc Hp Hd Hs. rewrite MergeBaseSpriteData_present by done.
  rewrite Hd. simpl. rewrite bind_ret_l.
  erewrite bind_val; [|reflexivity]. by apply merge_loops_refine.
Qed.

(** The two ways the routine returns. *)
Lemma MergeBaseSpriteData_Val_inv c o b s' :
  is_u32 c ->
  MergeBaseSpriteData (c, o) = (Val b, s') ->
  (b = false /\ base_present (Database.SpriteSetInfo_Name o.2) = false /\ s' = (c, o)) \/
  (b = true /\ base_present (Database.SpriteSetInfo_Name o.2) = true /\
   exists base bsi, base_data (Database.SpriteSetInfo_Name o.2) = Some (base, bsi) /\
                    merge_spec c o base bsi = Some s').
Proof.
  intros Hc Hrun. destruct (base_present (Database.SpriteSetInfo_Name o.2)) eqn:Hp.
  - right. destruct b.
    + repeat split. by apply MergeBaseSpriteData_true_inv.
    + rewrite MergeBaseSpriteData_present in Hrun by done.
      apply bind_Val_inv in Hrun as (x & s1 & _ & Hrun).
      repeat (apply bind_Val_inv in Hrun as (? & ? & _ & Hrun)). done.
  - left. rewrite MergeBaseSpriteData_absent in Hrun by done. by injection Hrun as <- <-.
Qed.

(** The parts of the result of [merge_spec]. *)
Lemma merge_spec_inv c sprSet setInfo base bsi c' sprSet' setInfo' :
  merge_spec c (sprSet, setInfo) base bsi = Some (c', (sprSet', setInfo')) ->
  let texNum := length (TexSet_Textures (SprSet_TexSet sprSet)) in
  let nt := length (TexSet_Textures (SprSet_TexSet base)) in
  exists texs sprs,
    mapM_from 0 (merged_texture bsi texNum c) (TexSet_Textures (SprSet_TexSet base))
      = Some texs /\
    mapM_from 0 (merged_sprite bsi texNum (length (SprSet_Sprites sprSet)) (c + Z.of_nat nt))
      (SprSet_Sprites base) = Some sprs /\
    c' = to_u32 (c + Z.of_nat nt + Z.of_nat (length (SprSet_Sprites base))) /\
    SprSet_Flags sprSet' = SprSet_Flags sprSet /\
    TexSet_Textures (SprSet_TexSet sprSet') =
      TexSet_Textures (SprSet_TexSet sprSet) ++ texs.*1 /\
    SprSet_Sprites sprSet' = SprSet_Sprites sprSet ++ sprs.*1 /\
    Database.SpriteSetInfo_Name setInfo' = Database.SpriteSetInfo_Name setInfo /\
    Database.SpriteSetInfo_Filename setInfo' = Database.SpriteSetInfo_Filename setInfo /\
    Database.SpriteSetInfo_Id setInfo' = Database.SpriteSetInfo_Id bsi /\
    Database.SpriteSetInfo_Textures setInfo' =
      Database.SpriteSetInfo_Textures setInfo ++ texs.*2 /\
    Database.SpriteSetInfo_Sprites setInfo' =
      Database.SpriteSetInfo_Sprites setInfo ++ sprs.*2.
Proof.
  unfold merge_spec. cbv zeta. simpl.
  destruct (mapM_from 0 (merged_texture _ _ _) _) as [texs|]; [|done]. simpl.
  destruct (mapM_from 0 (merged_sprite _ _ _ _) _) as [sprs|]; [|done]. simpl.
  intros [= <- <- <-]. exists texs, sprs. by destruct sprSet as [? [?] ?], setInfo.
Qed.

Lemma merged_sprite_fst bsi texNum sprNum c j spr b :
  merged_sprite bsi texNum sprNum c j spr = Some b ->
  b.1 = shift_texture_index texNum spr /\
  is_i32 (Spr_TextureIndex spr + to_i32 (Z.of_nat texNum)).
Proof.
  unfold merged_sprite. destruct (decide _); [|done].
  destruct (_ !! j); [|done]. simpl. by intros [= <-].
Qed.

Lemma merged_sprite_snd bsi texNum sprNum c j spr b :
  merged_sprite bsi texNum sprNum c j spr = Some b ->
  exists e, Database.SpriteSetInfo_Sprites bsi !! j = Some e /\
    b.2 = {| Database.SpriteDataInfo_Name := Database.SpriteDataInfo_Name e;
             Database.SpriteDataInfo_DataIndex := to_i32 (Z.of_nat (sprNum + j));
             Database.SpriteDataInfo_Id := to_u32 (c + Z.of_nat j) |}.
Proof.
  unfold merged_sprite. destruct (decide _); [|done].
  destruct (_ !! j) as [e|]; [|done]. simpl. intros [= <-]. eauto.
Qed.

(** The names of the merged sprite entries are those of the base entries. *)
Lemma mapM_from_entry_names bsi texNum sprNum c i l sprs :
  mapM_from i (merged_sprite bsi texNum sprNum c) l = Some sprs ->
  (Database.SpriteDataInfo_Name ∘ snd) <$> sprs =
  Database.SpriteDataInfo_Name <$>
    take (length l) (drop i (Database.SpriteSetInfo_Sprites bsi)).
Proof.
  revert i sprs. induction l as [|x l IH]; intros i sprs; simpl; [by intros [= <-]|].
  destruct (merged_sprite _ _ _ _ i x) as [b|] eqn:Hb; [|done]. simpl.
  destruct (mapM_from _ _ l) as [bs|] eqn:Hbs; [|done]. simpl. intros [= <-].
  apply merged_sprite_snd in Hb as (e & He & Hb).
  rewrite (drop_S _ e i) by done. simpl. rewrite Hb. f_equal. by apply IH.
Qed.

Lemma merged_texture_inv bsi texNum c j tex b :
  merged_texture bsi texNum c j tex = Some b ->
  exists name e infoName,
    GetTextureNameWithNewIndex (Tex_Name tex) (texNum + j) = Some name /\
    Database.SpriteSetInfo_Textures bsi !! j = Some e /\
    GetTextureNameWithNewIndex (Database.SpriteDataInfo_Name e) (texNum + j) = Some infoName /\
    b = (mkTex name (Tex_MipMapsArray tex),
         {| Database.SpriteDataInfo_Name := infoName;
            Database.SpriteDataInfo_DataIndex := to_i32 (Z.of_nat (texNum + j));
            Database.SpriteDataInfo_Id := to_u32 (c + Z.of_nat j) |}).
Proof.
  unfold merged_texture.
  destruct (GetTextureNameWithNewIndex (Tex_Name tex) _) as [name|]; [|done]. simpl.
  destruct (_ !! j) as [e|]; [|done]. simpl.
  destruct (GetTextureNameWithNewIndex _ _) as [infoName|] eqn:Hinfo; [|done]. simpl.
  intros [= <-]. exists name, e, infoName. by repeat split.
Qed.

(** [merge_spec] is defined on base data that can be renumbered and
    whose entries are all there. *)
Lemma merge_spec_is_Some c o base bsi :
  let texNum := length (TexSet_Textures (SprSet_TexSet o.1)) in
  (forall i tex, TexSet_Textures (SprSet_TexSet base) !! i = Some tex ->
     is_Some (GetTextureNameWithNewIndex (Tex_Name tex) (texNum + i)) /\
     exists e, Database.SpriteSetInfo_Textures bsi !! i = Some e /\
       is_Some (GetTextureNameWithNewIndex (Database.SpriteDataInfo_Name e) (texNum + i))) ->
  (forall i spr, SprSet_Sprites base !! i = Some spr ->
     is_i32 (Spr_TextureIndex spr + to_i32 (Z.of_nat texNum)) /\
     is_Some (Database.SpriteSetInfo_Sprites bsi !! i)) ->
  is_Some (merge_spec c o base bsi).
Proof.
  intros texNum Htex Hspr. subst texNum. unfold merge_spec. cbv zeta.
  destruct (mapM_from_is_Some 0
              (merged_texture bsi (length (TexSet_Textures (SprSet_TexSet o.1))) c)
              (TexSet_Textures (SprSet_TexSet base))) as [texs ->].
  { intros j tex Hj. destruct (Htex j tex Hj) as ([name Hn] & e & He & [infoName Hi]).
    unfold merged_texture. simpl. rewrite Hn. simpl. rewrite He. simpl. by rewrite Hi. }
  destruct (mapM_from_is_Some 0
              (merged_sprite bsi (length (TexSet_Textures (SprSet_TexSet o.1)))
                 (length (SprSet_Sprites o.1))
                 (c + Z.of_nat (length (TexSet_Textures (SprSet_TexSet base)))))
              (SprSet_Sprites base)) as [sprs ->]; [|done].
  intros j spr Hj. destruct (Hspr j spr Hj) as (Hi & e & He).
  unfold merged_sprite. simpl. rewrite decide_True by done. by rewrite He.
Qed.

(** The texture entries of a set index its textures: entry [i] has data
    index [i], and there is one entry per texture. *)
Definition tex_indexed (o : MergeObj) : Prop :=
  Database.SpriteDataInfo_DataIndex <$> Database.SpriteSetInfo_Textures o.2 =
  (fun i => to_i32 (Z.of_nat i)) <$> seq 0 (length (TexSet_Textures (SprSet_TexSet o.1))).

Lemma MergeBaseSpriteData_tex_indexed c o b c' o' :
  is_u32 c ->
  MergeBaseSpriteData (c, o) = (Val b, (c', o')) ->
  tex_indexed o -> tex_indexed o'.
Proof.
  intros Hc Hrun Ho.
  apply (MergeBaseSpriteData_Val_inv _ _ _ _ Hc) in Hrun
    as [(_ & _ & [= -> ->])|(_ & _ & base & bsi & _ & Hs)]; [done|].
  destruct o as [sprSet setInfo], o' as [sprSet' setInfo']. unfold tex_indexed in *.
  apply merge_spec_inv in Hs
    as (texs & sprs & Htexs & _ & _ & _ & Ht & _ & _ & _ & _ & Ht' & _).
  simpl in *. rewrite Ht, Ht', fmap_app, Ho, length_app, seq_app, fmap_app. f_equal.
  rewrite length_fmap, (length_mapM_from _ _ _ _ Htexs), <- list_fmap_compose. simpl.
  rewrite (fmap_mapM_from_index _ _ _ _ _
             (fun i => to_i32 (Z.of_nat (length (TexSet_Textures (SprSet_TexSet sprSet)) + i)))
             Htexs).
  2:{ intros j x e He. by apply merged_texture_inv in He as (? & ? & ? & _ & _ & _ & ->). }
  set (texNum := length (TexSet_Textures (SprSet_TexSet sprSet))).
  replace (seq texNum (length (TexSet_Textures (SprSet_TexSet base))))
    with (Nat.add texNum <$> seq 0 (length (TexSet_Textures (SprSet_TexSet base))))
    by (by rewrite fmap_add_seq, Nat.add_0_r).
  by rewrite <- list_fmap_compose.
Qed.

(** The ledger of identifiers through a merge. *)
Lemma merge_spec_entry_ids c sprSet setInfo base bsi c' sprSet' setInfo' :
  merge_spec c (sprSet, setInfo) base bsi = Some (c', (sprSet', setInfo')) ->
  exists m, c' = to_u32 (c + Z.of_nat m) /\
    Database.entry_ids setInfo' ≡ₚ
      Database.entry_ids setInfo ++ ((fun j => to_u32 (c + Z.of_nat j)) <$> seq 0 m).
Proof.
  intros Hs. apply merge_spec_inv in Hs
    as (texs & sprs & Htexs & Hsprs & -> & _ & _ & _ & _ & _ & _ & Ht & Hs).
  set (nt := length (TexSet_Textures (SprSet_TexSet base))) in *.
  set (ns := length (SprSet_Sprites base)) in *.
  exists (nt + ns)%nat. split; [f_equal; lia|].
  unfold Database.entry_ids. rewrite Ht, Hs, !fmap_app, <- !list_fmap_compose.
  rewrite (fmap_mapM_from_index _ _ _ _ _ (fun j => to_u32 (c + Z.of_nat j)) Htexs).
  2:{ intros j x b Hb. by apply merged_texture_inv in Hb as (? & ? & ? & _ & _ & _ & ->). }
  rewrite (fmap_mapM_from_index _ _ _ _ _
             (fun j => to_u32 (c + Z.of_nat nt + Z.of_nat j)) Hsprs).
  2:{ intros j x b Hb. apply merged_sprite_snd in Hb as (? & _ & Hb). simpl. by rewrite Hb. }
  fold nt ns. rewrite seq_app, fmap_app. simpl.
  replace (seq nt ns) with (Nat.add nt <$> seq 0 ns) by (by rewrite fmap_add_seq, Nat.add_0_r).
  rewrite <- (list_fmap_compose (Nat.add nt)).
  rewrite (list_fmap_ext (_ ∘ Nat.add nt) (fun j => to_u32 (c + Z.of_nat nt + Z.of_nat j)))
    by (intros; simpl; f_equal; lia).
  rewrite <- !app_assoc. apply Permutation_app_head.
  rewrite (app_assoc _ _ (_ <$> seq 0 ns)), (Permutation_app_comm _ (_ ++ _)).
  by rewrite <- !app_assoc.
Qed.

Lemma MergeBaseSpriteData_issued c0 lo n o b c' o' :
  (lo <= n)%nat ->
  MergeBaseSpriteData (Database.nth_id c0 n, o) = (Val b, (c', o')) ->
  Database.issued c0 lo n (Database.entry_ids o.2) ->
  exists n', (n <= n')%nat /\ c' = Database.nth_id c0 n' /\
             Database.issued c0 lo n' (Database.entry_ids o'.2).
Proof.
  intros Hlo Hrun Hids.
  apply (MergeBaseSpriteData_Val_inv _ _ _ _ (Database.nth_id_range _ _)) in Hrun
    as [(_ & _ & [= -> ->])|(_ & _ & base & bsi & _ & Hs)].
  { exists n. by repeat split. }
  destruct o as [sprSet setInfo], o' as [sprSet' setInfo'].
  apply merge_spec_entry_ids in Hs as (m & -> & Hperm).
  exists (n + m)%nat. split; [lia|]. split; [by rewrite Database.nth_id_add|].
  simpl. rewrite Hperm, Database.nth_id_seq.
  eapply Database.issued_app; [|done|apply Database.issued_seq]. lia.
Qed.
End MergeProps.

(** ** A base set on disk, for the examples

    The set [SPR_SEL] of a base game with one texture and one sprite, its
    file written by [SprSet::Write], and a freshly packed set of the same
    name with one texture and two sprites. *)
Module MergeExample.
#[local] Existing Instance signature_by_array_size.

Definition mip (b : byte) : MipMap :=
  {| MipMap_Size := mkivec2 2 2; MipMap_Format := 6; MipMap_DataSize := 4;
     MipMap_Data := [b; b; b; b] |}.

Definition sprite (name : string) (textureIndex : Z) : Spr :=
  {| Spr_TextureIndex := textureIndex; Spr_Rotate := 0;
     Spr_TexelRegion := mkvec4 0 0 0x3f800000 0x3f800000;
     Spr_PixelRegion := mkvec4 0 0 0x40000000 0x40000000;
     Spr_Name := name; Spr_Extra := mkSprExtra 0 2 |}.

Definition base_set : SprSet :=
  {| SprSet_Flags := 0;
     SprSet_TexSet := mkTexSet [mkTex "MERGE_D5COMP_000" [[mip Byte.x01]]];
     SprSet_Sprites := [sprite "BASE_A" 0] |}.

Definition base_entry : Database.SpriteSetInfo :=
  {| Database.SpriteSetInfo_Name := "SPR_SEL";
     Database.SpriteSetInfo_Filename := "spr_sel.bin";
     Database.SpriteSetInfo_Id := 700;
     Database.SpriteSetInfo_Sprites := [Database.mkSpriteDataInfo "SPR_SEL_BASE_A" 0 7001];
     Database.SpriteSetInfo_Textures :=
       [Database.mkSpriteDataInfo "SPRTEX_SEL_MERGE_D5COMP_000" 0 7002] |}.

Definition base_file : list byte :=
  default [] (encode (SprSet_fuel base_set) base_set).

Definition env : Environment :=
  {| Exists p := bool_decide (p = "./base_spr_sel.bin" \/ p = "./base_spr_db.bin");
     Content p := if bool_decide (p = "./base_spr_sel.bin") then base_file else [];
     Parse _ := Database.mkSpriteDatabase [base_entry] |}.

(** An environment without base data. *)
Definition no_base : Environment :=
  {| Exists _ := false; Content _ := []; Parse _ := Database.mkSpriteDatabase [] |}.

(** An environment whose base database does not list the set. *)
Definition no_entry : Environment :=
  {| Exists _ := true; Content := Content (Environment:=env);
     Parse _ := Database.mkSpriteDatabase [] |}.

Definition packed_set : SprSet :=
  {| SprSet_Flags := 0;
     SprSet_TexSet := mkTexSet [mkTex "MERGE_D5COMP_000" [[mip Byte.x02]]];
     SprSet_Sprites := [sprite "NEW_A" 0; sprite "NEW_B" 0] |}.

Definition packed_entry : Database.SpriteSetInfo :=
  {| Database.SpriteSetInfo_Name := "SPR_SEL";
     Database.SpriteSetInfo_Filename := "spr_sel.bin";
     Database.SpriteSetInfo_Id := 85000;
     Database.SpriteSetInfo_Sprites :=
       [Database.mkSpriteDataInfo "SPR_SEL_NEW_A" 0 85001;
        Database.mkSpriteDataInfo "SPR_SEL_NEW_B" 1 85002];
     Database.SpriteSetInfo_Textures :=
       [Database.mkSpriteDataInfo "SPRTEX_SEL_MERGE_D5COMP_000" 0 85003] |}.

(** The state the merge starts from, and the one it leaves. *)
Definition before : Z * MergeObj := (85004, (packed_set, packed_entry)).
Definition after : Z * MergeObj :=
  Eval vm_compute in (MergeBaseSpriteData (H:=env) before).2.
End MergeExample.

(** ** Renumbering a texture name *)

Lemma GetLastIndex_ge (s : string) (c : ascii) : -1 <= GetLastIndex s c.
Proof.
  induction s as [|c' s IH]; simpl; [done|].
  destruct (GetLastIndex s c >=? 0) eqn:E; [lia|]. by case_bool_decide.
Qed.

(** The last occurrence of [c] in a string that has none after it. *)
Lemma GetLastIndex_app (s1 s2 : string) (c : ascii) :
  GetLastIndex s2 c = -1 ->
  GetLastIndex (s1 +:+ String c s2) c = Z.of_nat (String.length s1).
Proof.
  intros Hs2. induction s1 as [|c1 s1 IH]; simpl.
  - rewrite Hs2. simpl. by rewrite bool_decide_true.
  - rewrite IH. destruct (Z.of_nat (String.length s1) >=? 0) eqn:E; lia.
Qed.

(** Three digits for an index below a thousand. *)
Lemma length_fmt_03zu (n : nat) : (n < 1000)%nat -> String.length (fmt_03zu n) = 3%nat.
Proof.
  intros Hn.
  assert (forallb (fun n => String.length (fmt_03zu n) =? 3)%nat (seq 0 1000) = true)
    as Hall by (by vm_compute).
  rewrite forallb_forall in Hall. apply Nat.eqb_eq, Hall, in_seq. lia.
Qed.

(** ** What the merge guarantees *)

Section MergeTheorems.
Context `{Environment}.
Implicit Types (c : Z) (sprSet : SprSet) (setInfo : Database.SpriteSetInfo).

(** C1: [MergeBaseSpriteData] implements [merge_spec].  From a counter in
    the range of [uint32_t], the routine returns normally exactly in two
    cases: both base files are present, the base set decodes, the base
    database lists the set, [merge_spec] is defined, and the routine
    returns [true] in the state [merge_spec] gives; or a base file is
    missing, and the routine returns [false] and changes nothing. *)
Theorem MergeBaseSpriteData_refines_merge_spec c o b s' :
  is_u32 c ->
  MergeBaseSpriteData (c, o) = (Val b, s') <->
  if base_present (Database.SpriteSetInfo_Name o.2)
  then b = true /\ exists base bsi,
         base_data (Database.SpriteSetInfo_Name o.2) = Some (base, bsi) /\
         merge_spec c o base bsi = Some s'
  else b = false /\ s' = (c, o).
Proof.
  intros Hc. split.
  - intros Hrun. by apply (MergeBaseSpriteData_Val_inv _ _ _ _ Hc) in Hrun
      as [(-> & -> & ->)|(-> & -> & Hs)].
  - destruct (base_present _) eqn:Hp.
    + intros (-> & base & bsi & Hd & Hs). by eapply MergeBaseSpriteData_true_intro.
    + intros [-> ->]. by apply MergeBaseSpriteData_absent.
Qed.

(** C2: merge index shift.  After a merge the sprite list is the freshly
    packed sprites, unchanged and in their order, followed by the sprites
    of the base set in their order, each with its texture index moved up
    by the number of freshly packed textures; none of the sums overflows
    [int32_t]. *)
Theorem Merge_shifts_texture_indices c sprSet setInfo c' sprSet' setInfo' :
  is_u32 c ->
  MergeBaseSpriteData (c, (sprSet, setInfo)) = (Val true, (c', (sprSet', setInfo'))) ->
  let texNum := length (TexSet_Textures (SprSet_TexSet sprSet)) in
  exists base bsi,
    base_data (Database.SpriteSetInfo_Name setInfo) = Some (base, bsi) /\
    SprSet_Sprites sprSet' =
      SprSet_Sprites sprSet ++ (shift_texture_index texNum <$> SprSet_Sprites base) /\
    Forall (fun spr => is_i32 (Spr_TextureIndex spr + to_i32 (Z.of_nat texNum)))
      (SprSet_Sprites base).
Proof.
  intros Hc Hrun.
  apply MergeBaseSpriteData_true_inv in Hrun as (base & bsi & Hd & Hs); [|done].
  exists base, bsi. split; [done|].
  apply merge_spec_inv in Hs as (texs & sprs & _ & Hsprs & _ & _ & _ & -> & _).
  split.
  - f_equal. apply (fmap_mapM_from _ _ _ _ _ _ Hsprs).
    intros j x b Hb. by apply merged_sprite_fst in Hb as [-> _].
  - apply Forall_lookup_2. intros j spr Hj.
    destruct (lookup_mapM_from _ _ _ _ _ _ Hsprs Hj) as (b & _ & Hb).
    by apply merged_sprite_fst in Hb as [_ ?].
Qed.

(** C3: the textures of the base set are appended after the freshly packed
    ones.  Base texture [i] becomes texture [texNum + i] of the merged
    set, with its array of mip maps as decoded and its name renumbered to
    [texNum + i]; the packed textures keep their places. *)
Theorem Merge_appends_base_textures c sprSet setInfo c' sprSet' setInfo' :
  is_u32 c ->
  MergeBaseSpriteData (c, (sprSet, setInfo)) = (Val true, (c', (sprSet', setInfo'))) ->
  let textures := TexSet_Textures (SprSet_TexSet sprSet) in
  let textures' := TexSet_Textures (SprSet_TexSet sprSet') in
  exists base bsi,
    base_data (Database.SpriteSetInfo_Name setInfo) = Some (base, bsi) /\
    take (length textures) textures' = textures /\
    length textures' = (length textures + length (TexSet_Textures (SprSet_TexSet base)))%nat /\
    forall i tex, TexSet_Textures (SprSet_TexSet base) !! i = Some tex ->
      exists name,
        GetTextureNameWithNewIndex (Tex_Name tex) (length textures + i) = Some name /\
        textures' !! (length textures + i)%nat = Some (mkTex name (Tex_MipMapsArray tex)).
Proof.
  intros Hc Hrun.
  apply MergeBaseSpriteData_true_inv in Hrun as (base & bsi & Hd & Hs); [|done].
  exists base, bsi. split; [done|].
  apply merge_spec_inv in Hs as (texs & sprs & Htexs & _ & _ & _ & -> & _).
  split; [by rewrite take_app_length|].
  split; [by rewrite length_app, length_fmap, (length_mapM_from _ _ _ _ Htexs)|].
  intros i tex Hi.
  destruct (lookup_mapM_from _ _ _ _ _ _ Htexs Hi) as (b & Hb & Hm).
  apply merged_texture_inv in Hm as (name & e & infoName & Hname & _ & _ & ->).
  exists name. split; [done|].
  by rewrite lookup_app_r, Nat.add_sub', list_lookup_fmap, Hb by lia.
Qed.

(** C4: index stability.  The database entries appended by a merge carry
    the positions of the data they describe: the entry of base texture
    [i] has data index [texNum + i] and the entry of base sprite [i] has
    data index [sprNum + i], the places the merge gave that texture and
    that sprite; a sprite entry keeps the name of the base entry. *)
Theorem Merge_entries_index_merged_data c sprSet setInfo c' sprSet' setInfo' :
  is_u32 c ->
  MergeBaseSpriteData (c, (sprSet, setInfo)) = (Val true, (c', (sprSet', setInfo'))) ->
  let texNum := length (TexSet_Textures (SprSet_TexSet sprSet)) in
  let sprNum := length (SprSet_Sprites sprSet) in
  exists base bsi texInfos sprInfos,
    base_data (Database.SpriteSetInfo_Name setInfo) = Some (base, bsi) /\
    Database.SpriteSetInfo_Textures setInfo' =
      Database.SpriteSetInfo_Textures setInfo ++ texInfos /\
    Database.SpriteSetInfo_Sprites setInfo' =
      Database.SpriteSetInfo_Sprites setInfo ++ sprInfos /\
    Database.SpriteDataInfo_DataIndex <$> texInfos =
      (fun i => to_i32 (Z.of_nat (texNum + i))) <$>
        seq 0 (length (TexSet_Textures (SprSet_TexSet base))) /\
    Database.SpriteDataInfo_DataIndex <$> sprInfos =
      (fun i => to_i32 (Z.of_nat (sprNum + i))) <$> seq 0 (length (SprSet_Sprites base)) /\
    Database.SpriteDataInfo_Name <$> sprInfos =
      Database.SpriteDataInfo_Name <$>
        take (length (SprSet_Sprites base)) (Database.SpriteSetInfo_Sprites bsi).
Proof.
  intros Hc Hrun.
  apply MergeBaseSpriteData_true_inv in Hrun as (base & bsi & Hd & Hs); [|done].
  apply merge_spec_inv in Hs
    as (texs & sprs & Htexs & Hsprs & _ & _ & _ & _ & _ & _ & _ & -> & ->).
  exists base, bsi, texs.*2, sprs.*2. repeat split; [done|..].
  - rewrite <- list_fmap_compose. apply (fmap_mapM_from_index _ _ _ _ _ _ Htexs).
    intros j x b Hb. by apply merged_texture_inv in Hb as (? & ? & ? & _ & _ & _ & ->).
  - rewrite <- list_fmap_compose. apply (fmap_mapM_from_index _ _ _ _ _ _ Hsprs).
    intros j x b Hb. apply merged_sprite_snd in Hb as (? & _ & Hb). simpl. by rewrite Hb.
  - rewrite <- list_fmap_compose. by rewrite (mapM_from_entry_names _ _ _ _ _ _ _ Hsprs).
Qed.

(** C5: one identifier per merged entry.  A merge of [nt] base textures
    and [ns] base sprites takes [nt + ns] identifiers from the counter,
    in order: those of the texture entries first, then those of the sprite
    entries, each the value of the counter when the entry was made. *)
Theorem Merge_allocates_consecutive_ids c sprSet setInfo c' sprSet' setInfo' :
  is_u32 c ->
  MergeBaseSpriteData (c, (sprSet, setInfo)) = (Val true, (c', (sprSet', setInfo'))) ->
  exists nt ns,
    c' = to_u32 (c + Z.of_nat nt + Z.of_nat ns) /\
    length (TexSet_Textures (SprSet_TexSet sprSet')) =
      (length (TexSet_Textures (SprSet_TexSet sprSet)) + nt)%nat /\
    length (SprSet_Sprites sprSet') = (length (SprSet_Sprites sprSet) + ns)%nat /\
    Database.SpriteDataInfo_Id <$> Database.SpriteSetInfo_Textures setInfo' =
      (Database.SpriteDataInfo_Id <$> Database.SpriteSetInfo_Textures setInfo)
      ++ ((fun j => to_u32 (c + Z.of_nat j)) <$> seq 0 nt) /\
    Database.SpriteDataInfo_Id <$> Database.SpriteSetInfo_Sprites setInfo' =
      (Database.SpriteDataInfo_Id <$> Database.SpriteSetInfo_Sprites setInfo)
      ++ ((fun j => to_u32 (c + Z.of_nat nt + Z.of_nat j)) <$> seq 0 ns).
Proof.
  intros Hc Hrun.
  apply MergeBaseSpriteData_true_inv in Hrun as (base & bsi & Hd & Hs); [|done].
  apply merge_spec_inv in Hs
    as (texs & sprs & Htexs & Hsprs & -> & _ & -> & -> & _ & _ & _ & -> & ->).
  exists (length (TexSet_Textures (SprSet_TexSet base))), (length (SprSet_Sprites base)).
  rewrite !length_app, !length_fmap, !fmap_app, <- !list_fmap_compose.
  rewrite (length_mapM_from _ _ _ _ Htexs), (length_mapM_from _ _ _ _ Hsprs).
  repeat split; f_equal.
  - apply (fmap_mapM_from_index _ _ _ _ _ _ Htexs).
    intros j x b Hb. by apply merged_texture_inv in Hb as (? & ? & ? & _ & _ & _ & ->).
  - apply (fmap_mapM_from_index _ _ _ _ _ _ Hsprs).
    intros j x b Hb. apply merged_sprite_snd in Hb as (? & _ & Hb). simpl. by rewrite Hb.
Qed.

(** C6: without base data the merge is a no-op.  If either base file is
    missing the routine returns [false] and leaves the counter, the sprite
    set and the database entry as they were. *)
Theorem Merge_without_base_files c sprSet setInfo :
  Exists (baseSprSetPath (Database.SpriteSetInfo_Name setInfo)) = false \/
  Exists baseSprDbPath = false ->
  MergeBaseSpriteData (c, (sprSet, setInfo)) = (Val false, (c, (sprSet, setInfo))).
Proof.
  intros Hex. apply MergeBaseSpriteData_absent. unfold base_present. simpl.
  destruct Hex as [-> | ->]; [done|apply andb_false_r].
Qed.

(** C7: a base database that does not list the set makes the merge
    undefined.  With both base files present, if the base set cannot be
    loaded or [FindSpriteSetByName] returns the null pointer, the routine
    dereferences a null pointer. *)
Theorem Merge_missing_base_entry_undefined c sprSet setInfo :
  base_present (Database.SpriteSetInfo_Name setInfo) = true ->
  base_data (Database.SpriteSetInfo_Name setInfo) = None ->
  (MergeBaseSpriteData (c, (sprSet, setInfo))).1 = Undef.
Proof.
  intros Hp Hd. rewrite MergeBaseSpriteData_present by done. simpl.
  unfold bind. by rewrite Hd.
Qed.

(** C8: the merged entry takes the identity of the base entry.  The
    identifier of the set becomes that of the base database's entry,
    whatever was allocated for it; the name, the file name and the flags
    of the set stay. *)
Theorem Merge_adopts_base_set_id c sprSet setInfo c' sprSet' setInfo' :
  is_u32 c ->
  MergeBaseSpriteData (c, (sprSet, setInfo)) = (Val true, (c', (sprSet', setInfo'))) ->
  exists bsi,
    Database.FindSpriteSetByName (Database.SpriteSetInfo_Name setInfo)
      (Parse (Content baseSprDbPath)) = Some bsi /\
    Database.SpriteSetInfo_Id setInfo' = Database.SpriteSetInfo_Id bsi /\
    Database.SpriteSetInfo_Name setInfo' = Database.SpriteSetInfo_Name setInfo /\
    Database.SpriteSetInfo_Filename setInfo' = Database.SpriteSetInfo_Filename setInfo /\
    SprSet_Flags sprSet' = SprSet_Flags sprSet.
Proof.
  intros Hc Hrun.
  apply MergeBaseSpriteData_true_inv in Hrun as (base & bsi & Hd & Hs); [|done].
  apply merge_spec_inv in Hs as (texs & sprs & _ & _ & _ & ? & _ & _ & ? & ? & ? & _).
  exists bsi. repeat split; try done.
  unfold base_data in Hd. simpl in Hd.
  destruct (LoadFile _); [|done]. simpl in Hd.
  by destruct (Database.FindSpriteSetByName _ _); simplify_eq/=.
Qed.

(** C33: the pattern of a renumbered texture name.  A name made of a
    prefix without null characters, an underscore and a suffix without
    underscore is renamed to the prefix, an underscore and the new index
    in three digits, for an index below 1000 and a prefix that fits the
    buffer of 256 characters. *)
Theorem GetTextureNameWithNewIndex_pattern (prefix suffix : string) (newIndex : nat) :
  GetLastIndex suffix "_" = -1 ->
  c_str prefix = prefix ->
  (String.length prefix < 252)%nat ->
  (newIndex < 1000)%nat ->
  GetTextureNameWithNewIndex (prefix +:+ "_" +:+ suffix) newIndex =
    Some (prefix +:+ "_" +:+ fmt_03zu newIndex) /\
  String.length (fmt_03zu newIndex) = 3%nat.
Proof.
  intros Hsuffix Hprefix Hlen Hidx. split; [|by apply length_fmt_03zu].
  unfold GetTextureNameWithNewIndex. cbv zeta.
  change ("_" +:+ suffix) with (String "_" suffix).
  rewrite (GetLastIndex_app _ _ _ Hsuffix).
  destruct (Z.of_nat _ <? 0) eqn:E; [blia|]. rewrite Nat2Z.id.
  unfold substr. rewrite Nat.sub_0_r, (length_string_app prefix), Nat.min_l by lia.
  rewrite substring_0_app, Hprefix.
  destruct (String.length _ <? 256)%nat eqn:E'; [done|].
  apply Nat.ltb_ge in E'. rewrite !length_string_app, length_fmt_03zu in E' by done.
  simpl in E'. lia.
Qed.

(** C34: a texture name without underscore cannot be renumbered.
    [GetLastIndex] returns -1, and the routine builds a string of
    [(size_t)-1] characters: the merge of such a texture is undefined. *)
Theorem GetTextureNameWithNewIndex_no_underscore (orgName : string) (newIndex : nat) :
  GetLastIndex orgName "_" = -1 ->
  GetTextureNameWithNewIndex orgName newIndex = None.
Proof. unfold GetTextureNameWithNewIndex. by intros ->. Qed.

(** C9: the merge returns.  With both base files present, a base set
    that loads and a base entry that is found, the routine returns [true]
    provided every base texture and its entry can be renumbered, the base
    entry lists an entry for every base texture and every base sprite, and
    no shifted texture index leaves [int32_t]. *)
Theorem Merge_returns c sprSet setInfo base bsi :
  is_u32 c ->
  base_present (Database.SpriteSetInfo_Name setInfo) = true ->
  base_data (Database.SpriteSetInfo_Name setInfo) = Some (base, bsi) ->
  let texNum := length (TexSet_Textures (SprSet_TexSet sprSet)) in
  (forall i tex, TexSet_Textures (SprSet_TexSet base) !! i = Some tex ->
     is_Some (GetTextureNameWithNewIndex (Tex_Name tex) (texNum + i)) /\
     exists e, Database.SpriteSetInfo_Textures bsi !! i = Some e /\
       is_Some (GetTextureNameWithNewIndex (Database.SpriteDataInfo_Name e) (texNum + i))) ->
  (forall i spr, SprSet_Sprites base !! i = Some spr ->
     is_i32 (Spr_TextureIndex spr + to_i32 (Z.of_nat texNum)) /\
     is_Some (Database.SpriteSetInfo_Sprites bsi !! i)) ->
  exists s', MergeBaseSpriteData (c, (sprSet, setInfo)) = (Val true, s').
Proof.
  intros Hc Hp Hd texNum Htex Hspr.
  destruct (merge_spec_is_Some c (sprSet, setInfo) base bsi) as [s' Hs]; [done..|].
  exists s'. by eapply MergeBaseSpriteData_true_intro.
Qed.
End MergeTheorems.

(** ** The theorems on the example *)

Section MergeWitnesses.
Import MergeExample.
#[local] Existing Instance signature_by_array_size.

Lemma MergeBaseSpriteData_refines_merge_spec_witness :
  MergeBaseSpriteData (H:=env) before = (Val true, after) <->
  if base_present (H:=env) "SPR_SEL"
  then true = true /\ exists base bsi,
         base_data (H:=env) "SPR_SEL" = Some (base, bsi) /\
         merge_spec 85004 (packed_set, packed_entry) base bsi = Some after
  else true = false /\ after = before.
Proof.
  apply (MergeBaseSpriteData_refines_merge_spec (H:=env) 85004
           (packed_set, packed_entry) true after).
  unfold is_u32. lia.
Defined.

Lemma Merge_shifts_texture_indices_witness :
  exists base bsi,
    base_data (H:=env) "SPR_SEL" = Some (base, bsi) /\
    SprSet_Sprites after.2.1 =
      [sprite "NEW_A" 0; sprite "NEW_B" 0] ++ (shift_texture_index 1 <$> SprSet_Sprites base) /\
    Forall (fun spr => is_i32 (Spr_TextureIndex spr + to_i32 (Z.of_nat 1%nat)))
      (SprSet_Sprites base).
Proof.
  apply (Merge_shifts_texture_indices (H:=env) 85004 packed_set packed_entry
           after.1 after.2.1 after.2.2); [unfold is_u32; lia|by vm_compute].
Defined.

Lemma Merge_appends_base_textures_witness :
  exists base bsi,
    base_data (H:=env) "SPR_SEL" = Some (base, bsi) /\
    take 1 (TexSet_Textures (SprSet_TexSet after.2.1)) =
      TexSet_Textures (SprSet_TexSet packed_set) /\
    length (TexSet_Textures (SprSet_TexSet after.2.1)) =
      (1 + length (TexSet_Textures (SprSet_TexSet base)))%nat /\
    forall i tex, TexSet_Textures (SprSet_TexSet base) !! i = Some tex ->
      exists name,
        GetTextureNameWithNewIndex (Tex_Name tex) (1 + i) = Some name /\
        TexSet_Textures (SprSet_TexSet after.2.1) !! (1 + i)%nat =
          Some (mkTex name (Tex_MipMapsArray tex)).
Proof.
  apply (Merge_appends_base_textures (H:=env) 85004 packed_set packed_entry
           after.1 after.2.1 after.2.2); [unfold is_u32; lia|by vm_compute].
Defined.

Lemma Merge_entries_index_merged_data_witness :
  exists base bsi texInfos sprInfos,
    base_data (H:=env) "SPR_SEL" = Some (base, bsi) /\
    Database.SpriteSetInfo_Textures after.2.2 =
      Database.SpriteSetInfo_Textures packed_entry ++ texInfos /\
    Database.SpriteSetInfo_Sprites after.2.2 =
      Database.SpriteSetInfo_Sprites packed_entry ++ sprInfos /\
    Database.SpriteDataInfo_DataIndex <$> texInfos =
      (fun i => to_i32 (Z.of_nat (1 + i))) <$>
        seq 0 (length (TexSet_Textures (SprSet_TexSet base))) /\
    Database.SpriteDataInfo_DataIndex <$> sprInfos =
      (fun i => to_i32 (Z.of_nat (2 + i))) <$> seq 0 (length (SprSet_Sprites base)) /\
    Database.SpriteDataInfo_Name <$> sprInfos =
      Database.SpriteDataInfo_Name <$>
        take (length (SprSet_Sprites base)) (Database.SpriteSetInfo_Sprites bsi).
Proof.
  apply (Merge_entries_index_merged_data (H:=env) 85004 packed_set packed_entry
           after.1 after.2.1 after.2.2); [unfold is_u32; lia|by vm_compute].
Defined.

Lemma Merge_allocates_consecutive_ids_witness :
  exists nt ns,
    after.1 = to_u32 (85004 + Z.of_nat nt + Z.of_nat ns) /\
    length (TexSet_Textures (SprSet_TexSet after.2.1)) = (1 + nt)%nat /\
    length (SprSet_Sprites after.2.1) = (2 + ns)%nat /\
    Database.SpriteDataInfo_Id <$> Database.SpriteSetInfo_Textures after.2.2 =
      [85003] ++ ((fun j => to_u32 (85004 + Z.of_nat j)) <$> seq 0 nt) /\
    Database.SpriteDataInfo_Id <$> Database.SpriteSetInfo_Sprites after.2.2 =
      [85001; 85002] ++ ((fun j => to_u32 (85004 + Z.of_nat nt + Z.of_nat j)) <$> seq 0 ns).
Proof.
  apply (Merge_allocates_consecutive_ids (H:=env) 85004 packed_set packed_entry
           after.1 after.2.1 after.2.2); [unfold is_u32; lia|by vm_compute].
Defined.

Lemma Merge_without_base_files_witness :
  MergeBaseSpriteData (H:=no_base) before = (Val false, before).
Proof. apply (Merge_without_base_files (H:=no_base)). by left. Defined.

Lemma Merge_missing_base_entry_undefined_witness :
  (MergeBaseSpriteData (H:=no_entry) before).1 = Undef.
Proof. apply (Merge_missing_base_entry_undefined (H:=no_entry)); by vm_compute. Defined.

Lemma Merge_adopts_base_set_id_witness :
  exists bsi,
    Database.FindSpriteSetByName "SPR_SEL"
      (Parse (Environment:=env) (Content (Environment:=env) baseSprDbPath)) = Some bsi /\
    Database.SpriteSetInfo_Id after.2.2 = Database.SpriteSetInfo_Id bsi /\
    Database.SpriteSetInfo_Name after.2.2 = "SPR_SEL" /\
    Database.SpriteSetInfo_Filename after.2.2 = "spr_sel.bin" /\
    SprSet_Flags after.2.1 = 0.
Proof.
  apply (Merge_adopts_base_set_id (H:=env) 85004 packed_set packed_entry
           after.1 after.2.1 after.2.2); [unfold is_u32; lia|by vm_compute].
Defined.

Lemma GetTextureNameWithNewIndex_pattern_witness :
  GetTextureNameWithNewIndex "MERGE_D5COMP_000" 1 = Some "MERGE_D5COMP_001" /\
  String.length (fmt_03zu 1) = 3%nat.
Proof.
  apply (GetTextureNameWithNewIndex_pattern "MERGE_D5COMP" "000" 1);
    [by vm_compute|by vm_compute|simpl; lia|lia].
Defined.

Lemma GetTextureNameWithNewIndex_no_underscore_witness :
  GetTextureNameWithNewIndex "TEXTURE" 1 = None.
Proof. apply GetTextureNameWithNewIndex_no_underscore. by vm_compute. Defined.

Lemma Merge_returns_witness :
  exists s', MergeBaseSpriteData (H:=env) before = (Val true, s').
Proof.
  apply (Merge_returns (H:=env) 85004 packed_set packed_entry base_set base_entry);
    [unfold is_u32; lia|by vm_compute|by vm_compute|..].
  - intros i tex Hi. destruct i as [|i]; [|by destruct i]. injection Hi as <-.
    split; [vm_compute; by eexists|]. eexists. split; [done|vm_compute; by eexists].
  - intros i spr Hi. destruct i as [|i]; [|by destruct i]. injection Hi as <-.
    split; [by vm_compute|by eexists].
Defined.
End MergeWitnesses.

(** ** [GetSpriteIndex]: the first sprite whose name starts with the name *)

(** On a name without null character [strncmp] over the length of the
    name tests whether the name is a prefix. *)
Lemma strncmp_eq_prefix (a b : string) :
  c_str a = a -> strncmp_eq a b (String.length a) = String.prefix a b.
Proof.
  revert b. induction a as [|ca a IH]; intros b Ha; [by destruct b|].
  simpl in Ha. case_bool_decide as Hz; [done|]. injection Ha as Ha.
  destruct b as [|cb b]; cbn [strncmp_eq String.length String.prefix];
    [by rewrite bool_decide_false|].
  destruct (ascii_dec ca cb) as [->|Hne].
  - rewrite bool_decide_true, bool_decide_false by done. by apply IH.
  - by rewrite bool_decide_false.
Qed.

(** The sprites whose name the query matches. *)
Definition name_matches (name : string) (spr : Spr) : Prop :=
  strncmp_eq name (Spr_Name spr) (String.length name) = true.

#[export] Instance name_matches_dec name spr : Decision (name_matches name spr).
Proof. unfold name_matches. apply _. Defined.

Lemma GetSpriteIndex_from_find (idx : Z) (sprites : list Spr) (name : string) :
  GetSpriteIndex_from idx sprites name =
    match list_find (name_matches name) sprites with
    | Some (i, _) => idx + Z.of_nat i
    | None => -1
    end.
Proof.
  revert idx. induction sprites as [|spr sprites IH]; intros idx; simpl; [done|].
  destruct (decide (name_matches name spr)) as [Hm|Hm]; unfold name_matches in Hm.
  - rewrite Hm. simpl. lia.
  - apply not_true_is_false in Hm. rewrite Hm, IH.
    destruct (list_find _ sprites) as [[i x]|]; simpl; [lia|done].
Qed.

(** C35: [GetSpriteIndex] returns the position of the first sprite whose
    name starts with the queried name (compared as C strings over the
    length of the query), and -1 if there is none: the first match wins,
    also over a later sprite whose name is the query exactly. *)
Theorem GetSpriteIndex_first_match (sprSet : SprSet) (name : string) :
  GetSpriteIndex sprSet name =
    match list_find (name_matches name) (SprSet_Sprites sprSet) with
    | Some (i, _) => Z.of_nat i
    | None => -1
    end.
Proof. unfold GetSpriteIndex. rewrite GetSpriteIndex_from_find. by destruct (list_find _ _) as [[]|]. Qed.

(** C36: a sprite that is found is in the set, its name starts with the
    query, and no sprite before it matches; for a query without null
    character the match is [String.prefix]. *)
Theorem GetSpriteIndex_found (sprSet : SprSet) (name : string) (idx : Z) :
  c_str name = name ->
  GetSpriteIndex sprSet name = idx ->
  0 <= idx ->
  exists spr,
    SprSet_Sprites sprSet !! Z.to_nat idx = Some spr /\
    String.prefix name (Spr_Name spr) = true /\
    forall j spr', (j < Z.to_nat idx)%nat -> SprSet_Sprites sprSet !! j = Some spr' ->
      String.prefix name (Spr_Name spr') = false.
Proof.
  intros Hname Hidx Hpos. rewrite GetSpriteIndex_first_match in Hidx.
  destruct (list_find _ _) as [[i spr]|] eqn:Hfind; [|lia]. subst idx.
  apply list_find_Some in Hfind as (Hi & Hm & Hbefore). rewrite Nat2Z.id.
  exists spr. unfold name_matches in *. rewrite strncmp_eq_prefix in Hm by done.
  split; [done|split; [done|]]. intros j spr' Hj Hspr'.
  specialize (Hbefore j spr' Hspr' Hj). rewrite strncmp_eq_prefix in Hbefore by done.
  by apply not_true_is_false.
Qed.

Lemma GetSpriteIndex_found_witness :
  exists spr,
    [MergeExample.sprite "ICON_LARGE" 0; MergeExample.sprite "ICON" 0] !! Z.to_nat 0 = Some spr /\
    String.prefix "ICON" (Spr_Name spr) = true /\
    forall j spr', (j < Z.to_nat 0)%nat ->
      [MergeExample.sprite "ICON_LARGE" 0; MergeExample.sprite "ICON" 0] !! j = Some spr' ->
      String.prefix "ICON" (Spr_Name spr') = false.
Proof.
  apply (GetSpriteIndex_found
           (mkSprSet 0 new_TexSet [MergeExample.sprite "ICON_LARGE" 0; MergeExample.sprite "ICON" 0])
           "ICON" 0); [by vm_compute|by vm_compute|lia].
Defined.
