(* ===== verification/Compile.v ===== *)
(** * Compile: eligibility, packing glue and database registration

    [ParseSpriteInfo], [CheckSetInfoEligibleForPacking], [PackSpriteSet],
    [CompileSpriteSetsWithDB] and [CompileSpriteData] of [sprite.cpp].
    The JSON parser, the image reader, the sprite packer and the archive
    packer are the environment ([Toolchain]); what the program writes to
    disk is the list of [FileWrite]s it leaves in its state. *)

From Stdlib Require Import ZArith Lia List Strings.String Strings.Ascii.
From stdpp Require Import base tactics option list numbers strings.
From S2P Require Import Prelude Common Bytes AsciiStr Writer Format Write Database Merge.

(** ** What the compiler calls *)

(** [Comfy::SprMarkup] *)
Record SprMarkup : Set := mkSprMarkup {
  SprMarkup_Name : string;
  SprMarkup_RGBAPixels : list byte;
  SprMarkup_Size : ivec2;
  SprMarkup_ScreenMode : Z;
  SprMarkup_Flags : Z
}.

(** One sprite of [spr_info.json], and one set. *)
Record JsonSprite : Set := mkJsonSprite {
  JsonSprite_Name : string;
  JsonSprite_File : string;
  JsonSprite_InternalId : option Z
}.
Record JsonSet : Set := mkJsonSet {
  JsonSet_Name : string;
  JsonSet_Sprites : list JsonSprite
}.

Class Toolchain : Type := {
  (** [json::parse] of the content of a file that could be read, [None]
      for a file that could not. *)
  ReadJsonSets : string -> option (list JsonSet);
  (** [Comfy::ReadImageFile]: the size and the pixels of an image. *)
  ReadImageFile : string -> ivec2 * list byte;
  (** [Comfy::SprPacker::Create], given [Settings.AllowYCbCrTextures]. *)
  SprPacker_Create : bool -> list SprMarkup -> SprSet;
  ScreenMode_HDTV1080 : Z;
  SprMarkupFlags_Compress : Z
}.

(** [Archive::FArcPacker::FArcFile] *)
Record FArcFile : Set := mkFArcFile {
  FArcFile_Filename : string;
  FArcFile_Data : list byte;
  FArcFile_Size : nat
}.

(** A file the program wrote. *)
Inductive FileWrite : Set :=
| WriteFArc (path : string) (files : list FArcFile)
| WriteDatabase (path : string) (db : Database.SpriteDatabase).

Section Compile.
Context `{Environment} `{Toolchain} `{TexSignature}.

(** Line 13. *)
Definition CumulativeSetNames : list string := ["SPR_SEL_PVTMB"].

(** ** [ParseSpriteInfo], lines 16-50 *)

(** Lines 40-46. *)
Definition parse_sprites (rootPath : string) (srcSet : JsonSet) : list Sprite.SpriteInfo :=
  (fun srcSpr =>
     {| Sprite.SpriteInfo_Name := JsonSprite_Name srcSpr;
        Sprite.SpriteInfo_File := rootPath +:+ "/" +:+ JsonSprite_File srcSpr;
        Sprite.SpriteInfo_InternalId := default (-1) (JsonSprite_InternalId srcSpr) |})
  <$> JsonSet_Sprites srcSet.

(** Lines 32-34: an entry is appended to the cumulative list for every
    cumulative name the set's name matches. *)
Definition cumulative_matches (setName : string) : nat :=
  length (filter (fun name => strncmp_eq setName name (String.length setName) = true)
                 CumulativeSetNames).

(** The body of the loop, lines 29-46: the set goes to the entry appended
    last to [cumulativeData], or to a new entry of [data]. *)
Definition parse_set (rootPath : string) (srcSet : JsonSet)
    (lists : Sprite.SpriteSetList * Sprite.SpriteSetList)
    : Sprite.SpriteSetList * Sprite.SpriteSetList :=
  let setInfo := Sprite.mkSpriteSetInfo (JsonSet_Name srcSet) (parse_sprites rootPath srcSet) in
  match cumulative_matches (JsonSet_Name srcSet) with
  | O => (lists.1 ++ [setInfo], lists.2)
  | S n => (lists.1, lists.2 ++ replicate n (Sprite.mkSpriteSetInfo "" []) ++ [setInfo])
  end.

(** [data] and [cumulativeData] are the two lists of the state. *)
Definition ParseSpriteInfo (rootPath : string)
    (lists : Sprite.SpriteSetList * Sprite.SpriteSetList)
    : bool * (Sprite.SpriteSetList * Sprite.SpriteSetList) :=
  let sprInfoPath := rootPath +:+ "/spr_info.json" in
  match ReadJsonSets sprInfoPath with
  | None => (false, lists)
  | Some sets => (true, foldl (fun acc srcSet => parse_set rootPath srcSet acc) lists sets)
  end.

(** ** [CheckSetInfoEligibleForPacking], lines 52-63 *)

Fixpoint all_files_exist (sprites : list Sprite.SpriteInfo) : bool :=
  match sprites with
  | [] => true
  | sprInfo :: rest =>
      if bool_decide (Sprite.SpriteInfo_File sprInfo = "") then false
      else if negb (Exists (Sprite.SpriteInfo_File sprInfo)) then false
      else all_files_exist rest
  end.

Definition CheckSetInfoEligibleForPacking (setInfo : Sprite.SpriteSetInfo) : bool :=
  all_files_exist (Sprite.SpriteSetInfo_Sprites setInfo).

(** ** [PackSpriteSet], lines 65-91 *)

Definition PackSpriteSet (setInfo : Sprite.SpriteSetInfo) : SprSet :=
  let markups :=
    (fun sprInfo =>
       let img := ReadImageFile (Sprite.SpriteInfo_File sprInfo) in
       {| SprMarkup_Name := Sprite.SpriteInfo_Name sprInfo;
          SprMarkup_RGBAPixels := img.2;
          SprMarkup_Size := img.1;
          SprMarkup_ScreenMode := ScreenMode_HDTV1080;
          SprMarkup_Flags := SprMarkupFlags_Compress |})
    <$> Sprite.SpriteSetInfo_Sprites setInfo in
  SprPacker_Create false markups.

(** ** [CompileSpriteSetsWithDB], lines 177-240 *)

(** Lines 198-204: the entry of one sprite. *)
Definition register_sprite (srcSetInfo : Sprite.SpriteSetInfo)
    (srcSprInfo : Sprite.SpriteInfo) : M (Z * MergeObj) unit :=
  o <- get_obj ;;
  id <- next_id ;;
  modify_obj (push_sprInfo
    {| Database.SpriteDataInfo_Name :=
         Sprite.SpriteSetInfo_Name srcSetInfo +:+ "_" +:+ Sprite.SpriteInfo_Name srcSprInfo;
       Database.SpriteDataInfo_DataIndex :=
         GetSpriteIndex o.1 (Sprite.SpriteInfo_Name srcSprInfo);
       Database.SpriteDataInfo_Id := id |}).

(** Lines 209-215: the entry of one texture.  The prefix is built from the
    set's name without its first four characters, of which there must be
    four. *)
Definition register_texture (srcSetInfo : Sprite.SpriteSetInfo) (texIndex : nat)
    (tex : Tex) : M (Z * MergeObj) unit :=
  let texName := if (0 <? String.length (Tex_Name tex))%nat
                 then Tex_Name tex else "MERGE_NOCOMP_0" in
  let setName := Sprite.SpriteSetInfo_Name srcSetInfo in
  (if (4 <=? String.length setName)%nat then ret tt else undefined) ;;
  let texPrefix := "SPRTEX_" +:+ substr 4 (String.length setName - 4) setName in
  id <- next_id ;;
  modify_obj (push_texInfo
    {| Database.SpriteDataInfo_Name := texPrefix +:+ "_" +:+ texName;
       Database.SpriteDataInfo_DataIndex := to_i32 (Z.of_nat texIndex);
       Database.SpriteDataInfo_Id := id |}).

(** Lines 192-219, on the packed sprite set and the database entry added
    for it. *)
Definition register_set (srcSetInfo : Sprite.SpriteSetInfo) : M (Z * MergeObj) unit :=
  id <- next_id ;;
  modify_obj (fun o =>
    (o.1, {| Database.SpriteSetInfo_Name := Sprite.SpriteSetInfo_Name srcSetInfo;
             Database.SpriteSetInfo_Filename :=
               ToLower (Sprite.SpriteSetInfo_Name srcSetInfo) +:+ ".bin";
             Database.SpriteSetInfo_Id := id;
             Database.SpriteSetInfo_Sprites := Database.SpriteSetInfo_Sprites o.2;
             Database.SpriteSetInfo_Textures := Database.SpriteSetInfo_Textures o.2 |})) ;;
  for_each (Sprite.SpriteSetInfo_Sprites srcSetInfo) (register_sprite srcSetInfo) ;;
  o <- get_obj ;;
  for_each_from 0 (TexSet_Textures (SprSet_TexSet o.1)) (register_texture srcSetInfo) ;;
  _ <- MergeBaseSpriteData ;;
  ret tt.

(** The database being built and the files written so far. *)
Definition CompileObj : Set := (Database.SpriteDatabase * list FileWrite)%type.

(** The body of the loop, lines 183-233. *)
Definition compile_set (outputPath : string) (srcSetInfo : Sprite.SpriteSetInfo)
    : M (Z * CompileObj) unit :=
  if negb (CheckSetInfoEligibleForPacking srcSetInfo) then ret tt
  else
    o <- call_with (PackSpriteSet srcSetInfo, Database.new_SpriteSetInfo)
           (register_set srcSetInfo ;; get_obj)
           (fun packed (c : CompileObj) =>
              (Database.mkSpriteDatabase (Database.SpriteSets c.1 ++ [packed.2]), c.2)) ;;
    data <- defined (encode (T:=SprSet) (SprSet_fuel o.1) o.1) ;;
    let lower := ToLower (Sprite.SpriteSetInfo_Name srcSetInfo) in
    let file := {| FArcFile_Filename := lower +:+ ".bin"; FArcFile_Data := data;
                   FArcFile_Size := length data |} in
    modify_obj (fun c : CompileObj =>
      (c.1, c.2 ++ [WriteFArc (outputPath +:+ "/" +:+ lower +:+ ".farc") [file]])).

(** The database starts empty; the function leaves it, and the files, in
    the state. *)
Definition CompileSpriteSetsWithDB (outputPath : string) (info : Sprite.SpriteSetList)
    : M (Z * list FileWrite) unit :=
  zoom (fun files => (Database.mkSpriteDatabase [], files))
       (fun (c : CompileObj) _ => c.2 ++ [WriteDatabase (outputPath +:+ "/mod_spr_db.bin") c.1])
       (for_each info (compile_set outputPath)).

(** ** [CompileSpriteData], lines 242-250 *)

Definition CompileSpriteData (rootPath outputPath : string)
    (cumulativeSetsInfo : Sprite.SpriteSetList)
    : M (Z * list FileWrite) (bool * Sprite.SpriteSetList) :=
  let parsed := ParseSpriteInfo rootPath ([], cumulativeSetsInfo) in
  if negb parsed.1 then ret (false, parsed.2.2)
  else
    CompileSpriteSetsWithDB outputPath parsed.2.1 ;;
    ret (true, parsed.2.2).
End Compile.

(** ** Eligibility *)

Section CompileProps.
Context `{Environment} `{Toolchain} `{TexSignature}.

(** A sprite whose source file is named and exists. *)
Definition has_source (sprInfo : Sprite.SpriteInfo) : Prop :=
  Sprite.SpriteInfo_File sprInfo <> "" /\ Exists (Sprite.SpriteInfo_File sprInfo) = true.

Definition eligible (setInfo : Sprite.SpriteSetInfo) : Prop :=
  CheckSetInfoEligibleForPacking setInfo = true.

#[export] Instance eligible_dec setInfo : Decision (eligible setInfo).
Proof. unfold eligible. apply _. Defined.

Lemma all_files_exist_Forall sprites :
  all_files_exist sprites = true <-> Forall has_source sprites.
Proof.
  induction sprites as [|sprInfo rest IH]; simpl; [by split; [constructor|]|].
  rewrite Forall_cons, <- IH. unfold has_source.
  case_bool_decide as Hempty; [by split; [|intros [[] _]]|].
  destruct (Exists _); simpl; [tauto|]. by split; [|intros [[] _]].
Qed.

Lemma compile_set_ineligible outputPath srcSetInfo s :
  ~ eligible srcSetInfo -> compile_set outputPath srcSetInfo s = (Val tt, s).
Proof.
  unfold eligible, compile_set. intros Hne%not_true_is_false. by rewrite Hne.
Qed.

Lemma CompileSpriteSetsWithDB_eligible outputPath info s :
  CompileSpriteSetsWithDB outputPath info s =
  CompileSpriteSetsWithDB outputPath (filter eligible info) s.
Proof.
  unfold CompileSpriteSetsWithDB, zoom.
  by rewrite (for_each_filter eligible) by (intros; by apply compile_set_ineligible).
Qed.

(** ** The ledger of identifiers through registration *)

(** A step that takes one identifier from the counter and gives it to a
    new entry of the set. *)
Definition allocates (f : M (Z * MergeObj) unit) : Prop :=
  forall c o s', f (c, o) = (Val tt, s') ->
    s'.1 = to_u32 (c + 1) /\ s'.2.1 = o.1 /\
    Database.entry_ids s'.2.2 ≡ₚ Database.entry_ids o.2 ++ [c].

Lemma register_sprite_allocates srcSetInfo srcSprInfo :
  allocates (register_sprite srcSetInfo srcSprInfo).
Proof.
  intros c o s'. unfold register_sprite, bind, get_obj, next_id, modify_obj. simpl.
  intros [= <-]. simpl. repeat split. apply entry_ids_emplace_Sprite.
Qed.

Lemma register_texture_allocates srcSetInfo texIndex tex :
  allocates (register_texture srcSetInfo texIndex tex).
Proof.
  intros c o s'. unfold register_texture. cbv zeta.
  destruct (Nat.leb 4 (String.length (Sprite.SpriteSetInfo_Name srcSetInfo))); [|done].
  unfold bind, next_id, modify_obj, ret. cbn [fst snd].
  intros [= <-]. repeat split. cbn [fst snd push_texInfo]. by rewrite entry_ids_emplace_Texture.
Qed.

(** The invariant of a loop of such steps. *)
Definition ledger (c0 : Z) (lo n : nat) (sprSet : SprSet) (s : Z * MergeObj) : Prop :=
  s.1 = Database.nth_id c0 n /\ s.2.1 = sprSet /\
  Database.issued c0 lo n (Database.entry_ids s.2.2).

Lemma allocates_ledger c0 lo n sprSet f s s' :
  allocates f -> (lo <= n)%nat -> ledger c0 lo n sprSet s ->
  f s = (Val tt, s') -> ledger c0 lo (S n) sprSet s'.
Proof.
  intros Hf Hlo (Hc & Hset & Hids) Hrun. destruct s as [c o], s' as [c' o'].
  apply Hf in Hrun as (Hc' & Hset' & Hids'). unfold ledger. simpl in *. subst c c'.
  split; [apply Database.nth_id_succ|]. split; [congruence|].
  rewrite Hids'. by apply Database.issued_snoc.
Qed.

Lemma for_each_ledger {A} c0 lo n sprSet (l : list A) f s s' :
  (forall x, allocates (f x)) -> (lo <= n)%nat -> ledger c0 lo n sprSet s ->
  for_each l f s = (Val tt, s') -> ledger c0 lo (n + length l) sprSet s'.
Proof.
  intros Hf Hlo Hs Hrun.
  apply (for_each_inv (fun i => ledger c0 lo (n + i) sprSet) _ _ _ _) in Hrun; [done| |].
  - intros i x s1 s2 _ Hs1 Hx. replace (n + S i)%nat with (S (n + i)) by lia.
    eapply allocates_ledger; [apply Hf|lia|done..].
  - by rewrite Nat.add_0_r.
Qed.

Lemma for_each_from_ledger {A} c0 lo n sprSet (l : list A) f s s' :
  (forall i x, allocates (f i x)) -> (lo <= n)%nat -> ledger c0 lo n sprSet s ->
  for_each_from 0 l f s = (Val tt, s') -> ledger c0 lo (n + length l) sprSet s'.
Proof.
  intros Hf Hlo Hs Hrun.
  apply (for_each_from_inv (fun i => ledger c0 lo (n + i) sprSet) _ _ _ _) in Hrun; [done| |].
  - intros i x s1 s2 _ Hs1 Hx. replace (n + S i)%nat with (S (n + i)) by lia.
    eapply allocates_ledger; [apply Hf|lia|done..].
  - by rewrite Nat.add_0_r.
Qed.

(** Registering a set takes one identifier for the set, then one for
    each entry. *)
Lemma register_set_issued c0 n srcSetInfo o c' o' :
  Database.entry_ids o.2 = [] ->
  register_set srcSetInfo (Database.nth_id c0 n, o) = (Val tt, (c', o')) ->
  exists n', (S n <= n')%nat /\ c' = Database.nth_id c0 n' /\
             Database.issued c0 (S n) n' (Database.entry_ids o'.2).
Proof.
  intros Hnil Hrun. unfold register_set in Hrun.
  apply bind_Val_inv in Hrun as (id & s1 & [= <- <-] & Hrun).
  apply bind_Val_inv in Hrun as ([] & s2 & [= <-] & Hrun).
  apply bind_Val_inv in Hrun as ([] & s3 & Hsprites & Hrun).
  apply bind_Val_inv in Hrun as (o3 & s3' & [= <- <-] & Hrun).
  apply bind_Val_inv in Hrun as ([] & [c4 o4] & Htextures & Hrun).
  apply bind_Val_inv in Hrun as (b & s5 & Hmerge & [= ->]).
  apply (for_each_ledger c0 (S n) (S n) o.1) in Hsprites;
    [|by intros; apply register_sprite_allocates|lia|].
  2:{ repeat split; [apply Database.nth_id_succ|]. simpl.
      unfold Database.entry_ids in *. simpl. rewrite Hnil. apply Database.issued_nil. }
  apply (for_each_from_ledger c0 (S n)
           (S n + length (Sprite.SpriteSetInfo_Sprites srcSetInfo)) o.1) in Htextures;
    [|by intros; apply register_texture_allocates|lia|done].
  destruct Htextures as (Hc4 & _ & Hids4). simpl in Hc4, Hids4. subst c4.
  apply (MergeBaseSpriteData_issued c0 (S n)) in Hmerge as (n' & Hn' & -> & Hids);
    [|lia|done].
  exists n'. repeat split; [lia|done].
Qed.

(** The invariant of the loop over the sets: the counter and the entries
    of the database built so far, which were issued from allocation [lo]
    on. *)
Definition db_ledger (c0 : Z) (lo : nat) (s : Z * CompileObj) : Prop :=
  exists n, (lo <= n)%nat /\ s.1 = Database.nth_id c0 n /\
            Database.issued c0 lo n (Database.database_entry_ids s.2.1).

Lemma compile_set_ledger c0 lo outputPath srcSetInfo s s' :
  db_ledger c0 lo s ->
  compile_set outputPath srcSetInfo s = (Val tt, s') ->
  db_ledger c0 lo s'.
Proof.
  intros (n & Hlo & Hc & Hids) Hrun. destruct s as [c [db files]]. simpl in *. subst c.
  unfold compile_set in Hrun. destruct (negb _); [injection Hrun as <-; by exists n|].
  apply bind_Val_inv in Hrun as (o & s1 & Hcall & Hrun).
  apply bind_Val_inv in Hrun as (data & s2 & [_ ->]%defined_Val_inv & [= <-]).
  apply call_with_Val_inv in Hcall as (c1 & o1 & Hreg & ->).
  apply bind_Val_inv in Hreg as ([] & [c2 o2] & Hreg & [= <- <- <-]).
  apply register_set_issued in Hreg as (n' & Hn' & -> & Hset); [|done].
  exists n'. split; [lia|]. split; [done|]. simpl. rewrite database_entry_ids_snoc.
  eapply Database.issued_app; [|done|]; [lia|].
  eapply Database.issued_weaken; [| |done]; lia.
Qed.

(** ** The identifiers of a whole run *)

(** The identifiers of the entries of the databases written so far. *)
Definition written_ids (files : list FileWrite) : list Z :=
  files ≫= (fun f => match f with
                     | WriteDatabase _ db => Database.database_entry_ids db
                     | WriteFArc _ _ => []
                     end).

(** The counter and the files between two calls of the compiler: every
    identifier of a written database was issued by the counter. *)
Definition run_ledger (c0 : Z) (s : Z * list FileWrite) : Prop :=
  exists n, s.1 = Database.nth_id c0 n /\ Database.issued c0 0 n (written_ids s.2).

Lemma written_ids_app files files' :
  written_ids (files ++ files') = written_ids files ++ written_ids files'.
Proof. apply bind_app. Qed.

Lemma compile_set_written_ids outputPath srcSetInfo s s' :
  compile_set outputPath srcSetInfo s = (Val tt, s') ->
  written_ids s'.2.2 = written_ids s.2.2.
Proof.
  intros Hrun. destruct s as [c [db files]]. unfold compile_set in Hrun.
  destruct (negb _); [by injection Hrun as <-|].
  apply bind_Val_inv in Hrun as (o & s1 & Hcall & Hrun).
  apply bind_Val_inv in Hrun as (data & s2 & [_ ->]%defined_Val_inv & [= <-]).
  apply call_with_Val_inv in Hcall as (c1 & o1 & _ & ->). simpl.
  by rewrite written_ids_app, app_nil_r.
Qed.

Lemma CompileSpriteSetsWithDB_run_ledger c0 outputPath info s s' :
  run_ledger c0 s ->
  CompileSpriteSetsWithDB outputPath info s = (Val tt, s') ->
  run_ledger c0 s'.
Proof.
  intros (n0 & Hc & Hids) Hrun. destruct s as [c files]. simpl in *. subst c.
  unfold CompileSpriteSetsWithDB in Hrun.
  apply zoom_Val_inv in Hrun as (c1 & [db files1] & Hrun & ->).
  apply (for_each_inv (fun _ s => db_ledger c0 n0 s /\
                                  written_ids s.2.2 = written_ids files)) in Hrun
    as ((n & Hn0 & Hn & Hdb) & Hfiles).
  - exists n. simpl in *. split; [done|].
    rewrite written_ids_app, Hfiles. simpl. rewrite app_nil_r.
    apply (Database.issued_app c0 0 n0 n); [lia|done|done].
  - intros i x s1 s2 _ [Hl Hf] Hx. split; [by eapply compile_set_ledger|].
    rewrite <- Hf. by eapply compile_set_written_ids.
  - split; [|done]. exists n0. split; [done|]. split; [done|apply Database.issued_nil].
Qed.

Lemma CompileSpriteData_run_ledger c0 rootPath outputPath cumulativeSetsInfo s r s' :
  run_ledger c0 s ->
  CompileSpriteData rootPath outputPath cumulativeSetsInfo s = (Val r, s') ->
  run_ledger c0 s'.
Proof.
  intros Hs Hrun. unfold CompileSpriteData in Hrun.
  destruct (negb _); [by injection Hrun as _ <-|].
  apply bind_Val_inv in Hrun as ([] & s1 & Hrun & [= _ <-]).
  by eapply CompileSpriteSetsWithDB_run_ledger.
Qed.

(** ** Registration as a function

    The entry [register_set] builds for a packed set, before the merge,
    when identifiers are issued from [c]. *)

Definition sprite_entry (srcSetInfo : Sprite.SpriteSetInfo) (sprSet : SprSet) (c : Z)
    (i : nat) (srcSprInfo : Sprite.SpriteInfo) : Database.SpriteDataInfo :=
  {| Database.SpriteDataInfo_Name :=
       Sprite.SpriteSetInfo_Name srcSetInfo +:+ "_" +:+ Sprite.SpriteInfo_Name srcSprInfo;
     Database.SpriteDataInfo_DataIndex :=
       GetSpriteIndex sprSet (Sprite.SpriteInfo_Name srcSprInfo);
     Database.SpriteDataInfo_Id := to_u32 (c + Z.of_nat i) |}.

Definition texture_entry (srcSetInfo : Sprite.SpriteSetInfo) (c : Z) (start : nat)
    (i : nat) (tex : Tex) : Database.SpriteDataInfo :=
  let setName := Sprite.SpriteSetInfo_Name srcSetInfo in
  {| Database.SpriteDataInfo_Name :=
       ("SPRTEX_" +:+ substr 4 (String.length setName - 4) setName) +:+ "_" +:+
       (if (0 <? String.length (Tex_Name tex))%nat then Tex_Name tex else "MERGE_NOCOMP_0");
     Database.SpriteDataInfo_DataIndex := to_i32 (Z.of_nat (start + i));
     Database.SpriteDataInfo_Id := to_u32 (c + Z.of_nat i) |}.

Definition add_Sprites (es : list Database.SpriteDataInfo) (o : MergeObj) : MergeObj :=
  (o.1, {| Database.SpriteSetInfo_Name := Database.SpriteSetInfo_Name o.2;
           Database.SpriteSetInfo_Filename := Database.SpriteSetInfo_Filename o.2;
           Database.SpriteSetInfo_Id := Database.SpriteSetInfo_Id o.2;
           Database.SpriteSetInfo_Sprites := Database.SpriteSetInfo_Sprites o.2 ++ es;
           Database.SpriteSetInfo_Textures := Database.SpriteSetInfo_Textures o.2 |}).

Definition add_Textures (es : list Database.SpriteDataInfo) (o : MergeObj) : MergeObj :=
  (o.1, {| Database.SpriteSetInfo_Name := Database.SpriteSetInfo_Name o.2;
           Database.SpriteSetInfo_Filename := Database.SpriteSetInfo_Filename o.2;
           Database.SpriteSetInfo_Id := Database.SpriteSetInfo_Id o.2;
           Database.SpriteSetInfo_Sprites := Database.SpriteSetInfo_Sprites o.2;
           Database.SpriteSetInfo_Textures := Database.SpriteSetInfo_Textures o.2 ++ es |}).

Definition register_spec (srcSetInfo : Sprite.SpriteSetInfo) (c : Z) (sprSet : SprSet)
    : Z * MergeObj :=
  let sprites := Sprite.SpriteSetInfo_Sprites srcSetInfo in
  let textures := TexSet_Textures (SprSet_TexSet sprSet) in
  (to_u32 (c + 1 + Z.of_nat (length sprites) + Z.of_nat (length textures)),
   (sprSet,
    {| Database.SpriteSetInfo_Name := Sprite.SpriteSetInfo_Name srcSetInfo;
       Database.SpriteSetInfo_Filename :=
         ToLower (Sprite.SpriteSetInfo_Name srcSetInfo) +:+ ".bin";
       Database.SpriteSetInfo_Id := c;
       Database.SpriteSetInfo_Sprites := imap (sprite_entry srcSetInfo sprSet (c + 1)) sprites;
       Database.SpriteSetInfo_Textures :=
         imap (texture_entry srcSetInfo (c + 1 + Z.of_nat (length sprites)) 0) textures |})).

Lemma add_Sprites_nil o : add_Sprites [] o = o.
Proof. destruct o as [? []]. unfold add_Sprites. simpl. by rewrite app_nil_r. Qed.

Lemma add_Textures_nil o : add_Textures [] o = o.
Proof. destruct o as [? []]. unfold add_Textures. simpl. by rewrite app_nil_r. Qed.

Lemma register_sprites_run srcSetInfo l c o :
  is_u32 c ->
  for_each l (register_sprite srcSetInfo) (c, o) =
    (Val tt, (to_u32 (c + Z.of_nat (length l)),
              add_Sprites (imap (sprite_entry srcSetInfo o.1 c) l) o)).
Proof.
  revert c o. induction l as [|x l IH]; intros c o Hc.
  - simpl. unfold ret. by rewrite Z.add_0_r, add_Sprites_nil, to_u32_id.
  - cbn [for_each]. unfold bind at 1, register_sprite at 1, bind, get_obj, next_id,
      modify_obj. cbn [fst snd].
    rewrite IH by apply to_u32_range. rewrite to_u32_add_l.
    f_equal. f_equal; [f_equal; simpl length; lia|].
    destruct o as [sprSet []]. unfold add_Sprites, push_sprInfo, Database.emplace_Sprite.
    simpl. f_equal. f_equal. rewrite <- app_assoc. f_equal. simpl.
    f_equal; [unfold sprite_entry; by rewrite Z.add_0_r, to_u32_id|].
    apply imap_ext. intros i y _. unfold sprite_entry. simpl.
    rewrite to_u32_add_l. do 2 f_equal. lia.
Qed.

Lemma register_textures_run srcSetInfo l start c o :
  is_u32 c ->
  (4 <= String.length (Sprite.SpriteSetInfo_Name srcSetInfo))%nat ->
  for_each_from start l (register_texture srcSetInfo) (c, o) =
    (Val tt, (to_u32 (c + Z.of_nat (length l)),
              add_Textures (imap (texture_entry srcSetInfo c start) l) o)).
Proof.
  intros Hc Hname. revert start c o Hc. induction l as [|x l IH]; intros start c o Hc.
  - simpl. unfold ret. by rewrite Z.add_0_r, add_Textures_nil, to_u32_id.
  - cbn [for_each_from]. unfold bind at 1, register_texture at 1. cbv zeta.
    apply Nat.leb_le in Hname as Hleb. rewrite Hleb.
    unfold bind, ret, next_id, modify_obj. cbn [fst snd].
    rewrite IH by apply to_u32_range. rewrite to_u32_add_l.
    f_equal. f_equal; [f_equal; simpl length; lia|].
    destruct o as [sprSet []]. unfold add_Textures, push_texInfo, Database.emplace_Texture.
    simpl. f_equal. f_equal. rewrite <- app_assoc. f_equal. simpl.
    f_equal; [unfold texture_entry; by rewrite Z.add_0_r, Nat.add_0_r, to_u32_id|].
    apply imap_ext. intros i y _. unfold texture_entry. simpl. rewrite to_u32_add_l.
    f_equal; [do 2 f_equal; lia|f_equal; lia].
Qed.

(** A set whose name has fewer than four characters has no texture
    prefix: registering a texture for it is undefined. *)
Lemma register_textures_short_name srcSetInfo tex l start s :
  (String.length (Sprite.SpriteSetInfo_Name srcSetInfo) < 4)%nat ->
  (for_each_from start (tex :: l) (register_texture srcSetInfo) s).1 = Undef.
Proof.
  intros Hname%Nat.leb_gt. cbn [for_each_from].
  unfold bind at 1, register_texture at 1. cbv zeta. by rewrite Hname.
Qed.

Lemma register_set_run srcSetInfo c sprSet :
  is_u32 c ->
  (4 <= String.length (Sprite.SpriteSetInfo_Name srcSetInfo))%nat ->
  register_set srcSetInfo (c, (sprSet, Database.new_SpriteSetInfo)) =
    (MergeBaseSpriteData ;; ret tt) (register_spec srcSetInfo c sprSet).
Proof.
  intros Hc Hname. unfold register_set.
  unfold bind at 1, next_id at 1. cbn [fst snd].
  unfold bind at 1, modify_obj at 1. cbn [fst snd].
  unfold bind at 1. rewrite register_sprites_run by apply to_u32_range.
  unfold bind at 1, get_obj at 1. cbn [fst snd].
  unfold bind at 1. rewrite register_textures_run by (done || apply to_u32_range).
  unfold register_spec, add_Textures, add_Sprites. simpl.
  rewrite !to_u32_add_l.
  rewrite (imap_ext (sprite_entry srcSetInfo sprSet (to_u32 (c + 1)))
                    (sprite_entry srcSetInfo sprSet (c + 1)))
    by (intros; unfold sprite_entry; by rewrite to_u32_add_l).
  rewrite (imap_ext (texture_entry srcSetInfo (to_u32 (c + 1 + _)) 0)
                    (texture_entry srcSetInfo (c + 1 + _) 0))
    by (intros; unfold texture_entry; by rewrite to_u32_add_l).
  by rewrite <- (Z.add_assoc (to_u32 _)), to_u32_add_l, Z.add_assoc.
Qed.

Lemma register_spec_tex_indexed srcSetInfo c sprSet :
  tex_indexed (register_spec srcSetInfo c sprSet).2.
Proof.
  unfold tex_indexed, register_spec. simpl. rewrite fmap_imap.
  by rewrite <- (imap_seq_0 _ (fun i => to_i32 (Z.of_nat i))).
Qed.

(** ** [ParseSpriteInfo] as two filters *)

(** A set whose name matches a cumulative name, and the manifest entry of
    a set. *)
Definition cumulative (srcSet : JsonSet) : Prop :=
  strncmp_eq (JsonSet_Name srcSet) "SPR_SEL_PVTMB"
    (String.length (JsonSet_Name srcSet)) = true.

#[export] Instance cumulative_dec srcSet : Decision (cumulative srcSet).
Proof. unfold cumulative. apply _. Defined.

Definition set_info (rootPath : string) (srcSet : JsonSet) : Sprite.SpriteSetInfo :=
  Sprite.mkSpriteSetInfo (JsonSet_Name srcSet) (parse_sprites rootPath srcSet).

Lemma parse_set_cumulative rootPath srcSet lists :
  parse_set rootPath srcSet lists =
    if decide (cumulative srcSet)
    then (lists.1, lists.2 ++ [set_info rootPath srcSet])
    else (lists.1 ++ [set_info rootPath srcSet], lists.2).
Proof.
  unfold parse_set, cumulative_matches, CumulativeSetNames.
  destruct (decide (cumulative srcSet)) as [Hc|Hc]; unfold cumulative in Hc.
  - by rewrite filter_cons_True.
  - by rewrite filter_cons_False.
Qed.

Lemma foldl_parse_set rootPath sets lists :
  foldl (fun acc srcSet => parse_set rootPath srcSet acc) lists sets =
    (lists.1 ++ (set_info rootPath <$> filter (fun srcSet => ~ cumulative srcSet) sets),
     lists.2 ++ (set_info rootPath <$> filter cumulative sets)).
Proof.
  revert lists. induction sets as [|srcSet sets IH]; intros [data cumulativeData]; simpl.
  - by rewrite !app_nil_r.
  - rewrite IH, parse_set_cumulative, !filter_cons.
    destruct (decide (cumulative srcSet)) as [Hc|Hc]; simpl.
    + rewrite decide_False by tauto. by rewrite <- app_assoc.
    + rewrite decide_True by done. by rewrite <- app_assoc.
Qed.
End CompileProps.

(** ** What compilation guarantees *)

Section CompileTheorems.
Context `{Environment} `{Toolchain} `{TexSignature}.

(** C13: registration implements [register_spec].  For a set whose name
    has at least four characters, [register_set] on a new database entry
    is the merge run on the entry [register_spec] describes: the set takes
    the first identifier, its sprites the next ones in manifest order, its
    textures the following ones in texture order; without base data the
    result is that entry. *)
Theorem Registration_refines_register_spec srcSetInfo c sprSet :
  is_u32 c ->
  (4 <= String.length (Sprite.SpriteSetInfo_Name srcSetInfo))%nat ->
  register_set srcSetInfo (c, (sprSet, Database.new_SpriteSetInfo)) =
    (MergeBaseSpriteData ;; ret tt) (register_spec srcSetInfo c sprSet) /\
  (base_present (Sprite.SpriteSetInfo_Name srcSetInfo) = false ->
   register_set srcSetInfo (c, (sprSet, Database.new_SpriteSetInfo)) =
     (Val tt, register_spec srcSetInfo c sprSet)).
Proof.
  intros Hc Hname. rewrite register_set_run by done. split; [done|].
  intros Hp. unfold bind, register_spec. by rewrite MergeBaseSpriteData_absent.
Qed.

(** C15: a set name shorter than four characters.  The texture prefix is
    built from the name without its first four characters: for a packed
    set with at least one texture and a shorter name the behaviour of
    [register_set] is undefined. *)
Theorem Registration_short_name_undefined srcSetInfo c o :
  (String.length (Sprite.SpriteSetInfo_Name srcSetInfo) < 4)%nat ->
  TexSet_Textures (SprSet_TexSet o.1) <> [] ->
  (register_set srcSetInfo (c, o)).1 = Undef.
Proof.
  intros Hname Htex. unfold register_set.
  unfold bind at 1, next_id at 1. cbn [fst snd].
  unfold bind at 1, modify_obj at 1. cbn [fst snd].
  unfold bind at 1. rewrite register_sprites_run by apply to_u32_range.
  unfold bind at 1, get_obj at 1. cbn [fst snd add_Sprites].
  destruct (TexSet_Textures (SprSet_TexSet o.1)) as [|tex l] eqn:Htexs; [done|].
  unfold bind at 1.
  match goal with |- context [for_each_from 0 (tex :: l) ?f ?s] =>
    pose proof (register_textures_short_name srcSetInfo tex l 0 s Hname) as Hundef;
    by destruct (for_each_from 0 (tex :: l) f s) as [[] ?]; simplify_eq/=
  end.
Qed.

(** C12: eligibility gating.  A set with a sprite whose source file is not
    named or does not exist is skipped as a whole: compiling a list of
    sets that contains it leaves the same state, files and counter
    included, as compiling the list without it. *)
Theorem Ineligible_set_contributes_nothing outputPath info1 setInfo info2 s :
  ~ Forall has_source (Sprite.SpriteSetInfo_Sprites setInfo) ->
  CompileSpriteSetsWithDB outputPath (info1 ++ setInfo :: info2) s =
  CompileSpriteSetsWithDB outputPath (info1 ++ info2) s.
Proof.
  intros Hmissing.
  rewrite CompileSpriteSetsWithDB_eligible, (CompileSpriteSetsWithDB_eligible _ (_ ++ info2)).
  rewrite !(filter_app eligible), (filter_cons_False eligible); [done|].
  unfold eligible, CheckSetInfoEligibleForPacking. by rewrite all_files_exist_Forall.
Qed.


(** C14: texture entries index the textures.  After [register_set], merge
    included, the set's database entry has one texture entry per texture
    of the set written to disk, and entry [i] has data index [i]. *)
Theorem Registration_indexes_textures srcSetInfo c sprSet c' sprSet' setInfo' :
  is_u32 c ->
  (4 <= String.length (Sprite.SpriteSetInfo_Name srcSetInfo))%nat ->
  register_set srcSetInfo (c, (sprSet, Database.new_SpriteSetInfo)) =
    (Val tt, (c', (sprSet', setInfo'))) ->
  Database.SpriteDataInfo_DataIndex <$> Database.SpriteSetInfo_Textures setInfo' =
    (fun i => to_i32 (Z.of_nat i)) <$> seq 0 (length (TexSet_Textures (SprSet_TexSet sprSet'))).
Proof.
  intros Hc Hname Hrun. rewrite register_set_run in Hrun by done.
  apply bind_Val_inv in Hrun as (b & s1 & Hmerge & [= ->]).
  unfold register_spec in Hmerge.
  apply MergeBaseSpriteData_tex_indexed in Hmerge; [done|apply to_u32_range|].
  apply (register_spec_tex_indexed srcSetInfo c sprSet).
Qed.

(** C16: [ParseSpriteInfo] routes the sets of the manifest.  A manifest
    that cannot be read leaves both lists unchanged and the result is
    [false]; otherwise the sets whose name matches [SPR_SEL_PVTMB] over
    the length of their own name are appended to the cumulative list and
    the others to the data list, each in manifest order, with the
    sprites' files prefixed by the root path and -1 for a missing
    [InternalId]. *)
Theorem ParseSpriteInfo_routes rootPath lists :
  ParseSpriteInfo rootPath lists =
    match ReadJsonSets (rootPath +:+ "/spr_info.json") with
    | None => (false, lists)
    | Some sets =>
        (true,
         (lists.1 ++ (set_info rootPath <$> filter (fun srcSet => ~ cumulative srcSet) sets),
          lists.2 ++ (set_info rootPath <$> filter cumulative sets)))
    end.
Proof.
  unfold ParseSpriteInfo. destruct (ReadJsonSets _) as [sets|]; [|done].
  by rewrite foldl_parse_set.
Qed.
End CompileTheorems.

(** ** A mod, for the examples

    A manifest of four sets: [SPR_SEL], which the base game also has (the
    base data is that of [MergeExample]), [SPR_GAM], which it has not,
    [SPR_CMN], one of whose source files is missing, and [SPR_SEL_PV],
    whose name matches the cumulative name.  The packer of the example
    puts every sprite of a set on one texture. *)
Module CompileExample.
#[local] Existing Instance signature_by_array_size.

Definition env : Environment :=
  {| Exists p := bool_decide (p ∈ ["./base_spr_sel.bin"; "./base_spr_db.bin";
                                   "mod/new_a.png"; "mod/new_b.png"; "mod/gam.png"]);
     Content := Content (Environment:=MergeExample.env);
     Parse := Parse (Environment:=MergeExample.env) |}.

Definition manifest : list JsonSet :=
  [ mkJsonSet "SPR_SEL" [mkJsonSprite "NEW_A" "new_a.png" None;
                         mkJsonSprite "NEW_B" "new_b.png" (Some 7)];
    mkJsonSet "SPR_CMN" [mkJsonSprite "CMN_A" "new_a.png" None;
                         mkJsonSprite "CMN_B" "missing.png" None];
    mkJsonSet "SPR_SEL_PV" [mkJsonSprite "PV" "new_a.png" None];
    mkJsonSet "SPR_GAM" [mkJsonSprite "GAM" "gam.png" None] ].

Definition toolchain : Toolchain :=
  {| ReadJsonSets p := if bool_decide (p = "mod/spr_info.json") then Some manifest else None;
     ReadImageFile _ := (mkivec2 2 2, [Byte.x01; Byte.x02; Byte.x03; Byte.x04]);
     SprPacker_Create _ markups :=
       {| SprSet_Flags := 0;
          SprSet_TexSet := mkTexSet [mkTex "MERGE_D5COMP_000" [[MergeExample.mip Byte.x02]]];
          SprSet_Sprites := (fun m => MergeExample.sprite (SprMarkup_Name m) 0) <$> markups |};
     ScreenMode_HDTV1080 := 2;
     SprMarkupFlags_Compress := 1 |}.

(** The sets [ParseSpriteInfo] finds in the mod. *)
Definition parsed : bool * (Sprite.SpriteSetList * Sprite.SpriteSetList) :=
  Eval vm_compute in ParseSpriteInfo (H0:=toolchain) "mod" ([], []).

(** All of them, the cumulative ones first, and what compiling them
    writes, from the initial counter. *)
Definition sets : Sprite.SpriteSetList := Eval vm_compute in parsed.2.2 ++ parsed.2.1.

Definition compiled : Res unit * (Z * list FileWrite) :=
  Eval vm_compute in
    CompileSpriteSetsWithDB (H:=env) (H0:=toolchain) "out" sets
      (CurrentSpriteId_initial, []).

(** The database written. *)
Definition database : Database.SpriteDatabase :=
  Eval vm_compute in
    match last compiled.2.2 with
    | Some (WriteDatabase _ db) => db
    | _ => Database.mkSpriteDatabase []
    end.
End CompileExample.

(** ** The theorems on the example *)

Section CompileWitnesses.
Import CompileExample.
#[local] Existing Instance signature_by_array_size.

Definition src_gam : Sprite.SpriteSetInfo :=
  Sprite.mkSpriteSetInfo "SPR_GAM" [Sprite.mkSpriteInfo "GAM" "mod/gam.png" (-1)].
Definition src_cmn : Sprite.SpriteSetInfo :=
  Sprite.mkSpriteSetInfo "SPR_CMN"
    [Sprite.mkSpriteInfo "CMN_A" "mod/new_a.png" (-1);
     Sprite.mkSpriteInfo "CMN_B" "mod/missing.png" (-1)].

Lemma Registration_refines_register_spec_witness :
  let sprSet := PackSpriteSet (H0:=toolchain) src_gam in
  register_set (H:=env) src_gam (85000, (sprSet, Database.new_SpriteSetInfo)) =
    (MergeBaseSpriteData (H:=env) ;; ret tt) (register_spec src_gam 85000 sprSet) /\
  (base_present (H:=env) "SPR_GAM" = false ->
   register_set (H:=env) src_gam (85000, (sprSet, Database.new_SpriteSetInfo)) =
     (Val tt, register_spec src_gam 85000 sprSet)).
Proof.
  apply (Registration_refines_register_spec (H:=env) src_gam 85000);
    [unfold is_u32; lia|simpl; lia].
Defined.

Lemma Registration_short_name_undefined_witness :
  (register_set (H:=env) (Sprite.mkSpriteSetInfo "SPR" [])
     (85000, (MergeExample.packed_set, Database.new_SpriteSetInfo))).1 = Undef.
Proof.
  apply (Registration_short_name_undefined (H:=env)); [simpl; lia|done].
Defined.

Lemma Ineligible_set_contributes_nothing_witness :
  CompileSpriteSetsWithDB (H:=env) (H0:=toolchain) "out" ([src_gam] ++ src_cmn :: [])
    (CurrentSpriteId_initial, []) =
  CompileSpriteSetsWithDB (H:=env) (H0:=toolchain) "out" ([src_gam] ++ [])
    (CurrentSpriteId_initial, []).
Proof.
  apply (Ineligible_set_contributes_nothing (H:=env) (H0:=toolchain)).
  intros Hall. apply Forall_cons in Hall as [_ Hall]. apply Forall_cons in Hall as [[_ Hb] _].
  by vm_compute in Hb.
Defined.


Lemma Registration_indexes_textures_witness :
  let registered :=
    (register_set (H:=env) (Sprite.mkSpriteSetInfo "SPR_SEL" [])
       (85000, (MergeExample.packed_set, Database.new_SpriteSetInfo))).2.2 in
  Database.SpriteDataInfo_DataIndex <$> Database.SpriteSetInfo_Textures registered.2 =
    (fun i => to_i32 (Z.of_nat i)) <$>
      seq 0 (length (TexSet_Textures (SprSet_TexSet registered.1))).
Proof.
  apply (Registration_indexes_textures (H:=env) (Sprite.mkSpriteSetInfo "SPR_SEL" []) 85000
           MergeExample.packed_set
           (register_set (H:=env) (Sprite.mkSpriteSetInfo "SPR_SEL" [])
              (85000, (MergeExample.packed_set, Database.new_SpriteSetInfo))).2.1);
    [unfold is_u32; lia|simpl; lia|by vm_compute].
Defined.
End CompileWitnesses.
