(* ===== verification/Driver.v ===== *)
(** * Driver: the run of the program

    [main] of [main.cpp]: the loop over the mod directories, which hands
    the same vector [cumulativeSetsInfo] to every call of
    [CompileSpriteData], and the final call of [CompileSpriteSetsWithDB]
    on the sets collected in it.  The directory listing and the test for
    a directory are the environment ([FileSystem]); the directories the
    program creates are a list in its state, next to the files the
    compiler writes. *)

From Stdlib Require Import ZArith Lia List Strings.String.
From stdpp Require Import base tactics option list numbers strings.
From S2P Require Import Prelude Common Bytes AsciiStr Format Database Merge Compile.

(** ** What the driver calls *)

Class FileSystem : Type := {
  (** The entries [std::filesystem::directory_iterator(path)] yields, in
      its order: the path of each as a string, and [is_directory()]. *)
  directory_iterator : string -> list (string * bool);
  (** [IO::Directory::Exists], when the program starts. *)
  Directory_Exists : string -> bool
}.

(** Lines 8 and 9. *)
Definition ModsFolder : string := "./mods_102".
Definition SourceFolder : string := "rom_src".

(** What [main] has in hand: the files written so far, the directories
    created so far and the vector [cumulativeSetsInfo]. *)
Record DriverObj : Type := mkDriverObj {
  written : list FileWrite;
  created : list string;
  cumulativeSetsInfo : Sprite.SpriteSetList
}.

Section Driver.
Context `{Environment} `{Toolchain} `{TexSignature} `{FileSystem}.

(** Lines 13-20. *)
Definition modDirectories : list string :=
  foldl (fun dirs modDirectory =>
           if negb modDirectory.2 then dirs else dirs ++ [modDirectory.1])
        [] (directory_iterator ModsFolder).

(** [if (!IO::Directory::Exists(path)) IO::Directory::Create(path);],
    lines 28-29 and 36-37.  A directory the program created exists. *)
Definition ensure_directory (path : string) : M (Z * DriverObj) unit :=
  o <- get_obj ;;
  when (negb (Directory_Exists path || bool_decide (path ∈ created o)))
    (modify_obj (fun o =>
       mkDriverObj (written o) (created o ++ [path]) (cumulativeSetsInfo o))).

(** A call of the compiler, which appends to the files written. *)
Definition with_files {A} (m : M (Z * list FileWrite) A) : M (Z * DriverObj) A :=
  zoom written (fun files o => mkDriverObj files (created o) (cumulativeSetsInfo o)) m.

(** The body of the loop over the mods, lines 25-31. *)
Definition compile_mod (modRootDir : string) : M (Z * DriverObj) unit :=
  let modSrcSprFolder := modRootDir +:+ "/" +:+ SourceFolder +:+ "/2d" in
  let modSprFolder := modRootDir +:+ "/rom/2d" in
  ensure_directory modSprFolder ;;
  o <- get_obj ;;
  r <- with_files (CompileSpriteData modSrcSprFolder modSprFolder (cumulativeSetsInfo o)) ;;
  modify_obj (fun o => mkDriverObj (written o) (created o) r.2).

(** Lines 34-35. *)
Definition priorityFolder : string := ModsFolder +:+ "/AAA - MERGER PRIORITY".
Definition priority2dFolder : string := priorityFolder +:+ "/rom/2d".

(** Lines 11-41. *)
Definition main : M (Z * DriverObj) Z :=
  for_each modDirectories compile_mod ;;
  ensure_directory priority2dFolder ;;
  o <- get_obj ;;
  with_files (CompileSpriteSetsWithDB priority2dFolder (cumulativeSetsInfo o)) ;;
  ret 0.

(** The program from its start: the counter at 85000, nothing written. *)
Definition start : Z * DriverObj := (CurrentSpriteId_initial, mkDriverObj [] [] []).
End Driver.

(** ** The steps of the driver *)

Section DriverProps.
Context `{Environment} `{Toolchain} `{TexSignature} `{FileSystem}.

(** The directories of the listing, in its order. *)
Lemma foldl_directories (acc : list string) (l : list (string * bool)) :
  foldl (fun dirs modDirectory =>
           if negb modDirectory.2 then dirs else dirs ++ [modDirectory.1]) acc l =
  acc ++ (filter (fun e => e.2 = true) l).*1.
Proof.
  revert acc. induction l as [|[p []] l IH]; intros acc.
  - simpl. by rewrite app_nil_r.
  - rewrite filter_cons_True by done. simpl. by rewrite IH, <- app_assoc.
  - rewrite filter_cons_False by done. simpl. by rewrite IH.
Qed.

Lemma modDirectories_filter :
  modDirectories = (filter (fun e => e.2 = true) (directory_iterator ModsFolder)).*1.
Proof. apply (foldl_directories []). Qed.

(** [ensure_directory] returns and touches the created directories only. *)
Lemma ensure_directory_run path s :
  exists dirs, ensure_directory path s =
    (Val tt, (s.1, mkDriverObj (written s.2) dirs (cumulativeSetsInfo s.2))).
Proof.
  destruct s as [c [files dirs cumul]]. unfold ensure_directory, bind, get_obj. simpl.
  destruct (negb _); simpl; by eexists.
Qed.

(** The manifest directory of a mod, and the cumulative sets of its
    manifest. *)
Definition source_of (modRootDir : string) : string :=
  modRootDir +:+ "/" +:+ SourceFolder +:+ "/2d".

Definition cumulative_of (modRootDir : string) : Sprite.SpriteSetList :=
  match ReadJsonSets (source_of modRootDir +:+ "/spr_info.json") with
  | None => []
  | Some sets => set_info (source_of modRootDir) <$> filter cumulative sets
  end.

(** What a call of [CompileSpriteData] leaves in the cumulative vector. *)
Lemma CompileSpriteData_cumulative modRootDir outputPath cumul s r s' :
  CompileSpriteData (source_of modRootDir) outputPath cumul s = (Val r, s') ->
  r.2 = cumul ++ cumulative_of modRootDir.
Proof.
  unfold CompileSpriteData, ParseSpriteInfo, cumulative_of.
  destruct (ReadJsonSets _) as [sets|]; simpl.
  - intros Hrun. apply bind_Val_inv in Hrun as ([] & s1 & _ & [= <- _]).
    by rewrite foldl_parse_set.
  - intros [= <- _]. by rewrite app_nil_r.
Qed.

(** The calls of the compiler in one iteration of the loop, and in a run. *)
Lemma compile_mod_inv modRootDir s s' :
  compile_mod modRootDir s = (Val tt, s') ->
  exists dirs r c2 files2,
    CompileSpriteData (source_of modRootDir) (modRootDir +:+ "/rom/2d")
      (cumulativeSetsInfo s.2) (s.1, written s.2) = (Val r, (c2, files2)) /\
    s' = (c2, mkDriverObj files2 dirs r.2).
Proof.
  intros Hrun. unfold compile_mod in Hrun.
  destruct (ensure_directory_run (modRootDir +:+ "/rom/2d") s) as (dirs & Hdir).
  rewrite (bind_val _ _ _ _ _ Hdir) in Hrun.
  apply bind_Val_inv in Hrun as (o & s1 & [= <- <-] & Hrun).
  apply bind_Val_inv in Hrun as (r & s2 & Hcall & [= <-]).
  apply zoom_Val_inv in Hcall as (c2 & files2 & Hcall & ->). by exists dirs, r, c2, files2.
Qed.

Lemma main_inv s r s' :
  main s = (Val r, s') ->
  r = 0 /\
  exists s1 dirs c3 files3,
    for_each modDirectories compile_mod s = (Val tt, s1) /\
    CompileSpriteSetsWithDB priority2dFolder (cumulativeSetsInfo s1.2)
      (s1.1, written s1.2) = (Val tt, (c3, files3)) /\
    s' = (c3, mkDriverObj files3 dirs (cumulativeSetsInfo s1.2)).
Proof.
  intros Hrun. unfold main in Hrun.
  apply bind_Val_inv in Hrun as ([] & s1 & Hmods & Hrun).
  destruct (ensure_directory_run priority2dFolder s1) as (dirs & Hdir).
  rewrite (bind_val _ _ _ _ _ Hdir) in Hrun.
  apply bind_Val_inv in Hrun as (o & s2 & [= <- <-] & Hrun).
  apply bind_Val_inv in Hrun as ([] & s3 & Hcall & [= <- <-]).
  apply zoom_Val_inv in Hcall as (c3 & files3 & Hcall & ->).
  split; [done|]. by exists s1, dirs, c3, files3.
Qed.


(** It appends the cumulative sets of each mod's manifest to the vector. *)
Lemma compile_mods_cumulative dirs s s' :
  for_each dirs compile_mod s = (Val tt, s') ->
  cumulativeSetsInfo s'.2 = cumulativeSetsInfo s.2 ++ (dirs ≫= cumulative_of).
Proof.
  intros Hrun.
  apply (for_each_inv (fun i s' =>
           cumulativeSetsInfo s'.2 =
             cumulativeSetsInfo s.2 ++ (take i dirs ≫= cumulative_of))) in Hrun.
  - by rewrite firstn_all in Hrun.
  - intros i d s1 s2 Hd Hc (dirs' & r & c2 & files2 & Hcall & ->)%compile_mod_inv.
    apply CompileSpriteData_cumulative in Hcall. simpl.
    by rewrite Hcall, Hc, (take_S_r _ _ _ Hd), bind_app, bind_singleton, <- app_assoc.
  - simpl. by rewrite app_nil_r.
Qed.

(** The database of the priority folder is written last. *)
Lemma CompileSpriteSetsWithDB_last outputPath info s s' :
  CompileSpriteSetsWithDB outputPath info s = (Val tt, s') ->
  exists db, last s'.2 = Some (WriteDatabase (outputPath +:+ "/mod_spr_db.bin") db).
Proof.
  intros Hrun. unfold CompileSpriteSetsWithDB in Hrun.
  apply zoom_Val_inv in Hrun as (c & [db files] & _ & ->). exists db. apply last_snoc.
Qed.
End DriverProps.

(** ** What a run guarantees *)

Section DriverTheorems.
Context `{Environment} `{Toolchain} `{TexSignature} `{FileSystem}.


(** C17: what [main] compiles last.  A run that returns returns 0; the
    vector [cumulativeSetsInfo] holds, in the order of the directory
    listing, the sets of each mod's manifest whose name matches
    [SPR_SEL_PVTMB], and the last file written is the database of the
    priority folder. *)
Theorem main_collects_cumulative_sets c r c' o' :
  main (c, mkDriverObj [] [] []) = (Val r, (c', o')) ->
  r = 0 /\
  cumulativeSetsInfo o' = modDirectories ≫= cumulative_of /\
  exists db, last (written o') =
               Some (WriteDatabase "./mods_102/AAA - MERGER PRIORITY/rom/2d/mod_spr_db.bin" db).
Proof.
  intros (Hr & s1 & dirs & c3 & files3 & Hmods & Hlast & [= -> ->])%main_inv.
  split; [done|]. split; [by apply compile_mods_cumulative in Hmods|].
  by apply CompileSpriteSetsWithDB_last in Hlast.
Qed.

(** C18: a mod without manifest.  When [spr_info.json] of a mod cannot be
    read, the mod contributes nothing: its output directory is created if
    it did not exist, and the counter, the files and the cumulative sets
    stay as they were. *)
Theorem compile_mod_without_manifest modRootDir s :
  ReadJsonSets (modRootDir +:+ "/rom_src/2d/spr_info.json") = None ->
  exists dirs,
    compile_mod modRootDir s =
      (Val tt, (s.1, mkDriverObj (written s.2) dirs (cumulativeSetsInfo s.2))).
Proof.
  intros Hnone. unfold compile_mod.
  destruct (ensure_directory_run (modRootDir +:+ "/rom/2d") s) as (dirs & Hdir).
  exists dirs. rewrite (bind_val _ _ _ _ _ Hdir).
  unfold bind, get_obj, with_files, zoom, CompileSpriteData, ParseSpriteInfo. simpl.
  replace (ReadJsonSets _) with (@None (list JsonSet)); [done|].
  rewrite <- Hnone. f_equal. unfold SourceFolder. by rewrite !string_app_assoc.
Qed.
End DriverTheorems.

(** ** A run

    Two mods and a file in the mods folder.  Mod [a] has a manifest with a
    set [SPR_GAM] and a set [SPR_SEL_PV], whose name matches the
    cumulative name; mod [b] has no manifest; there is no base data. *)
Module DriverExample.
#[local] Existing Instance signature_by_array_size.

#[local] Instance fs : FileSystem :=
  {| directory_iterator p :=
       if bool_decide (p = "./mods_102")
       then [("./mods_102/a", true); ("./mods_102/notes.txt", false); ("./mods_102/b", true)]
       else [];
     Directory_Exists p := bool_decide (p = "./mods_102/a/rom/2d") |}.

#[local] Instance env : Environment :=
  {| Exists p := bool_decide (p ∈ ["./mods_102/a/rom_src/2d/gam.png";
                                   "./mods_102/a/rom_src/2d/pv.png"]);
     Content _ := [];
     Parse _ := Database.mkSpriteDatabase [] |}.

Definition manifest : list JsonSet :=
  [ mkJsonSet "SPR_GAM" [mkJsonSprite "GAM_A" "gam.png" None;
                         mkJsonSprite "GAM_B" "gam.png" None];
    mkJsonSet "SPR_SEL_PV" [mkJsonSprite "PV" "pv.png" None] ].

#[local] Instance toolchain : Toolchain :=
  {| ReadJsonSets p :=
       if bool_decide (p = "./mods_102/a/rom_src/2d/spr_info.json") then Some manifest
       else None;
     ReadImageFile _ := (mkivec2 2 2, [Byte.x01; Byte.x02; Byte.x03; Byte.x04]);
     SprPacker_Create _ markups :=
       {| SprSet_Flags := 0;
          SprSet_TexSet := mkTexSet [mkTex "MERGE_D5COMP_000" [[MergeExample.mip Byte.x02]]];
          SprSet_Sprites := (fun m => MergeExample.sprite (SprMarkup_Name m) 0) <$> markups |};
     ScreenMode_HDTV1080 := 2;
     SprMarkupFlags_Compress := 1 |}.

(** The state the run ends in. *)
Definition finish : Z * DriverObj := Eval vm_compute in (main start).2.

Lemma main_returns : main start = (Val 0, finish).
Proof. by vm_compute. Qed.


Lemma main_collects_cumulative_sets_witness :
  0 = 0 /\
  cumulativeSetsInfo finish.2 = modDirectories ≫= cumulative_of /\
  exists db, last (written finish.2) =
               Some (WriteDatabase "./mods_102/AAA - MERGER PRIORITY/rom/2d/mod_spr_db.bin" db).
Proof.
  apply (main_collects_cumulative_sets 85000 0 finish.1 finish.2). apply main_returns.
Defined.

Lemma compile_mod_without_manifest_witness :
  exists dirs,
    compile_mod "./mods_102/b" start =
      (Val tt, (start.1, mkDriverObj (written start.2) dirs (cumulativeSetsInfo start.2))).
Proof. apply compile_mod_without_manifest. by vm_compute. Defined.
End DriverExample.
